(** * Shallow embedding of the stock screening engine of ccupcpop/TestProject

    Three source files are modelled:
    - [StockTrend2.py]: [analyze_volume_price_pattern], the signal scoring
      classifier (module [Classifier]);
    - [StockTrend.py]: [fix_price_columns], the row normalisation of
      [analyze_stock_file] and its reversal screen (modules [PriceFix],
      [Normalizer], [Reversal]);
    - [StockTrend_Gemini.py]: [screen_stocks], the threshold screen
      (module [Threshold]).

    Prices are modelled as rationals [Q] (the decimal strings of the data
    files parse to them exactly), lot counts as integers [Z].  Missing values
    (NaN) are not modelled inside the detectors: a bar carries numbers. *)

From Stdlib Require Import String Ascii.
From Stdlib Require Import ZArith QArith Qminmax Qabs List Bool Lia Permutation Sorted.
From Stdlib Require Import Lqa.
Import ListNotations.

(** ** Python list helpers shared by the modules *)

(** [l[-n:]] (pandas [tail(n)]). *)
Definition py_tail {A} (n : nat) (l : list A) : list A :=
  skipn (length l - n) l.

(** [l[-a:-b]] for [b <= a <= len l]. *)
Definition py_slice_neg {A} (a b : nat) (l : list A) : list A :=
  firstn (a - b) (skipn (length l - a) l).

(** [l[-k]] for [1 <= k <= len l]. *)
Definition py_iloc_neg {A} (d : A) (k : nat) (l : list A) : A :=
  nth (length l - k) l d.

(** Python [max] over a non-empty list of numbers. *)
Definition zmax_list (l : list Z) : Z :=
  match l with
  | [] => 0%Z
  | x :: t => fold_left Z.max t x
  end.

Definition qmax_list (l : list Q) : Q :=
  match l with
  | [] => 0%Q
  | x :: t => fold_left Qmax t x
  end.

Definition qmin_list (l : list Q) : Q :=
  match l with
  | [] => 0%Q
  | x :: t => fold_left Qmin t x
  end.

(** Strict and non-strict comparisons on [Q] as booleans. *)
Definition Qltb (x y : Q) : bool := negb (Qle_bool y x).
Definition Qleb (x y : Q) : bool := Qle_bool x y.

(** * [analyze_volume_price_pattern] (StockTrend2.py) *)
Module Classifier.

(** One row of the frame after the numeric coercion of the columns
    開盤價, 最高價, 最低價, 收盤價 and 成交張數. *)
Record bar := mkBar {
  b_open : Q;
  b_high : Q;
  b_low : Q;
  b_close : Q;
  b_vol : Z
}.

Definition dummy_bar : bar := mkBar 0 0 0 0 0.

(** The entries appended to [signals]; the two support entries carry the
    support price printed in their text. *)
Inductive signal :=
| SigHighVolDay1            (* 🔥 高量第1天（觀察） *)
| SigAboveSupport (s : Q)   (* ✓ 在支撐線上方 *)
| SigBrokeSupport (s : Q)   (* ✗ 跌破支撐線 *)
| SigRedThreeSupport        (* 🚀 支撐線上方紅三兵（上車） *)
| SigRedThree               (* 📈 紅三兵 *)
| SigGreenThreeResist       (* 📉 壓力線下方綠三兵（減倉） *)
| SigGreenThree             (* 📉 綠三兵 *)
| SigBottomFractal          (* 🎯 支撐線上方底分型（上車） *)
| SigTopFractal             (* ⚠️ 壓力線下方頂分型（減倉） *)
| SigViolentSwing           (* ⚡ 上天入地（觀望） *)
| SigHighVolLowerShadow     (* 💡 高量下影線（機會） *)
| SigLowVolLowerShadow      (* ⚠️ 非高量下影線（風險） *)
| SigUpperShadowResist      (* ⚠️ 上影線碰壓力過不去（減倉） *)
| SigDownTrend              (* 📉 下跌趨勢確立 *)
| SigRisingLadder           (* ⚠️ 上漲梯量（風險） *)
| SigFallingLadder          (* 💡 下跌梯量（機會） *)
| SigBigVolSmallBody        (* ⚠️ 量大實體小（有人跑） *)
| SigRedRunGreen            (* 🚨 連紅≥4天見綠放量（減倉） *)
| SigHighVolDay1Observe     (* 📋 高量第1天：觀察為主 *)
| SigHighVolDay23.          (* ✨ 高量第2-3天支撐線上方（陽上陰觀） *)

(** The strings appended to [risk_factors]. *)
Inductive risk :=
| PoZhiCheng                (* 破支撐 *)
| LuSanBing                 (* 綠三兵 *)
| DingFenXing               (* 頂分型 *)
| JuLieBoDong               (* 劇烈波動 *)
| FeiGaoLiangXiaYingXian    (* 非高量下影線 *)
| YuZuHuiLuo                (* 遇阻回落 *)
| XiaDieQuShi               (* 下跌趨勢 *)
| ShangZhangTiLiang         (* 上漲梯量 *)
| LiangDaShiTiXiao          (* 量大實體小 *)
| LianHongFangLiangShouLu.  (* 連紅後放量收綠 *)

Inductive action :=
| ShangChe   (* 上車, enter *)
| ZhongCang  (* 重倉, heavy-load *)
| JianCang   (* 減倉, reduce *)
| QingCang   (* 清倉, exit *)
| GuanWang.  (* 觀望, hold *)

Inductive risk_level := Di (* 低 *) | Zhong (* 中 *) | Gao (* 高 *).

(** The mutable locals [action_score], [signals], [risk_factors]. *)
Record state := mkState {
  action_score : Z;
  signals : list signal;
  risk_factors : list risk
}.

Definition init_state : state := mkState 0 [] [].

Definition add_score (w : Z) (sg : signal) (s : state) : state :=
  mkState (action_score s + w) (signals s ++ [sg]) (risk_factors s).

Definition add_risk (w : Z) (sg : signal) (r : risk) (s : state) : state :=
  mkState (action_score s + w) (signals s ++ [sg]) (risk_factors s ++ [r]).

Definition reset_score (sg : signal) (rs : list risk) (s : state) : state :=
  mkState 0 (signals s ++ [sg]) (risk_factors s ++ rs).

(** The values computed before the detectors run: [recent], [latest],
    [prev_3], [is_high_volume], [high_volume_day], [support_price],
    [resistance_price]. *)
Record ctx := mkCtx {
  recent : list bar;
  latest : bar;
  prev_3 : bar;
  is_high_volume : bool;
  high_volume_day : nat;
  support_price : option Q;
  resistance_price : Q
}.

(** The loop [for i in range(1, 3)] that looks for a high-volume day one or
    two days back; [Some (i+1)] on the first hit ([break]). *)
Definition hv_back (recent : list bar) : option nat :=
  let hit i :=
    let day_vol := b_vol (py_iloc_neg dummy_bar (i + 1) recent) in
    let before := map b_vol (py_slice_neg (i + 4) (i + 1) recent) in
    match before with
    | [] => false
    | _ => Z.ltb (zmax_list before) day_vol
    end in
  if hit 1%nat then Some 2%nat else if hit 2%nat then Some 3%nat else None.

Definition mk_ctx (df : list bar) : ctx :=
  let recent := py_tail 10 df in
  let latest := py_iloc_neg dummy_bar 1 recent in
  let prev_3 := if (4 <=? length recent)%nat
                then py_iloc_neg dummy_bar 4 recent else latest in
  let prev_3_vols := if (4 <=? length recent)%nat
                     then map b_vol (py_slice_neg 4 1 recent) else [] in
  let is_hv := match prev_3_vols with
               | [] => false
               | _ => Z.ltb (zmax_list prev_3_vols) (b_vol latest)
               end in
  let hvd0 := if is_hv then 1%nat else 0%nat in
  let hvd := if (5 <=? length recent)%nat
             then match hv_back recent with Some d => d | None => hvd0 end
             else hvd0 in
  let support := if is_hv then Some (Qmin (b_open latest) (b_close latest))
                 else None in
  let resistance := qmax_list (map b_high recent) in
  mkCtx recent latest prev_3 is_hv hvd support resistance.

(** Python truthiness of [resistance_price] (a float: false at 0). *)
Definition truthy (q : Q) : bool := negb (Qeq_bool q 0).

(** The three values of a column on the last three rows. *)
Definition last3 (f : bar -> Q) (c : ctx) : Q * Q * Q :=
  let l := map f (py_tail 3 (recent c)) in
  (nth 0 l 0, nth 1 l 0, nth 2 l 0)%Q.

(** Each numbered block of the source, as a step on [state]. *)
Definition detector := ctx -> state -> state.

(** 1. 高量判斷 *)
Definition d_high_volume : detector := fun c s =>
  if is_high_volume c then add_score 0 SigHighVolDay1 s else s.

(** 2. 支撐壓力判斷 *)
Definition d_support : detector := fun c s =>
  let cur := b_close (latest c) in
  match support_price c with
  | Some sp =>
      if Qltb sp cur then add_score 2 (SigAboveSupport sp) s
      else if Qltb cur sp then add_risk (-5) (SigBrokeSupport sp) PoZhiCheng s
      else s
  | None => s
  end.

Definition above_support (c : ctx) : bool :=
  match support_price c with
  | Some sp => Qltb sp (b_close (latest c))
  | None => false
  end.

(** 3. 紅三兵 / 綠三兵 *)
Definition d_three : detector := fun c s =>
  if (3 <=? length (recent c))%nat then
    let '(c0, c1, c2) := last3 b_close c in
    if Qltb c0 c1 && Qltb c1 c2 then
      if above_support c then add_score 5 SigRedThreeSupport s
      else add_score 2 SigRedThree s
    else if Qltb c1 c0 && Qltb c2 c1 then
      if truthy (resistance_price c) && Qltb (b_close (latest c)) (resistance_price c)
      then add_risk (-4) SigGreenThreeResist LuSanBing s
      else add_score (-2) SigGreenThree s
    else s
  else s.

(** 3'. 底分型 *)
Definition d_fractal_bottom : detector := fun c s =>
  if (3 <=? length (recent c))%nat then
    let '(l0, l1, l2) := last3 b_low c in
    if Qltb l1 l0 && Qltb l1 l2 then
      if above_support c then add_score 4 SigBottomFractal s else s
    else s
  else s.

(** 3''. 頂分型 *)
Definition d_fractal_top : detector := fun c s =>
  if (3 <=? length (recent c))%nat then
    let '(h0, h1, h2) := last3 b_high c in
    if Qltb h0 h1 && Qltb h2 h1 then
      if Qltb (b_close (latest c)) (resistance_price c)
      then add_risk (-4) SigTopFractal DingFenXing s else s
    else s
  else s.

Definition body_high (b : bar) : Q := Qmax (b_open b) (b_close b).
Definition body_low (b : bar) : Q := Qmin (b_open b) (b_close b).
Definition body_size (b : bar) : Q := Qabs (b_close b - b_open b).
Definition upper_shadow (b : bar) : Q := b_high b - body_high b.
Definition lower_shadow (b : bar) : Q := body_low b - b_low b.

(** 4. 上天入地: the score is set to 0. *)
Definition swing (c : ctx) : bool :=
  let b := latest c in
  Qltb (body_size b * 2) (upper_shadow b) || Qltb (body_size b * 2) (lower_shadow b).

Definition d_swing : detector := fun c s =>
  if swing c then reset_score SigViolentSwing [JuLieBoDong] s else s.

(** 4'. 下影線 *)
Definition d_lower_shadow : detector := fun c s =>
  let b := latest c in
  if Qltb (body_size b * (1#2)) (lower_shadow b) then
    if is_high_volume c then add_score 3 SigHighVolLowerShadow s
    else add_risk (-2) SigLowVolLowerShadow FeiGaoLiangXiaYingXian s
  else s.

(** 4''. 上影線碰壓力 *)
Definition d_upper_shadow : detector := fun c s =>
  let b := latest c in
  if truthy (resistance_price c) && Qleb (resistance_price c * (98#100)) (b_high b) then
    if Qltb (b_close b) (body_high b) then add_risk (-3) SigUpperShadowResist YuZuHuiLuo s
    else s
  else s.

(** 5. 趨勢判斷 *)
Definition d_trend : detector := fun c s =>
  if (3 <=? length (recent c))%nat then
    let '(h0, h1, h2) := last3 b_high c in
    let '(l0, l1, l2) := last3 b_low c in
    if (Qltb h1 h0 && Qltb h2 h1) && (Qltb l1 l0 && Qltb l2 l1)
    then add_risk (-3) SigDownTrend XiaDieQuShi s else s
  else s.

(** 6. 梯量判斷 *)
Definition d_ladder : detector := fun c s =>
  if (4 <=? length (recent c))%nat then
    let v := map b_vol (py_tail 4 (recent c)) in
    let v0 := nth 0 v 0%Z in let v1 := nth 1 v 0%Z in
    let v2 := nth 2 v 0%Z in let v3 := nth 3 v 0%Z in
    let cl := b_close (latest c) in
    let cl3 := b_close (prev_3 c) in
    if (Z.ltb v0 v1 && Z.ltb v1 v2 && Z.ltb v2 v3)%bool then
      if Qltb cl3 cl then add_risk (-3) SigRisingLadder ShangZhangTiLiang s else s
    else if (Z.ltb v1 v0 && Z.ltb v2 v1 && Z.ltb v3 v2)%bool then
      if Qltb cl cl3 then add_score 2 SigFallingLadder s else s
    else s
  else s.

(** 6'. 量大實體小 *)
Definition d_big_vol_small_body : detector := fun c s =>
  if (4 <=? length (recent c))%nat && is_high_volume c then
    let b := latest c in
    if Qltb (body_size b) ((b_high b - b_low b) * (3#10))
    then add_risk (-2) SigBigVolSmallBody LiangDaShiTiXiao s else s
  else s.

(** 7. 連紅/連綠判斷 *)
Definition d_red_run : detector := fun c s =>
  if (4 <=? length (recent c))%nat then
    let red_count := length (filter (fun b => Qltb (b_open b) (b_close b))
                                    (py_tail 4 (recent c))) in
    if (4 <=? red_count)%nat && (5 <=? length (recent c))%nat then
      let b := latest c in
      if Qltb (b_close b) (b_open b) && is_high_volume c
      then add_risk (-4) SigRedRunGreen LianHongFangLiangShouLu s else s
    else s
  else s.

(** 8. 高量特殊規則: day 1 sets the score to 0. *)
Definition hv_day1 (c : ctx) : bool :=
  is_high_volume c && Nat.eqb (high_volume_day c) 1.

Definition d_hv_rule : detector := fun c s =>
  if is_high_volume c then
    if Nat.eqb (high_volume_day c) 1 then reset_score SigHighVolDay1Observe [] s
    else if Nat.eqb (high_volume_day c) 2 || Nat.eqb (high_volume_day c) 3 then
      if above_support c && Qltb (b_open (latest c)) (b_close (latest c))
      then add_score 3 SigHighVolDay23 s else s
    else s
  else s.

(** Neither of the two blocks that set the score to 0 fires. *)
Definition no_reset (c : ctx) : bool := negb (swing c) && negb (hv_day1 c).

(** The blocks in source order. *)
Definition detectors : list detector :=
  [d_high_volume; d_support; d_three; d_fractal_bottom; d_fractal_top;
   d_swing; d_lower_shadow; d_upper_shadow; d_trend; d_ladder;
   d_big_vol_small_body; d_red_run; d_hv_rule].

Definition run_detectors (c : ctx) (ds : list detector) (s : state) : state :=
  fold_left (fun s d => d c s) ds s.

(** 綜合判斷: the if/elif chain, in the source's order. *)
Definition map_score (score : Z) : action * risk_level :=
  if (5 <=? score)%Z then (ShangChe, Di)
  else if (8 <=? score)%Z then (ZhongCang, Di)
  else if (score <=? -5)%Z then (JianCang, Gao)
  else if (score <=? -8)%Z then (QingCang, Gao)
  else (GuanWang, Zhong).

(** The returned dictionary; [r_risks] is the risk-factor part of
    [summary], [r_score] is [None] where the dictionary has no 'score'. *)
Record result := mkResult {
  r_signals : list signal;
  r_action : action;
  r_level : risk_level;
  r_risks : list risk;
  r_score : option Z
}.

Definition risk_eqb (a b : risk) : bool :=
  match a, b with
  | PoZhiCheng, PoZhiCheng => true
  | _, _ => false
  end.

Definition analyze_volume_price_pattern (df : list bar) : result :=
  if (length df <? 10)%nat then mkResult [] GuanWang Zhong [] None
  else
    let c := mk_ctx df in
    let s := run_detectors c detectors init_state in
    let '(a, lv) := map_score (action_score s) in
    let '(a, lv) := if existsb (risk_eqb PoZhiCheng) (risk_factors s)
                    then (QingCang, Gao) else (a, lv) in
    mkResult (signals s) a lv (risk_factors s) (Some (action_score s)).

End Classifier.

(** ** Concrete series used by the classifier facts *)
Module ClassifierData.
Import Classifier.

Definition flat : bar := mkBar 10 10 10 10 100.

(** Score 17 without a support break: a two-day volume spike (high volume
    day 2), three rising closes above support, a bottom fractal and a
    high-volume lower shadow. *)
Definition df_score17 : list bar :=
  [flat; flat; flat; flat; flat; flat; flat;
   mkBar 10 (21#2) 9 10 50; mkBar 10 11 8 11 200;
   mkBar (23#2) (61#5) (56#5) 12 300].

(** A high-volume day (body low 12) one day back, then a close of 10. *)
Definition df_below_hv_support : list bar :=
  [flat; flat; flat; flat; flat; flat; flat; flat;
   mkBar 12 13 12 13 500; mkBar (21#2) (21#2) 10 10 100].

(** Four red bars, then a green bar on a volume spike. *)
Definition df_red4_green : list bar :=
  [flat; flat; flat; flat; flat;
   mkBar 10 11 10 11 100; mkBar 11 12 11 12 100; mkBar 12 13 12 13 100;
   mkBar 13 14 13 14 100; mkBar 14 14 (27#2) (27#2) 500].

(** Three rising closes (+2), then a long upper shadow (score reset). *)
Definition df_swing : list bar :=
  [flat; flat; flat; flat; flat; flat; flat; flat;
   mkBar 11 11 11 11 100; mkBar (119#10) 13 (119#10) 12 100].

(** The source order with the violent-swing block moved to the front. *)
Definition detectors_swing_first : list detector :=
  d_swing :: [d_high_volume; d_support; d_three; d_fractal_bottom; d_fractal_top]
          ++ [d_lower_shadow; d_upper_shadow; d_trend; d_ladder;
              d_big_vol_small_body; d_red_run; d_hv_rule].

End ClassifierData.

(** * [fix_price_columns] (StockTrend.py)

    The fields are read with [dtype=str]; an empty cell is NaN, modelled as
    [None].  Strings are byte strings: the fields concerned are numeric. *)
Module PriceFix.
Local Open Scope string_scope.

(** One row of the CSV file with the column names of [cols]. *)
Record raw_row := mkRaw {
  f_date : option string; f_code : option string; f_name : option string;
  f_volume : option string; f_trades : option string; f_amount : option string;
  f_open : option string; f_high : option string; f_low : option string;
  f_close : option string; f_pe : option string;
  f_foreign_net : option string; f_fund_net : option string;
  f_dealer_net : option string
}.

(** [str.isspace] on the ASCII range. *)
Definition is_ws (a : ascii) : bool :=
  let n := nat_of_ascii a in
  (((9 <=? n) && (n <=? 13)) || ((28 <=? n) && (n <=? 32)))%nat.

(** [\d] on the ASCII range. *)
Definition is_digit (a : ascii) : bool :=
  let n := nat_of_ascii a in ((48 <=? n) && (n <=? 57))%nat.

Fixpoint lstrip (s : string) : string :=
  match s with
  | EmptyString => EmptyString
  | String a t => if is_ws a then lstrip t else s
  end.

Fixpoint rstrip (s : string) : string :=
  match s with
  | EmptyString => EmptyString
  | String a t =>
      let t' := rstrip t in
      if is_ws a && String.eqb t' EmptyString then EmptyString else String a t'
  end.

(** [str.strip()]. *)
Definition strip (s : string) : string := rstrip (lstrip s).

(** ['.' in s]. *)
Fixpoint has_dot (s : string) : bool :=
  match s with
  | EmptyString => false
  | String a t => Ascii.eqb a "." || has_dot t
  end.

(** Greedy [\d+]: the longest run of digits and the rest. *)
Fixpoint span_digits (s : string) : string * string :=
  match s with
  | String a t =>
      if is_digit a then let '(d, r) := span_digits t in (String a d, r)
      else (EmptyString, s)
  | EmptyString => (EmptyString, EmptyString)
  end.

(** Greedy [\d{0,n}]. *)
Fixpoint take_digits (n : nat) (s : string) : string * string :=
  match n, s with
  | S n', String a t =>
      if is_digit a then let '(d, r) := take_digits n' t in (String a d, r)
      else (EmptyString, s)
  | _, _ => (EmptyString, s)
  end.

(** A match of [\d+\.\d{1,3}] at the start of [s], and the rest of [s].
    Backtracking the [\d+] run never helps: a shorter run is followed by a
    digit, not by ['.']. *)
Definition match_price (s : string) : option (string * string) :=
  let '(d, r) := span_digits s in
  match d, r with
  | EmptyString, _ => None
  | _, String dot r' =>
      if Ascii.eqb dot "." then
        let '(f, r'') := take_digits 3 r' in
        match f with
        | EmptyString => None
        | _ => Some (d ++ String "." f, r'')
        end
      else None
  | _, EmptyString => None
  end.

(** [re.findall(r'\d+\.\d{1,3}', s)]: scan left to right, resume after each
    match, advance one character where no match starts. *)
Fixpoint findall_fuel (fuel : nat) (s : string) : list string :=
  match fuel with
  | O => []
  | S fuel' =>
      match match_price s with
      | Some (tok, rest) => tok :: findall_fuel fuel' rest
      | None =>
          match s with
          | EmptyString => []
          | String _ t => findall_fuel fuel' t
          end
      end
  end.

Definition findall_prices (s : string) : list string :=
  findall_fuel (S (String.length s)) s.

Definition fix_price_columns (row : raw_row) : raw_row :=
  match f_open row with
  | None => row
  | Some o =>
      let open_val := strip o in
      if (12 <? String.length open_val)%nat && has_dot open_val then
        let prices := findall_prices open_val in
        if (4 <=? List.length prices)%nat then
          {| f_date := f_date row; f_code := f_code row; f_name := f_name row;
             f_volume := f_volume row; f_trades := f_trades row;
             f_amount := f_amount row;
             f_open := Some (nth 0 prices ""); f_high := Some (nth 1 prices "");
             f_low := Some (nth 2 prices ""); f_close := Some (nth 3 prices "");
             f_pe := f_pe row; f_foreign_net := f_foreign_net row;
             f_fund_net := f_fund_net row; f_dealer_net := f_dealer_net row |}
        else
          {| f_date := f_date row; f_code := f_code row; f_name := f_name row;
             f_volume := f_volume row; f_trades := f_trades row;
             f_amount := f_amount row;
             f_open := None; f_high := f_high row;
             f_low := f_low row; f_close := f_close row;
             f_pe := f_pe row; f_foreign_net := f_foreign_net row;
             f_fund_net := f_fund_net row; f_dealer_net := f_dealer_net row |}
      else row
  end.

(** [p] is one price with exactly three decimals: [\d+\.\d{3}]. *)
Definition price3 (p : string) : bool :=
  let '(d, r) := span_digits p in
  match d, r with
  | String _ _, String dot (String a (String b (String c EmptyString))) =>
      Ascii.eqb dot "." && is_digit a && is_digit b && is_digit c
  | _, _ => false
  end.

(** A row of [dtype=str] cells with [open] set to [o]. *)
Definition row_with_open (o : string) : raw_row :=
  mkRaw (Some "2024-01-02") (Some "1101") (Some "x") (Some "1000") None None
        (Some o) None None None None (Some "0") (Some "0") (Some "0").

End PriceFix.

(** * Row normalisation of [analyze_stock_file] (StockTrend.py) *)
Module Normalizer.
Import PriceFix.
Local Open Scope string_scope.

Fixpoint digits_value (acc : Z) (s : string) : Z :=
  match s with
  | EmptyString => acc
  | String a t => digits_value (acc * 10 + (Z.of_nat (nat_of_ascii a) - 48))%Z t
  end.

(** [pd.to_numeric(errors='coerce')] on plain decimal strings: optional
    surrounding blanks and sign, digits with an optional fraction.
    Anything else is NaN ([None]). *)
Definition parse_unsigned (s : string) : option Q :=
  let '(d, r) := span_digits s in
  match r with
  | EmptyString =>
      match d with EmptyString => None | _ => Some (inject_Z (digits_value 0 d)) end
  | String dot f =>
      if Ascii.eqb dot "." then
        let '(fd, r2) := span_digits f in
        match r2, d, fd with
        | String _ _, _, _ => None
        | EmptyString, EmptyString, EmptyString => None
        | EmptyString, _, _ =>
            Some (Qmake (digits_value 0 (d ++ fd))
                        (Z.to_pos (10 ^ Z.of_nat (String.length fd))))
        end
      else None
  end.

Definition to_numeric (s : string) : option Q :=
  match strip s with
  | String sg t =>
      if Ascii.eqb sg "-" then option_map Qopp (parse_unsigned t)
      else if Ascii.eqb sg "+" then parse_unsigned t
      else parse_unsigned (String sg t)
  | EmptyString => None
  end.

Definition coerce (f : option string) : option Q :=
  match f with Some s => to_numeric s | None => None end.

(** A row after the numeric coercion and [dropna]: the required columns
    hold numbers; [pe] may still be NaN. *)
Record crow := mkCRow {
  c_date : option string; c_code : option string; c_name : option string;
  c_volume : Q; c_open : Q; c_high : Q; c_low : Q; c_close : Q;
  c_pe : option Q; c_foreign_net : Q; c_fund_net : Q; c_dealer_net : Q
}.

(** Coercion of [numeric_cols] followed by [dropna(subset=[...])]. *)
Definition coerce_row (r : raw_row) : option crow :=
  match coerce (f_open r), coerce (f_high r), coerce (f_low r),
        coerce (f_close r), coerce (f_foreign_net r), coerce (f_fund_net r),
        coerce (f_dealer_net r), coerce (f_volume r) with
  | Some o, Some h, Some l, Some c, Some fo, Some fu, Some de, Some v =>
      Some (mkCRow (f_date r) (f_code r) (f_name r) v o h l c
                   (coerce (f_pe r)) fo fu de)
  | _, _, _, _, _, _, _, _ => None
  end.

(** [str.match(r'^\d{4}-\d{2}-\d{2}$')]; [$] also matches before a final
    newline. *)
Definition date_match (s : string) : bool :=
  match s with
  | String y1 (String y2 (String y3 (String y4 (String h1
      (String m1 (String m2 (String h2 (String d1 (String d2 rest))))))))) =>
      is_digit y1 && is_digit y2 && is_digit y3 && is_digit y4 &&
      Ascii.eqb h1 "-" && is_digit m1 && is_digit m2 && Ascii.eqb h2 "-" &&
      is_digit d1 && is_digit d2 &&
      (String.eqb rest "" || String.eqb rest (String (ascii_of_nat 10) ""))
  | _ => false
  end.

Definition digit_val (a : ascii) : Z := (Z.of_nat (nat_of_ascii a) - 48)%Z.

Definition is_leap (y : Z) : bool :=
  ((Z.modulo y 4 =? 0) && negb (Z.modulo y 100 =? 0) || (Z.modulo y 400 =? 0))%Z.

Definition days_in_month (y m : Z) : Z :=
  (if m =? 2 then (if is_leap y then 29 else 28)
   else if (m =? 4) || (m =? 6) || (m =? 9) || (m =? 11) then 30 else 31)%Z.

(** [pd.to_datetime] on a matched date: the day as the integer YYYYMMDD,
    or [None] where pandas raises (no such day, or outside the range of
    [pd.Timestamp], 1677-09-21 .. 2262-04-11). *)
Definition to_datetime (s : string) : option Z :=
  match s with
  | String y1 (String y2 (String y3 (String y4 (String _
      (String m1 (String m2 (String _ (String d1 (String d2 _))))))))) =>
      let y := (digit_val y1 * 1000 + digit_val y2 * 100 + digit_val y3 * 10
                + digit_val y4)%Z in
      let m := (digit_val m1 * 10 + digit_val m2)%Z in
      let d := (digit_val d1 * 10 + digit_val d2)%Z in
      let key := (y * 10000 + m * 100 + d)%Z in
      if ((1 <=? m) && (m <=? 12) && (1 <=? d) && (d <=? days_in_month y m) &&
          (16770922 <=? key) && (key <=? 22620411))%Z
      then Some key else None
  | _ => None
  end.

(** A row of the normalised series; [n_date] is the day as YYYYMMDD. *)
Record nrow := mkNRow {
  n_date : Z; n_code : option string; n_name : option string;
  n_volume : Q; n_open : Q; n_high : Q; n_low : Q; n_close : Q;
  n_pe : option Q; n_foreign_net : Q; n_fund_net : Q; n_dealer_net : Q
}.

Definition with_date (k : Z) (r : crow) : nrow :=
  mkNRow k (c_code r) (c_name r) (c_volume r) (c_open r) (c_high r) (c_low r)
         (c_close r) (c_pe r) (c_foreign_net r) (c_fund_net r) (c_dealer_net r).

(** [df['date'] = pd.to_datetime(df['date'])]: one bad date raises. *)
Fixpoint convert_dates (l : list crow) : option (list nrow) :=
  match l with
  | [] => Some []
  | r :: t =>
      match c_date r with
      | Some s =>
          match to_datetime s, convert_dates t with
          | Some k, Some t' => Some (with_date k r :: t')
          | _, _ => None
          end
      | None => None
      end
  end.

Definition date_ok (r : crow) : bool :=
  match c_date r with Some s => date_match s | None => false end.

(** The rows that survive [fix_price_columns], the coercion, [dropna] and
    the date filter, in file order. *)
Definition cleaned_rows (raw : list raw_row) : list crow :=
  filter date_ok (flat_map (fun r => match coerce_row (fix_price_columns r) with
                                     | Some c => [c] | None => [] end) raw).

(** [sort_values('date')] is pandas' default quicksort, which is not
    stable: the normaliser takes the sort as a parameter [sort_rows]. *)
Definition normalize (sort_rows : list nrow -> list nrow) (raw : list raw_row)
  : option (list nrow) :=
  match raw with
  | [] => None
  | _ =>
      match convert_dates (cleaned_rows raw) with
      | Some rows => Some (sort_rows rows)
      | None => None
      end
  end.

(** An admissible [sort_rows]: any permutation of its input ordered by
    date. *)
Definition date_sort (sort_rows : list nrow -> list nrow) : Prop :=
  forall l, Permutation l (sort_rows l) /\
            Sorted (fun a b => (n_date a <= n_date b)%Z) (sort_rows l).

(** A stable insertion sort on the date, one admissible [sort_rows]. *)
Fixpoint insert_by_date (r : nrow) (l : list nrow) : list nrow :=
  match l with
  | [] => [r]
  | x :: t => if (n_date r <=? n_date x)%Z then r :: l else x :: insert_by_date r t
  end.

Fixpoint isort_date (l : list nrow) : list nrow :=
  match l with
  | [] => []
  | x :: t => insert_by_date x (isort_date t)
  end.

(** Two rows of a series share a date. *)
Fixpoint has_dup_dates (l : list nrow) : bool :=
  match l with
  | [] => false
  | x :: t => existsb (fun y => Z.eqb (n_date x) (n_date y)) t || has_dup_dates t
  end.

End Normalizer.

(** * The reversal screen of [analyze_stock_file] (StockTrend.py) *)
Module Reversal.
Import PriceFix Normalizer.

Definition MIN_DATA_DAYS : nat := 60.
Definition RECENT_BOTTOM_WINDOW : nat := 10.
Definition MIN_REBOUND_AMOUNT : Q := 500.
Definition RISING_CHECK_DAYS : nat := 5.
Definition PRICE_RECENT_LOW_WINDOW : nat := 10.
Definition PRICE_RISING_DAYS : nat := 2.
Definition RECENT_OSCILLATION_DAYS : nat := 15.
Definition OSCILLATION_MIN_RANGE : Q := 500.

Definition total_net (r : nrow) : Q := n_foreign_net r + n_fund_net r + n_dealer_net r.

(** [cumsum()]. *)
Fixpoint cumsum_from (acc : Q) (l : list Q) : list Q :=
  match l with
  | [] => []
  | x :: t => (acc + x) :: cumsum_from (acc + x) t
  end.

Definition cumsum (l : list Q) : list Q := cumsum_from 0 l.

(** [np.argmin]: the first index of the minimum. *)
Fixpoint argmin_from (best : Q) (ibest i : nat) (l : list Q) : nat :=
  match l with
  | [] => ibest
  | x :: t => if Qltb x best then argmin_from x i (S i) t
              else argmin_from best ibest (S i) t
  end.

Definition argmin (l : list Q) : nat :=
  match l with
  | [] => 0%nat
  | x :: t => argmin_from x 0 1 t
  end.

(** [all(l[i] <= l[i+1] for i in range(len(l)-1))]. *)
Definition non_decreasing (l : list Q) : bool :=
  forallb (fun i => Qleb (nth i l 0) (nth (S i) l 0)) (seq 0 (length l - 1)).

(** [all(l[i] < l[i+1] for i in range(len(l)-1))]. *)
Definition strictly_increasing (l : list Q) : bool :=
  forallb (fun i => Qltb (nth i l 0) (nth (S i) l 0)) (seq 0 (length l - 1)).

Record conditions := mkConditions {
  cond_B : bool; cond_C : bool; cond_D : bool; cond_E : bool; all_pass : bool
}.

(** The four conditions on [recent_data = df.tail(MIN_DATA_DAYS)]. *)
Definition reversal_conditions (recent_data : list nrow) : conditions :=
  let closes := map n_close recent_data in
  let totals := map total_net recent_data in
  let cum_vals := cumsum totals in
  let last_cum := nth (length cum_vals - 1) cum_vals 0 in
  (* 條件 B *)
  let last_3_total := py_tail 3 totals in
  let cB := forallb (fun x => Qltb 0 x) last_3_total in
  (* 條件 C *)
  let global_min := qmin_list cum_vals in
  let min_idx := argmin cum_vals in
  let days_from_min_to_today := (length cum_vals - 1 - min_idx)%nat in
  let recent_bottom := (days_from_min_to_today <=? RECENT_BOTTOM_WINDOW)%nat in
  let enough_rebound := Qltb MIN_REBOUND_AMOUNT (last_cum - global_min) in
  let last_m_rising :=
    if (RISING_CHECK_DAYS <=? length cum_vals)%nat
    then non_decreasing (py_tail RISING_CHECK_DAYS cum_vals) else true in
  let cC := recent_bottom && enough_rebound && last_m_rising in
  (* 條件 D *)
  let low_60 := qmin_list closes in
  let recent_low_occur :=
    existsb (fun x => Qeq_bool x low_60) (py_tail PRICE_RECENT_LOW_WINDOW closes) in
  let last_p_prices := py_tail PRICE_RISING_DAYS closes in
  let price_rising :=
    (2 <=? length last_p_prices)%nat && strictly_increasing last_p_prices in
  let cD := recent_low_occur && price_rising in
  (* 條件 E *)
  let osci_vals := py_tail RECENT_OSCILLATION_DAYS totals in
  let has_oscillation :=
    existsb (fun x => Qltb 0 x) osci_vals && existsb (fun x => Qltb x 0) osci_vals &&
    Qltb OSCILLATION_MIN_RANGE (qmax_list osci_vals - qmin_list osci_vals) in
  let cumulative_still_negative := Qltb last_cum 0 in
  let cE := has_oscillation && cB && cumulative_still_negative in
  mkConditions cB cC cD cE (cB && cC && cD && cE).

Record stock_info := mkStockInfo {
  si_code : option string; si_name : option string;
  si_conditions : conditions;
  si_latest_close : Q; si_latest_date : Z
}.

Definition last_row (df : list nrow) : nrow :=
  py_iloc_neg (mkNRow 0 None None 0 0 0 0 0 None 0 0 0) 1 df.

(** The part of [analyze_stock_file] after the normalisation. *)
Definition screen (df : list nrow) : option stock_info :=
  if (length df <? MIN_DATA_DAYS)%nat then None
  else
    let first := nth 0 df (last_row df) in
    Some (mkStockInfo (n_code first) (n_name first)
            (reversal_conditions (py_tail MIN_DATA_DAYS df))
            (n_close (last_row df)) (n_date (last_row df))).

Definition analyze_stock_file (sort_rows : list nrow -> list nrow)
  (raw : list raw_row) : option stock_info :=
  match normalize sort_rows raw with
  | Some df => screen df
  | None => None
  end.

End Reversal.

(** ** Series used by the reversal-screen facts *)
Module ReversalData.
Import Normalizer Reversal.

Definition zero_row : nrow := mkNRow 0 None None 0 0 0 0 0 None 0 0 0.

(** The row with its three institutional nets negated: its [total_net]
    changes sign. *)
Definition negate_nets (r : nrow) : nrow :=
  mkNRow (n_date r) (n_code r) (n_name r) (n_volume r) (n_open r) (n_high r)
         (n_low r) (n_close r) (n_pe r)
         (- n_foreign_net r) (- n_fund_net r) (- n_dealer_net r).

(** [l] with the row at index [i] replaced by [negate_nets] of it. *)
Fixpoint negate_at (i : nat) (l : list nrow) : list nrow :=
  match l, i with
  | [], _ => []
  | x :: t, O => negate_nets x :: t
  | x :: t, S i' => x :: negate_at i' t
  end.

(** [n] daily rows with foreign net [net i] and close [close i]. *)
Definition gen_df (n : nat) (net close : nat -> Q) : list nrow :=
  map (fun i => mkNRow (20240101 + Z.of_nat i) None None 1000
                       (close i) (close i) (close i) (close i) None (net i) 0 0)
      (seq 0 n).

(** Fifty days of -10, five of -100, then five of +200: the cumulative
    net bottoms at -1000 five days before the end and climbs back to 0.
    The close is 5 on the first day and again 55 days later, 10 elsewhere,
    then 6 and 7 on the last two days. *)
Definition net_rebound (i : nat) : Q :=
  if (i <? 50)%nat then -10 else if (i <? 55)%nat then -100 else 200.

Definition close_tie (i : nat) : Q :=
  if (i =? 0)%nat || (i =? 55)%nat then 5
  else if (i =? 58)%nat then 6 else if (i =? 59)%nat then 7 else 10.

Definition df_rebound : list nrow := gen_df 60 net_rebound close_tie.

End ReversalData.

(** * [screen_stocks] (StockTrend_Gemini.py)

    The input is a Series as the data model describes it: typed rows
    with a calendar date and numeric fields, so the [astype(str)] /
    [to_numeric] round trip of the function is the identity on it. *)
Module Threshold.
Import Normalizer.

Record config := mkConfig {
  use_price : bool; use_ma : bool; use_vol : bool;
  use_min_vol : bool; use_inst : bool; use_shape : bool;
  max_price : Q; vol_ratio_limit : Q; min_volume : Q; shadow_limit : Q;
  ma_short : nat; ma_long : nat
}.

(** The keyword defaults of [screen_stocks]. *)
Definition default_config : config :=
  mkConfig true true true true true true 100 (6#5) 5000 (1#5) 5 20.

(** [df.iloc[-k]], or [None] where pandas raises [IndexError]. *)
Definition iloc_neg {A} (k : nat) (l : list A) : option A :=
  if (k <=? length l)%nat then nth_error l (length l - k) else None.

(** The last value of [.rolling(window=w).mean()]: NaN ([None]) when
    fewer than [w] rows exist.  Windows are at least 1 in every
    configuration of the program (5 and 20). *)
Definition rolling_mean_last (w : nat) (l : list Q) : option Q :=
  if (w =? 0)%nat || (length l <? w)%nat then None
  else Some (fold_left Qplus (py_tail w l) 0 / inject_Z (Z.of_nat w)).

Definition c_price (cfg : config) (latest : nrow) : bool :=
  if use_price cfg then Qleb (n_close latest) (max_price cfg) else true.

(** [latest['收盤價'] > latest['MA_S'] > latest['MA_L']]; a NaN average
    makes the comparison false. *)
Definition c_ma (cfg : config) (df : list nrow) (latest : nrow) : bool :=
  if use_ma cfg then
    match rolling_mean_last (ma_short cfg) (map n_close df),
          rolling_mean_last (ma_long cfg) (map n_close df) with
    | Some ma_s, Some ma_l => Qltb ma_s (n_close latest) && Qltb ma_l ma_s
    | _, _ => false
    end
  else true.

(** [vol / VolMA if VolMA != 0 else 0]; NaN [VolMA] gives a NaN ratio. *)
Definition actual_vol_ratio (cfg : config) (df : list nrow) (latest : nrow) : option Q :=
  match rolling_mean_last (ma_short cfg) (map n_volume df) with
  | None => None
  | Some v => if Qeq_bool v 0 then Some 0 else Some (n_volume latest / v)
  end.

Definition c_vol (cfg : config) (df : list nrow) (latest : nrow) : bool :=
  if use_vol cfg then
    match actual_vol_ratio cfg df latest with
    | Some r => Qleb (vol_ratio_limit cfg) r
    | None => false
    end
  else true.

Definition c_min_vol (cfg : config) (latest : nrow) : bool :=
  if use_min_vol cfg then Qleb (min_volume cfg) (n_volume latest) else true.

Definition inst_total (latest : nrow) : Q :=
  n_foreign_net latest + n_fund_net latest + n_dealer_net latest.

Definition c_inst (cfg : config) (latest : nrow) : bool :=
  if use_inst cfg then Qltb 0 (inst_total latest) else true.

Definition candle_range (latest : nrow) : Q := n_high latest - n_low latest.

Definition upper_shadow (latest : nrow) : Q :=
  n_high latest - Qmax (n_open latest) (n_close latest).

Definition shadow_denom (latest : nrow) : Q := candle_range latest + (1#100).

Definition c_shape (cfg : config) (actual_shadow_ratio : Q) : bool :=
  if use_shape cfg then Qleb actual_shadow_ratio (shadow_limit cfg) else true.

(** The returned dictionary, without the rounding of its display fields. *)
Record pass_record := mkPass {
  p_stock : option string * option string;
  p_close : Q;
  p_change_pct : Q;
  p_vol_ratio : option Q;
  p_inst_total : Q;
  p_shadow_ratio : Q;
  p_latest_date : Z;
  p_code : option string;
  p_name : option string
}.

(** [screen_stocks]; [sort_rows] is [sort_values('日期')].  A zero
    divisor (range + 0.01 or the previous close) is taken as the raised
    exception that the [except] turns into [None]; on bars of the data
    model (positive prices, low <= high) neither divisor is zero. *)
Definition screen_stocks (sort_rows : list nrow -> list nrow) (cfg : config)
    (df0 : list nrow) : option pass_record :=
  let df := sort_rows df0 in
  if (length df <? ma_long cfg)%nat then None else
  match iloc_neg 1 df, iloc_neg 2 df with
  | Some latest, Some prev =>
      if Qeq_bool (shadow_denom latest) 0 then None else
      let actual_shadow_ratio := upper_shadow latest / shadow_denom latest in
      if forallb id [c_price cfg latest; c_ma cfg df latest; c_vol cfg df latest;
                     c_min_vol cfg latest; c_inst cfg latest;
                     c_shape cfg actual_shadow_ratio] then
        if Qeq_bool (n_close prev) 0 then None else
        Some (mkPass (n_code latest, n_name latest) (n_close latest)
                (((n_close latest - n_close prev) / n_close prev) * 100)
                (actual_vol_ratio cfg df latest) (inst_total latest)
                (actual_shadow_ratio * 100) (n_date latest)
                (n_code latest) (n_name latest))
      else None
  | _, _ => None
  end.

(** A bar of the data model: positive prices, [low <= open, close <= high]. *)
Definition bar_ok (r : nrow) : bool :=
  Qltb 0 (n_low r) && Qleb (n_low r) (n_open r) && Qleb (n_open r) (n_high r) &&
  Qleb (n_low r) (n_close r) && Qleb (n_close r) (n_high r).

Definition all_flags_off (cfg : config) : bool :=
  negb (use_price cfg || use_ma cfg || use_vol cfg || use_min_vol cfg ||
        use_inst cfg || use_shape cfg).

(** Only the price ceiling enabled, at 100; other values the defaults. *)
Definition price_only_config : config :=
  mkConfig true false false false false false 100 (6#5) 5000 (1#5) 5 20.

(** The enabled conditions as the Threshold Screen section states them,
    each vacuous when its flag is off. *)
Definition enabled_conditions_hold (cfg : config) (df : list nrow) (latest : nrow) : Prop :=
  (use_price cfg = true -> n_close latest <= max_price cfg) /\
  (use_ma cfg = true ->
     exists ma_s ma_l, rolling_mean_last (ma_short cfg) (map n_close df) = Some ma_s /\
       rolling_mean_last (ma_long cfg) (map n_close df) = Some ma_l /\
       ma_l < ma_s /\ ma_s < n_close latest) /\
  (use_vol cfg = true ->
     exists v, rolling_mean_last (ma_short cfg) (map n_volume df) = Some v /\
       (v == 0 -> vol_ratio_limit cfg <= 0) /\
       (~ v == 0 -> vol_ratio_limit cfg <= n_volume latest / v)) /\
  (use_min_vol cfg = true -> min_volume cfg <= n_volume latest) /\
  (use_inst cfg = true -> 0 < n_foreign_net latest + n_fund_net latest + n_dealer_net latest) /\
  (use_shape cfg = true ->
     (n_high latest - Qmax (n_open latest) (n_close latest)) /
       (n_high latest - n_low latest + (1#100)) <= shadow_limit cfg).

End Threshold.

(** ** Series used by the threshold-screen facts *)
Module ThresholdData.
Import Normalizer Threshold ReversalData.

(** Twenty days closing at 50, except the last one closing at [c]. *)
Definition df_last_close (c : Q) : list nrow :=
  gen_df 20 (fun _ => 1) (fun i => if (i =? 19)%nat then c else 50).

(** Every flag off and [ma_long = 1]. *)
Definition off_config_ma1 : config :=
  mkConfig false false false false false false 100 (6#5) 5000 (1#5) 5 1.

Definition df_single : list nrow := gen_df 1 (fun _ => 1) (fun _ => 50).

End ThresholdData.

(** * [analyze_volume_price_pattern] (StockTrend.py): the two-bar
    volume/price pattern of the reversal report *)
Module TwoBar.
Local Open Scope string_scope.

(** The [volume] and [close] cells of a row; NaN is [None]. *)
Record vp_row := mkVP { vp_volume : option Q; vp_close : option Q }.

Definition dummy_vp : vp_row := mkVP None None.

(** 判斷成交量變化（±10% 閾值） *)
Definition vol_trend (vol_latest vol_prev : Q) : string :=
  if Qltb (vol_prev * (11#10)) vol_latest then "增"
  else if Qltb vol_latest (vol_prev * (9#10)) then "縮"
  else "平".

(** 判斷價格變化（±1% 閾值） *)
Definition price_trend (price_latest price_prev : Q) : string :=
  if Qltb (price_prev * (101#100)) price_latest then "漲"
  else if Qltb price_latest (price_prev * (99#100)) then "跌"
  else "平".

Definition interpretations : list (string * string) :=
  [("量增價漲", "積極信號：上漲動能強勁，可持續關注。");
   ("量增價平", "多空博弈：主力吸籌或試盤，觀察突破方向。");
   ("量增價跌", "主力出貨：拋壓沉重，謹慎看待反彈。");
   ("量平價漲", "穩健上漲：惜售氣氛濃厚，但需補量確認。");
   ("量平價平", "方向不明：市場觀望，等待催化劑。");
   ("量平價跌", "弱勢格局：下跌無量，可能陰跌。");
   ("量縮價漲", "謹防回調：上漲動能不足，追高風險高。");
   ("量縮價平", "交投清淡：缺乏參與意願，趨勢不明。");
   ("量縮價跌", "賣壓減輕：可能接近底部，但尚未止跌。")].

(** [dict.get(key, default)] on a dictionary literal. *)
Fixpoint dict_get (d : list (string * string)) (key default : string) : string :=
  match d with
  | [] => default
  | (k, v) :: t => if String.eqb k key then v else dict_get t key default
  end.

Definition analyze_volume_price_pattern (df : list vp_row) : string * string :=
  if (length df <? 2)%nat then ("資料不足", "無法判斷量價形態")
  else
    let latest := py_iloc_neg dummy_vp 1 df in
    let prev := py_iloc_neg dummy_vp 2 df in
    match vp_volume latest, vp_volume prev, vp_close latest, vp_close prev with
    | Some vol_latest, Some vol_prev, Some price_latest, Some price_prev =>
        let pattern := "量" ++ vol_trend vol_latest vol_prev ++ "價"
                       ++ price_trend price_latest price_prev in
        (pattern, dict_get interpretations pattern "未知形態")
    | _, _, _, _ => ("資料無效", "價格或成交量缺失")
    end.

End TwoBar.

(** * The dictionary returned by [analyze_stock_file] (StockTrend.py),
    with its volume/price fields *)
Module Report.
Import Normalizer Reversal.
Local Open Scope string_scope.

Record report := mkReport {
  rp_info : stock_info;
  rp_pattern : string;      (* 'volume_price_pattern' *)
  rp_interpretation : string (* 'interpretation' *)
}.

Definition vp_of_nrow (r : nrow) : TwoBar.vp_row :=
  TwoBar.mkVP (Some (n_volume r)) (Some (n_close r)).

(** [stock_info] with "未分析" and an empty interpretation, replaced by the
    two-bar pattern of the whole series when [all_pass]. *)
Definition screen_report (df : list nrow) : option report :=
  match screen df with
  | None => None
  | Some si =>
      if all_pass (si_conditions si) then
        let '(pattern, interp) :=
          TwoBar.analyze_volume_price_pattern (map vp_of_nrow df) in
        Some (mkReport si pattern interp)
      else Some (mkReport si "未分析" EmptyString)
  end.

Definition analyze_stock_file_report (sort_rows : list nrow -> list nrow)
  (raw : list PriceFix.raw_row) : option report :=
  match normalize sort_rows raw with
  | Some df => screen_report df
  | None => None
  end.

End Report.

(** * [analyze_stock] (StockTrend2.py): the volume spike, red three and
    net-buy selection *)
Module StockSelect.
Local Open Scope string_scope.

(** A row read from the database after [pd.to_datetime(errors='coerce')]
    of 日期 (the day as YYYYMMDD) and the comma-stripping [to_numeric] of
    成交張數, 收盤價, 外陸資, 投信 and 自營商買賣超張數; NaT and NaN are
    [None]. *)
Record db_row := mkDBRow {
  d_date : option Z; d_volume : option Q; d_close : option Q;
  d_foreign : option Q; d_trust : option Q; d_dealer : option Q
}.

(** A row kept by [dropna(subset=['日期', '成交張數', '收盤價'])]. *)
Record srow := mkSRow {
  s_date : Z; s_volume : Q; s_close : Q;
  s_foreign : option Q; s_trust : option Q; s_dealer : option Q
}.

Definition dummy_srow : srow := mkSRow 0 0 0 None None None.

Definition dropna_row (r : db_row) : list srow :=
  match d_date r, d_volume r, d_close r with
  | Some dt, Some v, Some c =>
      [mkSRow dt v c (d_foreign r) (d_trust r) (d_dealer r)]
  | _, _, _ => []
  end.

(** The module-level switches [FLAG_VOLUME_SPIKE], [FLAG_RED_THREE],
    [FLAG_NET_BUY]. *)
Record flags := mkFlags {
  FLAG_VOLUME_SPIKE : bool; FLAG_RED_THREE : bool; FLAG_NET_BUY : bool
}.

Definition module_flags : flags := mkFlags true true true.

Definition VOL_LOOKBACK : nat := 4.
Definition VOL_MULTIPLE : Q := 6#5.
Definition MIN_VOLUME_THRESHOLD : Q := 5000.
Definition PRICE_LOOKBACK : nat := 3.

(** 條件 1：爆量.  [Some (meets_volume, last_vol_val, max_prev_vol,
    vol_multiple_result)], or [None] where Python raises: [vols[-1]] of an
    empty tail, [max] of an empty [prev_vols].  The multiple is the ratio
    before its [round(.., 2)]. *)
Definition volume_spike (lookback : nat) (multiple : Q) (df : list srow)
  : option (bool * option Q * option Q * option Q) :=
  let vols := map s_volume (py_tail lookback df) in
  match vols with
  | [] => None
  | _ =>
      let last_vol_val := py_iloc_neg 0 1 vols in
      let prev_vols := firstn (length vols - 1) vols in
      if negb (Qltb 0 last_vol_val && forallb (fun v => Qltb 0 v) prev_vols) then
        Some (false, Some last_vol_val, None, None)
      else if negb (forallb (fun v => Qltb v last_vol_val) prev_vols) then
        Some (false, Some last_vol_val, None, None)
      else
        match prev_vols with
        | [] => None
        | _ =>
            let max_prev_vol := qmax_list prev_vols in
            if Qleb max_prev_vol 0 || Qltb last_vol_val (max_prev_vol * multiple) then
              Some (false, Some last_vol_val, Some max_prev_vol, None)
            else
              Some (true, Some last_vol_val, Some max_prev_vol,
                    Some (last_vol_val / max_prev_vol))
        end
  end.

(** [total = f + t + d] of one row; NaN propagates. *)
Definition total_opt (r : srow) : option Q :=
  match s_foreign r, s_trust r, s_dealer r with
  | Some f, Some t, Some d => Some (f + t + d)
  | _, _, _ => None
  end.

(** [total > 0]; false on NaN. *)
Definition positive_day (r : srow) : bool :=
  match total_opt r with Some x => Qltb 0 x | None => false end.

(** The returned dictionary, without the [int] / [round] of its display
    fields. *)
Record selection := mkSelection {
  sel_code : string;
  sel_latest_date : Z;
  sel_latest_close : Q;
  sel_last_volume : option Q;
  sel_max_prev_volume : option Q;
  sel_multiple : option Q;
  sel_closes : option (Q * Q * Q);
  sel_net_summary :
    option (list (option Q * option Q * option Q * option Q) * nat)
}.

(** [analyze_stock]; [db] is what [read_stock_from_db] returns and
    [sort_rows] is [sort_values('日期')]. *)
Definition analyze_stock (fl : flags) (sort_rows : list srow -> list srow)
    (db : option (list db_row)) (stock_code : string)
    (vol_lookback : option nat) (vol_multiple min_volume_threshold : option Q)
  : option selection :=
  let lookback := match vol_lookback with Some n => n | None => VOL_LOOKBACK end in
  let multiple := match vol_multiple with Some m => m | None => VOL_MULTIPLE end in
  let min_threshold :=
    match min_volume_threshold with Some t => t | None => MIN_VOLUME_THRESHOLD end in
  match db with
  | None | Some [] => None
  | Some rows =>
      let df := sort_rows (flat_map dropna_row rows) in
      if (length df <? Nat.max lookback PRICE_LOOKBACK)%nat then None else
      let latest := py_iloc_neg dummy_srow 1 df in
      let spike :=
        if FLAG_VOLUME_SPIKE fl then volume_spike lookback multiple df
        else Some (true, None, None, None) in
      match spike with
      | None => None
      | Some (meets_volume0, last_vol_val0, max_prev_vol, vol_multiple_result) =>
          (* 檢查成交量門檻 *)
          let last_vol_val :=
            match last_vol_val0 with Some v => v | None => s_volume latest end in
          let meets_volume := meets_volume0 && negb (Qltb last_vol_val min_threshold) in
          (* 條件 2 + 3：紅三兵 + 三大法人 *)
          let '(meets_red_three, meets_net_buy, closes, net_summary) :=
            if FLAG_RED_THREE fl || FLAG_NET_BUY fl then
              let recent_df := py_tail PRICE_LOOKBACK df in
              if negb (length recent_df =? PRICE_LOOKBACK)%nat
              then (false, false, None, None)
              else
                let prices := map s_close recent_df in
                let c1 := nth 0 prices 0 in
                let c2 := nth 1 prices 0 in
                let c3 := nth 2 prices 0 in
                let mr := if FLAG_RED_THREE fl then Qltb c1 c2 && Qltb c2 c3 else true in
                let positive_days := length (filter positive_day recent_df) in
                let details :=
                  map (fun r => (s_foreign r, s_trust r, s_dealer r, total_opt r))
                      recent_df in
                let ns := if FLAG_NET_BUY fl then Some (details, positive_days)
                          else None in
                let mn := if FLAG_NET_BUY fl then negb (positive_days <? 2)%nat
                          else true in
                (mr, mn, Some (c1, c2, c3), ns)
            else (true, true, None, None) in
          if meets_volume && meets_red_three && meets_net_buy then
            Some (mkSelection stock_code (s_date latest) (s_close latest)
                    (if FLAG_VOLUME_SPIKE fl then Some last_vol_val else None)
                    (if FLAG_VOLUME_SPIKE fl then max_prev_vol else None)
                    (if FLAG_VOLUME_SPIKE fl then vol_multiple_result else None)
                    (if FLAG_RED_THREE fl then closes else None)
                    net_summary)
          else None
      end
  end.

End StockSelect.

(** * Python [str] values as lists of code points, with the string
    operations the list loaders use *)
Module PyStr.

Definition pystr := list Z.

(** [str.isspace] for one code point. *)
Definition py_isspace (c : Z) : bool :=
  (((9 <=? c) && (c <=? 13)) || ((28 <=? c) && (c <=? 32)) || (c =? 133) ||
   (c =? 160) || (c =? 5760) || ((8192 <=? c) && (c <=? 8202)) ||
   (c =? 8232) || (c =? 8233) || (c =? 8239) || (c =? 8287) || (c =? 12288))%Z.

Fixpoint py_lstrip (s : pystr) : pystr :=
  match s with
  | [] => []
  | c :: t => if py_isspace c then py_lstrip t else s
  end.

Definition py_rstrip (s : pystr) : pystr := rev (py_lstrip (rev s)).

(** [str.strip()]. *)
Definition py_strip (s : pystr) : pystr := py_rstrip (py_lstrip s).

(** [str.split(sep)] with an explicit one-character separator: empty
    fields are kept. *)
Fixpoint py_split_aux (sep : Z) (s : pystr) (cur : pystr) : list pystr :=
  match s with
  | [] => [rev cur]
  | c :: t => if (c =? sep)%Z then rev cur :: py_split_aux sep t []
              else py_split_aux sep t (c :: cur)
  end.

Definition py_split (sep : Z) (s : pystr) : list pystr := py_split_aux sep s [].

Fixpoint pystr_eqb (a b : pystr) : bool :=
  match a, b with
  | [], [] => true
  | x :: a', y :: b' => Z.eqb x y && pystr_eqb a' b'
  | _, _ => false
  end.

(** [a < b] on [str]: lexicographic on code points. *)
Fixpoint pystr_ltb (a b : pystr) : bool :=
  match a, b with
  | _, [] => false
  | [], _ :: _ => true
  | x :: a', y :: b' => (x <? y)%Z || ((x =? y)%Z && pystr_ltb a' b')
  end.

(** [s.startswith(p)]. *)
Fixpoint startswith (s p : pystr) : bool :=
  match p, s with
  | [], _ => true
  | y :: p', x :: s' => Z.eqb x y && startswith s' p'
  | _ :: _, [] => false
  end.

End PyStr.

(** * [get_all_stock_codes] (StockTrend2.py and StockTrend_Gemini.py) *)
Module StockCodes.
Import PyStr.

(** [set.update]: a set as the list of its distinct members. *)
Definition set_add (s : list pystr) (x : pystr) : list pystr :=
  if existsb (pystr_eqb x) s then s else s ++ [x].

Definition set_update (s : list pystr) (xs : list pystr) : list pystr :=
  fold_left set_add xs s.

(** [sorted]: an insertion sort on [<] (stable, as [sorted] is). *)
Fixpoint insert_sorted (x : pystr) (l : list pystr) : list pystr :=
  match l with
  | [] => [x]
  | y :: t => if pystr_ltb y x then y :: insert_sorted x t else x :: l
  end.

Definition py_sorted (l : list pystr) : list pystr := fold_right insert_sorted [] l.

(** The 股票代碼 values of [SELECT DISTINCT] in each database, as [str];
    [None] where the file is missing or the query raised (the [except]
    then skips the database). *)
Definition db_codes (db : option (list pystr)) : list pystr :=
  match db with Some l => l | None => [] end.

(** StockTrend2.py *)
Definition get_all_stock_codes (tse otc : option (list pystr)) : list pystr :=
  py_sorted (set_update (set_update [] (db_codes tse)) (db_codes otc)).

(** StockTrend_Gemini.py: codes starting with "00" (ETFs) are dropped. *)
Definition get_all_stock_codes_no_etf (tse otc : option (list pystr)) : list pystr :=
  let codes := set_update (set_update [] (db_codes tse)) (db_codes otc) in
  py_sorted (filter (fun code => negb (startswith code [48; 48]%Z)) codes).

End StockCodes.

(** * [load_company_lists] (StockTrend_Gemini.py) *)
Module CompanyList.
Import PyStr.

Inductive market := Listed (* 上市 *) | OTC (* 上櫃 *).

Record company := mkCompany { co_name : pystr; co_type : market; co_sector : pystr }.

(** [company_info[code] = ...]: a new key goes last, an existing key keeps
    its place and takes the new value. *)
Fixpoint dict_set (k : pystr) (v : company) (d : list (pystr * company))
  : list (pystr * company) :=
  match d with
  | [] => [(k, v)]
  | (k', v') :: t => if pystr_eqb k k' then (k', v) :: t else (k', v') :: dict_set k v t
  end.

Fixpoint dict_lookup (k : pystr) (d : list (pystr * company)) : option company :=
  match d with
  | [] => None
  | (k', v) :: t => if pystr_eqb k k' then Some v else dict_lookup k t
  end.

(** [parts = line.strip().split('\t')]; [(code, name, sector)] when
    [len(parts) >= 3]. *)
Definition parse_line (line : pystr) : option (pystr * pystr * pystr) :=
  let parts := py_split 9 (py_strip line) in
  if (3 <=? length parts)%nat then
    Some (py_strip (nth 0 parts []), py_strip (nth 1 parts []),
          py_strip (nth 2 parts []))
  else None.

(** One file: [lines] is [f.readlines()], [None] where the file is missing
    or cannot be read; [lines[1:]] skips the header. *)
Definition load_file (m : market) (lines : option (list pystr))
    (d : list (pystr * company)) : list (pystr * company) :=
  match lines with
  | None => d
  | Some ls =>
      fold_left (fun d line =>
                   match parse_line line with
                   | Some (code, name, sector) => dict_set code (mkCompany name m sector) d
                   | None => d
                   end) (tl ls) d
  end.

(** The listed file first, then the OTC file. *)
Definition load_company_lists (tse otc : option (list pystr)) : list (pystr * company) :=
  load_file OTC otc (load_file Listed tse []).

End CompanyList.

(** ** Inputs used by the facts on the remaining functions *)
Module ExtraData.
Import Classifier ClassifierData PriceFix Normalizer Reversal ReversalData.
Local Open Scope string_scope.

(** Fifty days of -30, five of -250, then five of +300: the cumulative net
    bottoms at -2750 five days before the end and climbs back to -1250.
    The close is 10, except 5, 6 and 7 on the last three days. *)
Definition net_allpass (i : nat) : Q :=
  if (i <? 50)%nat then -30 else if (i <? 55)%nat then -250 else 300.

Definition close_allpass (i : nat) : Q :=
  if (i =? 57)%nat then 5 else if (i =? 58)%nat then 6
  else if (i =? 59)%nat then 7 else 10.

Definition df_allpass : list nrow := gen_df 60 net_allpass close_allpass.

(** One complete row whose date matches the pattern but is no day. *)
Definition raw_bad_date : list raw_row :=
  [mkRaw (Some "2024-02-30") (Some "1101") (Some "x") (Some "1000") None None
         (Some "10") (Some "10") (Some "10") (Some "10") None
         (Some "0") (Some "0") (Some "0")].

Definition dummy_crow : crow := mkCRow None None None 0 0 0 0 0 None 0 0 0.

(** Nine flat bars, then a volume spike: high-volume day 1. *)
Definition df_hv_day1 : list bar :=
  [flat; flat; flat; flat; flat; flat; flat; flat; flat; mkBar 10 10 10 10 500].

(** A volume spike the day before, then a higher one on a red bar:
    high-volume day 2. *)
Definition df_hv_day2 : list bar :=
  [flat; flat; flat; flat; flat; flat; flat; flat;
   mkBar 10 10 10 10 300; mkBar 10 12 10 11 400].

(** Twenty days closing at 10 .. 29 with a last-day volume of 20000
    against 10000 before, and a positive foreign net. *)
Definition df_threshold_pass : list nrow :=
  map (fun i => let c := inject_Z (10 + Z.of_nat i) in
                mkNRow (20240101 + Z.of_nat i) None None
                       (if (i =? 19)%nat then 20000 else 10000)
                       c c c c None 1 0 0)
      (seq 0 20).

(** Four days of volume 100, 100, 100, 7000, closes 0, 1, 2, 3 and a
    foreign net of 1: a spike, a red three and three buying days. *)
Definition db_spike : list StockSelect.db_row :=
  map (fun i => StockSelect.mkDBRow (Some (20240101 + Z.of_nat i)%Z)
                  (Some (if (i =? 3)%nat then 7000 else 100))
                  (Some (inject_Z (Z.of_nat i))) (Some 1) (Some 0) (Some 0))
      (seq 0 4).

(** A row without a date. *)
Definition row_no_date : StockSelect.db_row :=
  StockSelect.mkDBRow None (Some 100) (Some 5) None None None.

End ExtraData.

(** * Facts about the classifier *)
Module ClassifierFacts.
Import Classifier ClassifierData.

Lemma Qltb_true (x y : Q) : Qltb x y = true <-> (x < y)%Q.
Proof.
  unfold Qltb. rewrite negb_true_iff. split; intro H.
  - apply Qnot_le_lt. intro H'. apply Qle_bool_iff in H'. congruence.
  - destruct (Qle_bool y x) eqn:E; [|reflexivity].
    apply Qle_bool_iff in E. exfalso. apply (Qlt_not_le x y); assumption.
Qed.

Lemma recent_mk_ctx df : recent (mk_ctx df) = py_tail 10 df.
Proof. reflexivity. Qed.

Lemma latest_mk_ctx df : latest (mk_ctx df) = py_iloc_neg dummy_bar 1 (py_tail 10 df).
Proof. reflexivity. Qed.

(** The support price is the body low of the latest bar itself. *)
Lemma support_le_close df sp :
  support_price (mk_ctx df) = Some sp -> (sp <= b_close (latest (mk_ctx df)))%Q.
Proof.
  unfold mk_ctx. cbn [support_price latest].
  match goal with |- (if ?b then _ else _) = _ -> _ => destruct b end;
    intro H; inversion H; subst. apply Q.le_min_r.
Qed.

Ltac unfold_detectors :=
  unfold d_high_volume, d_support, d_three, d_fractal_bottom, d_fractal_top,
    d_swing, d_lower_shadow, d_upper_shadow, d_trend, d_ladder,
    d_big_vol_small_body, d_red_run, d_hv_rule, add_score, add_risk,
    reset_score; cbv zeta.

Ltac split_conds :=
  repeat match goal with
  | |- context [last3 ?f ?c] => destruct (last3 f c) as [[? ?] ?]
  | |- context [if ?b then _ else _] => let E := fresh "E" in destruct b eqn:E
  | |- context [match ?o with Some _ => _ | None => _ end] =>
      let E := fresh "E" in destruct o eqn:E
  end.

(** No block of the source ever records 破支撐. *)
Lemma step_no_broke_support df d s :
  In d detectors -> ~ In PoZhiCheng (risk_factors s) ->
  ~ In PoZhiCheng (risk_factors (d (mk_ctx df) s)).
Proof.
  intros Hd Hs. pose proof (support_le_close df) as Hsup.
  set (c := mk_ctx df) in *. clearbody c.
  simpl in Hd. repeat destruct Hd as [<-|Hd]; try contradiction;
    unfold_detectors; split_conds; simpl;
    rewrite ?in_app_iff; simpl; try (intuition discriminate).
  (* the branch [current_price < support_price] *)
  apply Qltb_true in E1. specialize (Hsup _ eq_refl).
  exfalso. apply (Qlt_not_le _ _ E1). exact Hsup.
Qed.

Lemma run_no_broke_support df ds s :
  incl ds detectors -> ~ In PoZhiCheng (risk_factors s) ->
  ~ In PoZhiCheng (risk_factors (run_detectors (mk_ctx df) ds s)).
Proof.
  revert s. induction ds as [|d ds IH]; intros s Hincl Hs; simpl; [exact Hs|].
  apply IH; [intros x Hx; apply Hincl; right; exact Hx|].
  apply step_no_broke_support; [apply Hincl; left; reflexivity|exact Hs].
Qed.

Lemma never_broke_support df : ~ In PoZhiCheng (r_risks (analyze_volume_price_pattern df)).
Proof.
  unfold analyze_volume_price_pattern.
  destruct (length df <? 10)%nat; [simpl; tauto|].
  destruct (map_score _) as [a lv].
  destruct (if existsb _ _ then _ else _) as [a' lv']. cbn [r_risks].
  exact (run_no_broke_support df detectors init_state (fun x Hx => Hx) (fun H => H)).
Qed.

(** The last four rows are all red only if the latest row is red. *)
Lemma tail4_last (f : bar -> bool) (l : list bar) :
  (4 <= length l)%nat -> (4 <= length (filter f (py_tail 4 l)))%nat ->
  f (py_iloc_neg dummy_bar 1 l) = true.
Proof.
  intros Hl Hf. unfold py_tail, py_iloc_neg in *.
  assert (Hlen : length (skipn (length l - 4) l) = 4%nat)
    by (rewrite length_skipn; lia).
  pose proof (filter_length_le f (skipn (length l - 4) l)) as Hle.
  assert (Hall : forallb f (skipn (length l - 4) l) = true)
    by (apply filter_length_forallb; lia).
  rewrite forallb_forall in Hall.
  replace (length l - 1)%nat with ((length l - 4) + 3)%nat by lia.
  rewrite <- nth_skipn. apply Hall, nth_In. lia.
Qed.

Lemma red_run_needs_red_latest df :
  (4 <= length (recent (mk_ctx df)))%nat ->
  (4 <= length (filter (fun b => Qltb (b_open b) (b_close b))
                        (py_tail 4 (recent (mk_ctx df)))))%nat ->
  Qltb (b_open (latest (mk_ctx df))) (b_close (latest (mk_ctx df))) = true.
Proof.
  rewrite recent_mk_ctx, latest_mk_ctx.
  apply (tail4_last (fun b => Qltb (b_open b) (b_close b))).
Qed.

(** No block of the source ever appends the 連紅≥4天見綠放量 signal. *)
Lemma step_no_red_run df d s :
  In d detectors -> ~ In SigRedRunGreen (signals s) ->
  ~ In SigRedRunGreen (signals (d (mk_ctx df) s)).
Proof.
  intros Hd Hs. pose proof (red_run_needs_red_latest df) as Hred.
  set (c := mk_ctx df) in *. clearbody c.
  simpl in Hd. repeat destruct Hd as [<-|Hd]; try contradiction;
    unfold_detectors; split_conds; simpl;
    rewrite ?in_app_iff; simpl; try (intuition discriminate).
  (* the branch that appends the signal *)
  apply andb_true_iff in E0 as [E0 _]. apply andb_true_iff in E1 as [E1 _].
  apply Nat.leb_le in E, E0. specialize (Hred E E0).
  apply Qltb_true in Hred, E1. exfalso. apply (Qlt_not_le _ _ Hred). apply Qlt_le_weak, E1.
Qed.

Lemma run_no_red_run df ds s :
  incl ds detectors -> ~ In SigRedRunGreen (signals s) ->
  ~ In SigRedRunGreen (signals (run_detectors (mk_ctx df) ds s)).
Proof.
  revert s. induction ds as [|d ds IH]; intros s Hincl Hs; simpl; [exact Hs|].
  apply IH; [intros x Hx; apply Hincl; right; exact Hx|].
  apply step_no_red_run; [apply Hincl; left; reflexivity|exact Hs].
Qed.

Lemma never_red_run df : ~ In SigRedRunGreen (r_signals (analyze_volume_price_pattern df)).
Proof.
  unfold analyze_volume_price_pattern.
  destruct (length df <? 10)%nat; [simpl; tauto|].
  destruct (map_score _) as [a lv].
  destruct (if existsb _ _ then _ else _) as [a' lv']. cbn [r_signals].
  exact (run_no_red_run df detectors init_state (fun x Hx => Hx) (fun H => H)).
Qed.

(** A block moves the score by an amount that does not depend on the
    incoming state. *)
Definition score_shift (c : ctx) (d : detector) : Prop :=
  forall s1 s2, (action_score (d c s1) - action_score s1 =
                 action_score (d c s2) - action_score s2)%Z.

Lemma step_shift c d :
  In d detectors -> no_reset c = true -> score_shift c d.
Proof.
  intros Hd Hnr s1 s2. unfold no_reset, hv_day1 in Hnr.
  apply andb_true_iff in Hnr as [Hsw Hd1]. apply negb_true_iff in Hsw, Hd1.
  simpl in Hd. repeat destruct Hd as [<-|Hd]; try contradiction;
    unfold_detectors; split_conds; simpl; lia.
Qed.

Lemma fold_shift c ds :
  Forall (score_shift c) ds -> forall s1 s2,
  (action_score (run_detectors c ds s1) - action_score s1 =
   action_score (run_detectors c ds s2) - action_score s2)%Z.
Proof.
  induction ds as [|d ds IH]; intros HF s1 s2; simpl; [lia|].
  inversion HF as [|? ? Hd Hds]; subst.
  specialize (IH Hds (d c s1) (d c s2)). specialize (Hd s1 s2). lia.
Qed.

Lemma perm_score c l l' :
  Permutation l l' -> Forall (score_shift c) l -> forall s,
  action_score (run_detectors c l s) = action_score (run_detectors c l' s).
Proof.
  induction 1 as [|x l l' _ IH|x y l|l l' l'' H1 IH1 _ IH2]; intros HF s; simpl.
  - reflexivity.
  - inversion HF; subst. apply IH; assumption.
  - inversion HF as [|? ? Hy HF']; subst. inversion HF' as [|? ? Hx Hl]; subst.
    pose proof (fold_shift c l Hl (x c (y c s)) (y c (x c s))) as Hf.
    pose proof (Hx (y c s) s). pose proof (Hy s (x c s)). lia.
  - rewrite IH1 by exact HF. apply IH2. eapply Permutation_Forall; eassumption.
Qed.

End ClassifierFacts.

(** * Claims on the classifier *)
Module ClassifierClaims.
Import Classifier ClassifierData ClassifierFacts.

(** C1 (code_bug).  The final if/elif chain tests [score >= 5] before
    [score >= 8] and [score <= -5] before [score <= -8]: no score maps to
    重倉 (heavy-load) or to 清倉 (exit).  On [df_score17], ten bars with no
    support break and a final score of 17, the action is 上車 (enter). *)
Theorem score_mapping_heavy_and_exit_unreachable :
  (forall z, fst (map_score z) <> ZhongCang /\ fst (map_score z) <> QingCang) /\
  r_score (analyze_volume_price_pattern df_score17) = Some 17%Z /\
  r_action (analyze_volume_price_pattern df_score17) = ShangChe /\
  r_level (analyze_volume_price_pattern df_score17) = Di /\
  ~ In PoZhiCheng (r_risks (analyze_volume_price_pattern df_score17)).
Proof.
  split; [|split; [vm_compute; reflexivity|split; [vm_compute; reflexivity|
           split; [vm_compute; reflexivity|apply never_broke_support]]]].
  intro z. unfold map_score.
  destruct (5 <=? z)%Z eqn:E5; [split; discriminate|].
  destruct (8 <=? z)%Z eqn:E8.
  { apply Z.leb_gt in E5. apply Z.leb_le in E8. lia. }
  destruct (z <=? -5)%Z eqn:Em5; [split; discriminate|].
  destruct (z <=? -8)%Z eqn:Em8.
  { apply Z.leb_gt in Em5. apply Z.leb_le in Em8. lia. }
  split; discriminate.
Qed.

(** C2 (code_bug).  The support price is the body low of the latest bar
    itself, so the latest close is never below it: no series records the
    破支撐 risk factor and the exit override never fires.  On
    [df_below_hv_support], whose latest close 10 is below the body low 12 of
    the high-volume bar one day back, the action is 觀望 (hold). *)
Theorem broke_support_never_recorded :
  (forall df, ~ In PoZhiCheng (r_risks (analyze_volume_price_pattern df))) /\
  high_volume_day (mk_ctx df_below_hv_support) = 2%nat /\
  r_action (analyze_volume_price_pattern df_below_hv_support) = GuanWang /\
  r_level (analyze_volume_price_pattern df_below_hv_support) = Zhong.
Proof.
  split; [exact never_broke_support|].
  split; [vm_compute; reflexivity|split; vm_compute; reflexivity].
Qed.

(** C3 (counterexample).  On [df_swing] the source order yields score 0
    (the violent-swing block resets the +2 of the three rising closes);
    running the violent-swing block first yields 2. *)
Lemma score_order_dependent_example :
  Permutation detectors detectors_swing_first /\
  r_score (analyze_volume_price_pattern df_swing) = Some 0%Z /\
  action_score (run_detectors (mk_ctx df_swing) detectors_swing_first init_state) = 2%Z.
Proof.
  split; [|split; vm_compute; reflexivity].
  unfold detectors, detectors_swing_first. simpl.
  apply Permutation_sym.
  exact (Permutation_middle
           [d_high_volume; d_support; d_three; d_fractal_bottom; d_fractal_top]
           [d_lower_shadow; d_upper_shadow; d_trend; d_ladder;
            d_big_vol_small_body; d_red_run; d_hv_rule] d_swing).
Qed.

(** C3 (amended).  When neither the violent-swing block nor the
    high-volume-day-1 block fires (the two blocks that set the score to 0),
    every block adds an amount independent of the running score, and the
    returned score equals the score of the blocks run in any order. *)
Theorem score_order_independent_without_reset (df : list bar) (perm : list detector) :
  (10 <= length df)%nat ->
  Permutation detectors perm ->
  no_reset (mk_ctx df) = true ->
  r_score (analyze_volume_price_pattern df) =
    Some (action_score (run_detectors (mk_ctx df) perm init_state)).
Proof.
  intros Hlen Hperm Hnr. unfold analyze_volume_price_pattern.
  replace (length df <? 10)%nat with false by (symmetry; apply Nat.ltb_ge; exact Hlen).
  destruct (map_score _) as [a lv].
  destruct (if existsb _ _ then _ else _) as [a' lv']. cbn [r_score].
  f_equal. apply perm_score; [exact Hperm|].
  apply Forall_forall. intros d Hd. apply step_shift; assumption.
Qed.

Lemma score_order_independent_without_reset_witness :
  (10 <= length df_score17)%nat /\ no_reset (mk_ctx df_score17) = true /\
  r_score (analyze_volume_price_pattern df_score17) =
    Some (action_score (run_detectors (mk_ctx df_score17) (rev detectors) init_state)).
Proof.
  split; [simpl; lia|split; [vm_compute; reflexivity|]].
  apply score_order_independent_without_reset;
    [simpl; lia|apply Permutation_rev|vm_compute; reflexivity].
Defined.

(** C5 (code_bug).  The source counts red bars over the last four rows,
    which include the latest row, and then asks the latest row to be
    green: the 連紅≥4天見綠放量 signal is never emitted.  On
    [df_red4_green], four red bars followed by a green bar on a volume
    spike, it is missing. *)
Theorem red_run_signal_never_emitted :
  (forall df, ~ In SigRedRunGreen (r_signals (analyze_volume_price_pattern df))) /\
  forallb (fun b => Qltb (b_open b) (b_close b)) (py_slice_neg 5 1 df_red4_green) = true /\
  Qltb (b_close (latest (mk_ctx df_red4_green))) (b_open (latest (mk_ctx df_red4_green))) = true /\
  is_high_volume (mk_ctx df_red4_green) = true /\
  ~ In SigRedRunGreen (r_signals (analyze_volume_price_pattern df_red4_green)).
Proof.
  split; [exact never_red_run|].
  split; [vm_compute; reflexivity|split; [vm_compute; reflexivity|]].
  split; [vm_compute; reflexivity|apply never_red_run].
Qed.

End ClassifierClaims.

(** * Facts about [fix_price_columns] *)
Module PriceFixFacts.
Import PriceFix Normalizer.
Local Open Scope string_scope.

Lemma append_assoc_str (a b c : string) : (a ++ b) ++ c = a ++ (b ++ c).
Proof. induction a as [|x a IH]; simpl; [reflexivity|rewrite IH; reflexivity]. Qed.

Lemma append_nil_str (a : string) : a ++ "" = a.
Proof. induction a as [|x a IH]; simpl; [reflexivity|rewrite IH; reflexivity]. Qed.

Lemma length_append_str (a b : string) :
  String.length (a ++ b) = (String.length a + String.length b)%nat.
Proof. induction a as [|x a IH]; simpl; [reflexivity|rewrite IH; reflexivity]. Qed.

Fixpoint all_chars (p : ascii -> bool) (s : string) : bool :=
  match s with
  | EmptyString => true
  | String a t => p a && all_chars p t
  end.

Lemma all_chars_app p a b : all_chars p (a ++ b) = all_chars p a && all_chars p b.
Proof.
  induction a as [|x a IH]; simpl; [reflexivity|rewrite IH, andb_assoc; reflexivity].
Qed.

Lemma has_dot_app a b : has_dot (a ++ b) = has_dot a || has_dot b.
Proof.
  induction a as [|x a IH]; simpl; [reflexivity|rewrite IH, orb_assoc; reflexivity].
Qed.

Definition not_ws (a : ascii) : bool := negb (is_ws a).

Lemma strip_id s : all_chars not_ws s = true -> strip s = s.
Proof.
  intro H. unfold strip.
  assert (Hl : lstrip s = s).
  { destruct s as [|a t]; simpl; [reflexivity|].
    simpl in H. apply andb_true_iff in H as [Ha _].
    unfold not_ws in Ha. apply negb_true_iff in Ha. rewrite Ha. reflexivity. }
  rewrite Hl. clear Hl. induction s as [|a t IH]; simpl; [reflexivity|].
  simpl in H. apply andb_true_iff in H as [Ha Ht].
  unfold not_ws in Ha. apply negb_true_iff in Ha. rewrite Ha, IH by exact Ht.
  reflexivity.
Qed.

Lemma span_digits_spec s d r :
  span_digits s = (d, r) -> s = d ++ r /\ all_chars is_digit d = true.
Proof.
  revert d r. induction s as [|a t IH]; intros d r H; simpl in H.
  - inversion H; subst. split; reflexivity.
  - destruct (is_digit a) eqn:Ea.
    + destruct (span_digits t) as [d' r'] eqn:Et. inversion H; subst.
      destruct (IH _ _ eq_refl) as [-> Hd]. simpl. rewrite Ea, Hd. split; reflexivity.
    + inversion H; subst. split; reflexivity.
Qed.

Lemma span_digits_dot d r :
  all_chars is_digit d = true -> span_digits (d ++ String "." r) = (d, String "." r).
Proof.
  induction d as [|a t IH]; intro H; simpl.
  - reflexivity.
  - simpl in H. apply andb_true_iff in H as [Ha Ht]. rewrite Ha, IH by exact Ht.
    reflexivity.
Qed.

(** A three-decimal price at the head of a string is matched whole. *)
Lemma match_price_price3 p rest :
  price3 p = true -> match_price (p ++ rest) = Some (p, rest).
Proof.
  unfold price3. destruct (span_digits p) as [d r] eqn:Ep.
  destruct (span_digits_spec _ _ _ Ep) as [-> Hd].
  destruct d as [|x d']; [discriminate|].
  destruct r as [|dot [|a [|b [|c [|? ?]]]]]; try discriminate.
  intro H. apply andb_true_iff in H as [H Hc]. apply andb_true_iff in H as [H Hb].
  apply andb_true_iff in H as [Hdot Ha]. apply Ascii.eqb_eq in Hdot. subst dot.
  unfold match_price. rewrite append_assoc_str. simpl (String "." _ ++ rest).
  rewrite span_digits_dot by exact Hd. simpl. rewrite Ha, Hb, Hc. simpl.
  reflexivity.
Qed.

Lemma price3_shape p :
  price3 p = true ->
  all_chars not_ws p = true /\ has_dot p = true /\ (5 <= String.length p)%nat.
Proof.
  unfold price3. destruct (span_digits p) as [d r] eqn:Ep.
  destruct (span_digits_spec _ _ _ Ep) as [-> Hd].
  destruct d as [|x d']; [discriminate|].
  destruct r as [|dot [|a [|b [|c [|? ?]]]]]; try discriminate.
  intro H. apply andb_true_iff in H as [H Hc]. apply andb_true_iff in H as [H Hb].
  apply andb_true_iff in H as [Hdot Ha]. apply Ascii.eqb_eq in Hdot. subst dot.
  assert (Hnd : forall y, is_digit y = true -> not_ws y = true)
    by (intros [[] [] [] [] [] [] [] []]; vm_compute; congruence).
  assert (Hnds : forall s, all_chars is_digit s = true -> all_chars not_ws s = true).
  { induction s as [|y s IH]; simpl; [reflexivity|].
    intro Hs. apply andb_true_iff in Hs as [Hy Hs].
    rewrite (Hnd y Hy), (IH Hs). reflexivity. }
  rewrite all_chars_app, has_dot_app, length_append_str, (Hnds _ Hd).
  split; [cbn [all_chars]; rewrite (Hnd a Ha), (Hnd b Hb), (Hnd c Hc); reflexivity|].
  split; [apply orb_true_iff; right; reflexivity|].
  simpl. lia.
Qed.

Lemma findall_fuel_price3 n p rest :
  price3 p = true -> findall_fuel (S n) (p ++ rest) = p :: findall_fuel n rest.
Proof. intro H. cbn [findall_fuel]. rewrite match_price_price3 by exact H. reflexivity. Qed.

Lemma findall_fuel_empty n : findall_fuel n "" = [].
Proof. destruct n; reflexivity. Qed.

(** Four concatenated three-decimal prices are found back one by one. *)
Lemma findall_four p1 p2 p3 p4 :
  price3 p1 = true -> price3 p2 = true -> price3 p3 = true -> price3 p4 = true ->
  findall_prices (p1 ++ p2 ++ p3 ++ p4) = [p1; p2; p3; p4].
Proof.
  intros H1 H2 H3 H4.
  pose proof (price3_shape _ H1) as (_ & _ & L1).
  pose proof (price3_shape _ H2) as (_ & _ & L2).
  pose proof (price3_shape _ H3) as (_ & _ & L3).
  unfold findall_prices.
  rewrite !length_append_str.
  destruct (String.length p1) as [|[|[|[|n]]]] eqn:E1; try lia.
  rewrite findall_fuel_price3 by exact H1.
  replace (S (S (S (S n))) + _)%nat with
    (S (S (S (S (n + (String.length p2 + (String.length p3 + String.length p4)))))))
    by lia.
  rewrite findall_fuel_price3 by exact H2.
  rewrite findall_fuel_price3 by exact H3.
  rewrite <- (append_nil_str p4).
  rewrite findall_fuel_price3 by exact H4.
  rewrite findall_fuel_empty, append_nil_str. reflexivity.
Qed.

End PriceFixFacts.

(** * Claim on [fix_price_columns] *)
Module PriceFixClaims.
Import PriceFix Normalizer PriceFixFacts.
Local Open Scope string_scope.

Lemma fix_price_columns_branches row o :
  f_open row = Some o -> (12 < String.length (strip o))%nat -> has_dot (strip o) = true ->
  ((4 <= List.length (findall_prices (strip o)))%nat ->
     f_open (fix_price_columns row) = Some (nth 0 (findall_prices (strip o)) "") /\
     f_high (fix_price_columns row) = Some (nth 1 (findall_prices (strip o)) "") /\
     f_low (fix_price_columns row) = Some (nth 2 (findall_prices (strip o)) "") /\
     f_close (fix_price_columns row) = Some (nth 3 (findall_prices (strip o)) "")) /\
  ((List.length (findall_prices (strip o)) < 4)%nat ->
     f_open (fix_price_columns row) = None /\ coerce_row (fix_price_columns row) = None).
Proof.
  intros Ho Hlen Hdot. unfold fix_price_columns. rewrite Ho.
  replace (12 <? String.length (strip o))%nat with true
    by (symmetry; apply Nat.ltb_lt; exact Hlen).
  rewrite Hdot. simpl andb.
  split; intro H.
  - replace (4 <=? List.length (findall_prices (strip o)))%nat with true
      by (symmetry; apply Nat.leb_le; exact H).
    repeat split.
  - replace (4 <=? List.length (findall_prices (strip o)))%nat with false
      by (symmetry; apply Nat.leb_gt; exact H).
    split; reflexivity.
Qed.

(** C10.  For a row whose stripped [open] text is longer than 12
    characters and contains ['.']: with at least four matches of
    [\d+\.\d{1,3}] the first four become open/high/low/close; with fewer
    the open is set to NaN and the row is dropped by the coercion and
    [dropna].  Four concatenated three-decimal prices are split back into
    those four prices, and "12.50012.60012.40012.550" gives 12.500, 12.600,
    12.400, 12.550. *)
Theorem fix_price_columns_repair :
  (forall row p1 p2 p3 p4,
     f_open row = Some (p1 ++ p2 ++ p3 ++ p4) ->
     price3 p1 = true -> price3 p2 = true -> price3 p3 = true -> price3 p4 = true ->
     f_open (fix_price_columns row) = Some p1 /\ f_high (fix_price_columns row) = Some p2 /\
     f_low (fix_price_columns row) = Some p3 /\ f_close (fix_price_columns row) = Some p4) /\
  (forall row o,
     f_open row = Some o -> (12 < String.length (strip o))%nat -> has_dot (strip o) = true ->
     (4 <= List.length (findall_prices (strip o)))%nat ->
     f_open (fix_price_columns row) = Some (nth 0 (findall_prices (strip o)) "") /\
     f_high (fix_price_columns row) = Some (nth 1 (findall_prices (strip o)) "") /\
     f_low (fix_price_columns row) = Some (nth 2 (findall_prices (strip o)) "") /\
     f_close (fix_price_columns row) = Some (nth 3 (findall_prices (strip o)) "")) /\
  (forall row o,
     f_open row = Some o -> (12 < String.length (strip o))%nat -> has_dot (strip o) = true ->
     (List.length (findall_prices (strip o)) < 4)%nat ->
     f_open (fix_price_columns row) = None /\ coerce_row (fix_price_columns row) = None) /\
  (f_open (fix_price_columns (row_with_open "12.50012.60012.40012.550")) = Some "12.500" /\
   f_high (fix_price_columns (row_with_open "12.50012.60012.40012.550")) = Some "12.600" /\
   f_low (fix_price_columns (row_with_open "12.50012.60012.40012.550")) = Some "12.400" /\
   f_close (fix_price_columns (row_with_open "12.50012.60012.40012.550")) = Some "12.550" /\
   coerce (f_open (fix_price_columns (row_with_open "12.50012.60012.40012.550")))
     = Some (Qmake 12500 1000)).
Proof.
  split; [|split; [|split]].
  - intros row p1 p2 p3 p4 Ho H1 H2 H3 H4.
    pose proof (price3_shape _ H1) as (W1 & D1 & L1).
    pose proof (price3_shape _ H2) as (W2 & _ & L2).
    pose proof (price3_shape _ H3) as (W3 & _ & L3).
    pose proof (price3_shape _ H4) as (W4 & _ & L4).
    assert (Hs : strip (p1 ++ p2 ++ p3 ++ p4) = p1 ++ p2 ++ p3 ++ p4).
    { apply strip_id. rewrite !all_chars_app, W1, W2, W3, W4. reflexivity. }
    assert (Hf := findall_four _ _ _ _ H1 H2 H3 H4).
    destruct (fix_price_columns_branches row _ Ho) as [Hok _].
    + rewrite Hs, !length_append_str. lia.
    + rewrite Hs, has_dot_app, D1. reflexivity.
    + rewrite Hs, Hf in Hok. apply Hok. simpl. lia.
  - intros row o Ho Hl Hd H. exact (proj1 (fix_price_columns_branches row o Ho Hl Hd) H).
  - intros row o Ho Hl Hd H. exact (proj2 (fix_price_columns_branches row o Ho Hl Hd) H).
  - vm_compute. repeat split.
Qed.

Lemma fix_price_columns_repair_witness :
  f_open (row_with_open ("12.500" ++ "12.600" ++ "12.400" ++ "12.550"))
    = Some ("12.500" ++ "12.600" ++ "12.400" ++ "12.550") /\
  f_close (fix_price_columns (row_with_open ("12.500" ++ "12.600" ++ "12.400" ++ "12.550")))
    = Some "12.550".
Proof.
  split; [reflexivity|].
  apply (proj1 fix_price_columns_repair
           (row_with_open ("12.500" ++ "12.600" ++ "12.400" ++ "12.550"))
           "12.500" "12.600" "12.400" "12.550");
    vm_compute; reflexivity.
Defined.

End PriceFixClaims.

(** * Facts about the normaliser *)
Module NormalizerFacts.
Import PriceFix Normalizer.

Definition date_le (a b : nrow) : Prop := (n_date a <= n_date b)%Z.

Lemma insert_by_date_perm r l : Permutation (r :: l) (insert_by_date r l).
Proof.
  induction l as [|x t IH]; simpl; [reflexivity|].
  destruct (n_date r <=? n_date x)%Z; [reflexivity|].
  etransitivity; [apply perm_swap|]. apply perm_skip, IH.
Qed.

Lemma insert_by_date_hd x r l :
  HdRel date_le x l -> date_le x r -> HdRel date_le x (insert_by_date r l).
Proof.
  intros Hl Hr. destruct l as [|y t]; simpl; [constructor; exact Hr|].
  destruct (n_date r <=? n_date y)%Z; constructor; [exact Hr|].
  inversion Hl; assumption.
Qed.

Lemma insert_by_date_sorted r l : Sorted date_le l -> Sorted date_le (insert_by_date r l).
Proof.
  induction l as [|x t IH]; intro Hs; simpl; [constructor; constructor|].
  destruct (n_date r <=? n_date x)%Z eqn:E.
  - constructor; [exact Hs|]. constructor. apply Z.leb_le, E.
  - apply Sorted_inv in Hs as [Ht Hhd]. constructor; [apply IH, Ht|].
    apply insert_by_date_hd; [exact Hhd|]. unfold date_le. apply Z.leb_gt in E. lia.
Qed.

Lemma isort_date_admissible : date_sort isort_date.
Proof.
  intro l. induction l as [|x t [IHp IHs]]; simpl; [split; constructor|].
  split.
  - etransitivity; [apply perm_skip, IHp|apply insert_by_date_perm].
  - apply insert_by_date_sorted, IHs.
Qed.

End NormalizerFacts.

(** * Claim on the normaliser *)
Module NormalizerClaims.
Import PriceFix Normalizer NormalizerFacts.
Local Open Scope string_scope.

Definition raw_at (d o : string) : raw_row :=
  mkRaw (Some d) (Some "1101") (Some "x") (Some "1000") None None (Some o)
        (Some "13") (Some "12") (Some "12.5") None (Some "1") (Some "-2") (Some "3").

(** C4 (counterexample).  Two rows dated 2024-01-03 both survive the
    normalisation. *)
Lemma normalize_keeps_duplicate_dates :
  exists df, normalize isort_date
               [raw_at "2024-01-03" "12"; raw_at "2024-01-02" "11";
                raw_at "2024-01-03" "14"] = Some df /\
             has_dup_dates df = true /\ List.length df = 3%nat.
Proof. eexists. split; [vm_compute; reflexivity|split; vm_compute; reflexivity]. Qed.

(** C4 (amended).  For any sort that orders by date, the normalised series
    is a date-ordered permutation of the rows that pass the repair, the
    numeric [dropna] and the date filter: no row is dropped for sharing a
    date, and the series is free of duplicate dates exactly when those
    rows are. *)
Theorem normalize_sorted_permutation (sort_rows : list nrow -> list nrow)
  (raw : list raw_row) (df : list nrow) :
  date_sort sort_rows ->
  normalize sort_rows raw = Some df ->
  exists rows, convert_dates (cleaned_rows raw) = Some rows /\
    Permutation rows df /\ Sorted date_le df /\
    (NoDup (map n_date df) <-> NoDup (map n_date rows)).
Proof.
  intros Hsort Hn. unfold normalize in Hn.
  destruct raw as [|r0 raw']; [discriminate|].
  destruct (convert_dates (cleaned_rows (r0 :: raw'))) as [rows|] eqn:Ec; [|discriminate].
  inversion Hn; subst df. exists rows. destruct (Hsort rows) as [Hp Hs].
  split; [reflexivity|split; [exact Hp|split; [exact Hs|]]].
  split; apply Permutation_NoDup, Permutation_map;
    [apply Permutation_sym|]; exact Hp.
Qed.

Lemma normalize_sorted_permutation_witness :
  date_sort isort_date /\
  exists df rows,
    normalize isort_date [raw_at "2024-01-03" "12"; raw_at "2024-01-02" "11"] = Some df /\
    convert_dates (cleaned_rows [raw_at "2024-01-03" "12"; raw_at "2024-01-02" "11"])
      = Some rows /\ Permutation rows df.
Proof.
  split; [exact isort_date_admissible|].
  destruct (normalize_sorted_permutation isort_date
              [raw_at "2024-01-03" "12"; raw_at "2024-01-02" "11"]
              (isort_date (match convert_dates (cleaned_rows
                 [raw_at "2024-01-03" "12"; raw_at "2024-01-02" "11"]) with
                 | Some l => l | None => [] end))
              isort_date_admissible eq_refl) as (rows & Hc & Hp & _).
  eexists; exists rows. split; [reflexivity|split; [exact Hc|exact Hp]].
Defined.

End NormalizerClaims.

(** * Facts about the reversal screen *)
Module ReversalFacts.
Import Normalizer Reversal ReversalData.

Lemma Qltb_true_prop (x y : Q) : Qltb x y = true <-> (x < y)%Q.
Proof.
  unfold Qltb. rewrite negb_true_iff. split; intro H.
  - apply Qnot_le_lt. intro H'. apply Qle_bool_iff in H'. congruence.
  - destruct (Qle_bool y x) eqn:E; [|reflexivity].
    apply Qle_bool_iff in E. exfalso. apply (Qlt_not_le x y); assumption.
Qed.

(** ** Python slices *)

Lemma length_py_tail {A} n (l : list A) :
  (n <= length l)%nat -> length (py_tail n l) = n.
Proof. intro H. unfold py_tail. rewrite length_skipn. lia. Qed.

Lemma nth_py_tail {A} n (l : list A) i d :
  nth i (py_tail n l) d = nth (length l - n + i) l d.
Proof. unfold py_tail. apply nth_skipn. Qed.

Lemma py_tail_map {A B} (f : A -> B) n l : py_tail n (map f l) = map f (py_tail n l).
Proof. unfold py_tail. rewrite length_map. apply skipn_map. Qed.

Lemma py_tail_tail {A} m n (l : list A) :
  (m <= n)%nat -> (n <= length l)%nat -> py_tail m (py_tail n l) = py_tail m l.
Proof.
  intros Hmn Hn. unfold py_tail at 1. rewrite length_py_tail by exact Hn.
  unfold py_tail. rewrite skipn_skipn. f_equal. lia.
Qed.

Lemma In_py_tail {A} n (l : list A) x d :
  (n <= length l)%nat ->
  In x (py_tail n l) <-> exists j, (length l - n <= j < length l)%nat /\ nth j l d = x.
Proof.
  intro Hn. split.
  - intro Hx. apply (In_nth _ _ d) in Hx as [i [Hi Hx]].
    rewrite length_py_tail in Hi by exact Hn. rewrite nth_py_tail in Hx.
    exists (length l - n + i)%nat. split; [lia|exact Hx].
  - intros [j [Hj Hx]]. subst x.
    replace j with (length l - n + (j - (length l - n)))%nat by lia.
    rewrite <- nth_py_tail. apply nth_In. rewrite length_py_tail by exact Hn. lia.
Qed.

Lemma forallb_tail3 {A} (p : A -> bool) (l : list A) d :
  (3 <= length l)%nat ->
  forallb p (py_tail 3 l) = true <->
  (forall k, (1 <= k <= 3)%nat -> p (py_iloc_neg d k l) = true).
Proof.
  intro H3. rewrite forallb_forall. unfold py_iloc_neg. split.
  - intros H k Hk. apply H. apply (In_py_tail 3 l _ d H3).
    exists (length l - k)%nat. split; [lia|reflexivity].
  - intros H x Hx. apply (In_py_tail 3 l _ d H3) in Hx as [j [Hj <-]].
    replace j with (length l - (length l - j))%nat by lia. apply H. lia.
Qed.

Lemma forallb_map_comp {A B} (p : B -> bool) (f : A -> B) l :
  forallb p (map f l) = forallb (fun x => p (f x)) l.
Proof. induction l as [|x t IH]; simpl; [reflexivity|rewrite IH; reflexivity]. Qed.

(** ** Minimum and first index of the minimum *)

Lemma Qmin_choice (x y : Q) : Qmin x y = x \/ Qmin x y = y.
Proof. unfold Qmin, GenericMinMax.gmin. destruct (x ?= y); auto. Qed.

Lemma fold_Qmin_spec t x :
  (fold_left Qmin t x <= x)%Q /\ (forall y, In y t -> fold_left Qmin t x <= y)%Q /\
  (fold_left Qmin t x = x \/ In (fold_left Qmin t x) t).
Proof.
  revert x. induction t as [|y t IH]; intro x; simpl.
  - split; [apply Qle_refl|split; [intros y []|left; reflexivity]].
  - destruct (IH (Qmin x y)) as (H1 & H2 & H3). split; [|split].
    + eapply Qle_trans; [exact H1|apply Q.le_min_l].
    + intros z [<-|Hz]; [eapply Qle_trans; [exact H1|apply Q.le_min_r]|auto].
    + destruct H3 as [H3|H3]; [|auto].
      destruct (Qmin_choice x y) as [E|E];
        [left; rewrite H3; exact E|right; left; rewrite H3, E; reflexivity].
Qed.

Lemma qmin_list_le l j : (j < length l)%nat -> (qmin_list l <= nth j l 0)%Q.
Proof.
  destruct l as [|x t]; simpl; intro Hj; [lia|].
  destruct (fold_Qmin_spec t x) as (H1 & H2 & _).
  destruct j as [|j]; [exact H1|]. apply H2, nth_In. lia.
Qed.

Lemma qmin_list_in l : l <> [] -> exists j, (j < length l)%nat /\ nth j l 0 = qmin_list l.
Proof.
  destruct l as [|x t]; intro Hne; [congruence|]. simpl.
  destruct (fold_Qmin_spec t x) as (_ & _ & [H|H]).
  - exists 0%nat. split; [lia|symmetry; exact H].
  - apply (In_nth _ _ 0) in H as [i [Hi Hx]]. exists (S i). simpl. split; [lia|exact Hx].
Qed.

(** [m] is the first index of a minimum of [l]. *)
Definition first_min (l : list Q) (m : nat) : Prop :=
  (m < length l)%nat /\
  (forall j, (j < length l)%nat -> nth m l 0 <= nth j l 0)%Q /\
  (forall j, (j < m)%nat -> nth m l 0 < nth j l 0)%Q.

Lemma first_min_unique l m m' : first_min l m -> first_min l m' -> m = m'.
Proof.
  intros (Hm & Hle & Hlt) (Hm' & Hle' & Hlt').
  destruct (Nat.lt_trichotomy m m') as [H|[H|H]]; [|exact H|].
  - exfalso. specialize (Hlt' m H). specialize (Hle m' Hm'). apply (Qlt_not_le _ _ Hlt' Hle).
  - exfalso. specialize (Hlt m' H). specialize (Hle' m Hm). apply (Qlt_not_le _ _ Hlt Hle').
Qed.

Lemma nth_app_last (pre : list Q) x t : nth (length pre) (pre ++ x :: t) 0 = x.
Proof. rewrite app_nth2 by lia. rewrite Nat.sub_diag. reflexivity. Qed.

Lemma argmin_from_spec t : forall pre best ibest,
  (ibest < length pre)%nat -> nth ibest pre 0 = best ->
  (forall j, (j < length pre)%nat -> best <= nth j pre 0)%Q ->
  (forall j, (j < ibest)%nat -> best < nth j pre 0)%Q ->
  first_min (pre ++ t) (argmin_from best ibest (length pre) t).
Proof.
  induction t as [|x t IH]; intros pre best ibest Hib Hnth Hle Hlt; simpl.
  - rewrite app_nil_r. split; [exact Hib|]. rewrite Hnth. split; assumption.
  - replace (pre ++ x :: t) with ((pre ++ [x]) ++ t) by (rewrite <- app_assoc; reflexivity).
    replace (S (length pre)) with (length (pre ++ [x])) by (rewrite length_app; simpl; lia).
    destruct (Qltb x best) eqn:E.
    + apply Qltb_true_prop in E.
      replace (length pre) with (length (pre ++ [x]) - 1)%nat at 1
        by (rewrite length_app; simpl; lia).
      apply IH; rewrite ?length_app; simpl.
      * lia.
      * rewrite Nat.add_sub. rewrite app_nth2 by lia. rewrite Nat.sub_diag. reflexivity.
      * intros j Hj. destruct (Nat.lt_ge_cases j (length pre)).
        -- rewrite app_nth1 by exact H. apply Qlt_le_weak.
           eapply Qlt_le_trans; [exact E|apply Hle, H].
        -- replace j with (length pre) by lia. rewrite nth_app_last. apply Qle_refl.
      * intros j Hj. rewrite Nat.add_sub in Hj. rewrite app_nth1 by exact Hj.
        eapply Qlt_le_trans; [exact E|apply Hle, Hj].
    + apply IH; rewrite ?length_app; simpl.
      * lia.
      * rewrite app_nth1 by exact Hib. exact Hnth.
      * intros j Hj. destruct (Nat.lt_ge_cases j (length pre)).
        -- rewrite app_nth1 by exact H. apply Hle, H.
        -- replace j with (length pre) by lia. rewrite nth_app_last.
           apply Qnot_lt_le. intro Hx. apply Qltb_true_prop in Hx. congruence.
      * intros j Hj. rewrite app_nth1 by lia. apply Hlt, Hj.
Qed.

Lemma argmin_spec l : l <> [] -> first_min l (argmin l).
Proof.
  destruct l as [|x t]; intro Hne; [congruence|]. unfold argmin.
  apply (argmin_from_spec t [x] x 0); simpl; [lia|reflexivity| |].
  - intros j Hj. destruct j; [apply Qle_refl|lia].
  - intros j Hj. lia.
Qed.

(** ** The screen *)

Lemma screen_some df info :
  screen df = Some info ->
  (60 <= length df)%nat /\ si_conditions info = reversal_conditions (py_tail 60 df).
Proof.
  unfold screen. destruct (length df <? MIN_DATA_DAYS)%nat eqn:E; [discriminate|].
  intro H. inversion H; subst. apply Nat.ltb_ge in E. split; [exact E|reflexivity].
Qed.

Lemma screen_exists df : (60 <= length df)%nat -> exists info, screen df = Some info.
Proof.
  intro H. unfold screen.
  replace (length df <? MIN_DATA_DAYS)%nat with false by (symmetry; apply Nat.ltb_ge; exact H).
  eexists; reflexivity.
Qed.

Lemma length_cumsum_from acc l : length (cumsum_from acc l) = length l.
Proof. revert acc; induction l as [|x t IH]; intro acc; simpl; [reflexivity|rewrite IH; reflexivity]. Qed.

Lemma cond_B_window df :
  (60 <= length df)%nat ->
  cond_B (reversal_conditions (py_tail 60 df)) =
  forallb (fun r => Qltb 0 (total_net r)) (py_tail 3 df).
Proof.
  intro H. unfold reversal_conditions. cbv zeta. cbn [cond_B].
  rewrite py_tail_map, py_tail_tail by lia. apply forallb_map_comp.
Qed.

Lemma length_negate_at i l : length (negate_at i l) = length l.
Proof. revert i; induction l as [|x t IH]; intros [|i]; simpl; auto. Qed.

Lemma nth_negate_at_same i l d :
  (i < length l)%nat -> nth i (negate_at i l) d = negate_nets (nth i l d).
Proof.
  revert i; induction l as [|x t IH]; intros [|i] Hi; simpl in *; try lia; auto.
  apply IH. lia.
Qed.

Lemma total_net_negate r : (total_net (negate_nets r) == - total_net r)%Q.
Proof. unfold total_net, negate_nets. simpl. ring. Qed.

Lemma non_decreasing_tail5 l :
  (5 <= length l)%nat ->
  non_decreasing (py_tail 5 l) = true <->
  (forall i, (i < 4)%nat -> nth (length l - 5 + i) l 0 <= nth (length l - 4 + i) l 0)%Q.
Proof.
  intro H5. unfold non_decreasing. rewrite length_py_tail by exact H5.
  rewrite forallb_forall. split.
  - intros H i Hi. specialize (H i). rewrite in_seq in H.
    specialize (H ltac:(simpl; lia)). unfold Qleb in H. apply Qle_bool_iff in H.
    rewrite !nth_py_tail in H.
    replace (length l - 4 + i)%nat with (length l - 5 + S i)%nat by lia. exact H.
  - intros H i Hi. rewrite in_seq in Hi. unfold Qleb. apply Qle_bool_iff.
    rewrite !nth_py_tail.
    replace (length l - 5 + S i)%nat with (length l - 4 + i)%nat by lia.
    apply H. simpl in Hi. lia.
Qed.

Lemma strictly_increasing_tail2 l :
  (2 <= length l)%nat ->
  strictly_increasing (py_tail 2 l) = true <->
  (nth (length l - 2) l 0 < nth (length l - 1) l 0)%Q.
Proof.
  intro H2. unfold strictly_increasing. rewrite length_py_tail by exact H2.
  simpl. rewrite andb_true_r, Qltb_true_prop, !nth_py_tail.
  replace (length l - 2 + 1)%nat with (length l - 1)%nat by lia.
  rewrite Nat.add_0_r. reflexivity.
Qed.

(** The first index of a minimum holds the value of [qmin_list]. *)
Lemma first_min_qmin l m : first_min l m -> (nth m l 0 == qmin_list l)%Q.
Proof.
  intros (Hm & Hle & Hlt). apply Qle_antisym.
  - destruct (qmin_list_in l) as [j [Hj Hjv]]; [destruct l; simpl in Hm; [lia|discriminate]|].
    rewrite <- Hjv. apply Hle, Hj.
  - apply qmin_list_le, Hm.
Qed.

Lemma cond_C_eq w :
  cond_C (reversal_conditions w) =
  (let cum := cumsum (map total_net w) in
   (length cum - 1 - argmin cum <=? 10)%nat &&
   Qltb 500 (nth (length cum - 1) cum 0 - qmin_list cum) &&
   (if (5 <=? length cum)%nat then non_decreasing (py_tail 5 cum) else true)).
Proof. reflexivity. Qed.

Lemma cond_D_eq w :
  cond_D (reversal_conditions w) =
  (let closes := map n_close w in
   existsb (fun x => Qeq_bool x (qmin_list closes)) (py_tail 10 closes) &&
   ((2 <=? length (py_tail 2 closes))%nat && strictly_increasing (py_tail 2 closes))).
Proof. reflexivity. Qed.

Lemma length_window (df : list nrow) : (60 <= length df)%nat -> length (py_tail 60 df) = 60%nat.
Proof. apply length_py_tail. Qed.

(** Value membership of the minimum in the last ten entries. *)
Lemma existsb_min_tail10 l :
  (10 <= length l)%nat ->
  existsb (fun x => Qeq_bool x (qmin_list l)) (py_tail 10 l) = true <->
  exists j, (length l - 10 <= j < length l)%nat /\
            (forall i, (i < length l)%nat -> nth j l 0 <= nth i l 0)%Q.
Proof.
  intro H10. rewrite existsb_exists. split.
  - intros [x [Hin Hx]]. apply Qeq_bool_iff in Hx.
    apply (In_py_tail _ _ _ 0 H10) in Hin as [j [Hj Hjx]].
    exists j. split; [exact Hj|]. intros i Hi. rewrite Hjx.
    pose proof (qmin_list_le l i Hi). lra.
  - intros [j [Hj Hmin]]. exists (nth j l 0). split.
    + apply (In_py_tail _ _ _ 0 H10). exists j. split; [exact Hj|reflexivity].
    + apply Qeq_bool_iff.
      destruct (qmin_list_in l) as [j' [Hj' Hv]]; [destruct l; simpl in *; [lia|discriminate]|].
      pose proof (qmin_list_le l j ltac:(lia)). pose proof (Hmin j' Hj'). rewrite Hv in *. lra.
Qed.

End ReversalFacts.

(** * Claims on the reversal screen *)
Module ReversalClaims.
Import Normalizer Reversal ReversalData ReversalFacts.

(** C6.  Condition B holds exactly when the last three bars have a
    strictly positive [total_net]; negating the three nets of any one of
    those bars makes B false. *)
Theorem cond_B_last_three_positive (df : list nrow) (info : stock_info) :
  screen df = Some info ->
  (cond_B (si_conditions info) = true <->
     forall k, (1 <= k <= 3)%nat -> (0 < total_net (py_iloc_neg zero_row k df))%Q) /\
  (cond_B (si_conditions info) = true -> forall k, (1 <= k <= 3)%nat ->
     exists info', screen (negate_at (length df - k) df) = Some info' /\
                   cond_B (si_conditions info') = false).
Proof.
  intro Hs. destruct (screen_some _ _ Hs) as [Hlen Hc]. rewrite Hc, cond_B_window by exact Hlen.
  assert (Hiff : forall l, (3 <= length l)%nat ->
            forallb (fun r => Qltb 0 (total_net r)) (py_tail 3 l) = true <->
            (forall k, (1 <= k <= 3)%nat -> (0 < total_net (py_iloc_neg zero_row k l))%Q)).
  { intros l Hl. rewrite (forallb_tail3 _ l zero_row Hl).
    split; intros H k Hk; apply Qltb_true_prop, H, Hk. }
  split; [apply Hiff; lia|].
  intros HB k Hk.
  set (df' := negate_at (length df - k) df).
  assert (Hlen' : length df' = length df) by apply length_negate_at.
  destruct (screen_exists df') as [info' Hs']; [lia|].
  exists info'. split; [exact Hs'|].
  destruct (screen_some _ _ Hs') as [_ Hc']. rewrite Hc', cond_B_window by lia.
  destruct (forallb _ (py_tail 3 df')) eqn:E; [|reflexivity].
  exfalso. apply (proj1 (Hiff df' ltac:(lia))) with (k := k) in E; [|exact Hk].
  apply (proj1 (Hiff df ltac:(lia))) with (k := k) in HB; [|exact Hk].
  unfold py_iloc_neg in E, HB. rewrite Hlen' in E. unfold df' in E.
  rewrite nth_negate_at_same in E by lia. rewrite total_net_negate in E. lra.
Qed.

Lemma cond_B_last_three_positive_witness :
  (exists info, screen df_rebound = Some info) /\
  (0 < total_net (py_iloc_neg zero_row 1 df_rebound))%Q.
Proof.
  destruct (screen_exists df_rebound) as [info Hs]; [vm_compute; lia|].
  split; [exists info; exact Hs|].
  apply (proj1 (cond_B_last_three_positive df_rebound info Hs)); [|lia].
  destruct (screen_some _ _ Hs) as [_ ->]. vm_compute. reflexivity.
Defined.

(** C7.  On the 60-bar window, with [cum] the cumulative institutional
    net and [m] the first index of its minimum, condition C holds exactly
    when (i) [len cum - 1 - m <= 10], (ii) the last value exceeds the
    minimum by strictly more than 500, and (iii) the last five values are
    non-decreasing step by step. *)
Theorem cond_C_characterization (df : list nrow) (info : stock_info) (m : nat) :
  let cum := cumsum (map total_net (py_tail 60 df)) in
  screen df = Some info ->
  first_min cum m ->
  (cond_C (si_conditions info) = true <->
   ((length cum - 1 - m <= 10)%nat /\
    (nth m cum 0 + 500 < nth (length cum - 1) cum 0)%Q /\
    (forall i, (i < 4)%nat ->
       nth (length cum - 5 + i) cum 0 <= nth (length cum - 4 + i) cum 0)%Q)).
Proof.
  intros cum Hs Hm. destruct (screen_some _ _ Hs) as [Hlen Hc].
  rewrite Hc, cond_C_eq. cbv zeta. fold cum.
  assert (Hlc : length cum = 60%nat).
  { unfold cum, cumsum. rewrite length_cumsum_from, length_map. apply length_window, Hlen. }
  assert (Ham : argmin cum = m).
  { apply (first_min_unique cum); [|exact Hm]. apply argmin_spec.
    intro E. rewrite E in Hlc. discriminate. }
  pose proof (first_min_qmin _ _ Hm) as Hq.
  rewrite Ham, Hlc. cbn [Nat.leb]. rewrite <- Hlc.
  rewrite !andb_true_iff, Nat.leb_le, Qltb_true_prop, non_decreasing_tail5 by lia.
  split; [intros [[H1 H2] H3]|intros (H1 & H2 & H3)]; repeat split; try assumption; lra.
Qed.

Lemma cond_C_characterization_witness :
  (exists info, screen df_rebound = Some info /\ cond_C (si_conditions info) = true) /\
  (length (cumsum (map total_net (py_tail 60 df_rebound))) - 1 -
     argmin (cumsum (map total_net (py_tail 60 df_rebound))) <= 10)%nat.
Proof.
  destruct (screen_exists df_rebound) as [info Hs]; [vm_compute; lia|].
  pose proof (argmin_spec (cumsum (map total_net (py_tail 60 df_rebound)))) as Hm.
  split.
  - exists info. split; [exact Hs|].
    apply (proj2 (cond_C_characterization df_rebound info _ Hs (Hm ltac:(vm_compute; discriminate)))).
    vm_compute. split; [lia|]. split; [reflexivity|].
    intros i Hi. destruct i as [|[|[|[|i]]]]; try lia; vm_compute; discriminate.
  - vm_compute. lia.
Defined.

(** C8.  On the 60-bar window of closes, condition D holds exactly when
    some index among the last ten holds a minimum value of the window and
    the last two closes strictly increase.  The test is by value: on
    [df_rebound] the first minimum lies at index 0, outside the last ten,
    and D still holds because a tied minimum occurs at index 55. *)
Theorem cond_D_characterization :
  (forall (df : list nrow) (info : stock_info),
     let closes := map n_close (py_tail 60 df) in
     screen df = Some info ->
     (cond_D (si_conditions info) = true <->
      ((exists j, (length closes - 10 <= j < length closes)%nat /\
          (forall i, (i < length closes)%nat -> nth j closes 0 <= nth i closes 0)%Q) /\
       (nth (length closes - 2) closes 0 < nth (length closes - 1) closes 0)%Q))) /\
  (argmin (map n_close (py_tail 60 df_rebound)) = 0%nat /\
   option_map (fun i => cond_D (si_conditions i)) (screen df_rebound) = Some true).
Proof.
  split; [|split; vm_compute; reflexivity].
  intros df info closes Hs. destruct (screen_some _ _ Hs) as [Hlen Hc].
  rewrite Hc, cond_D_eq. cbv zeta. fold closes.
  assert (Hlc : length closes = 60%nat) by (unfold closes; rewrite length_map; apply length_window, Hlen).
  rewrite length_py_tail by lia.
  rewrite !andb_true_iff, existsb_min_tail10, strictly_increasing_tail2 by lia.
  rewrite Hlc. cbn [Nat.leb]. tauto.
Qed.

Lemma cond_D_characterization_witness :
  exists info, screen df_rebound = Some info /\ cond_D (si_conditions info) = true.
Proof.
  destruct (screen_exists df_rebound) as [info Hs]; [vm_compute; lia|].
  exists info. split; [exact Hs|].
  apply (proj2 ((proj1 cond_D_characterization) df_rebound info Hs)).
  split.
  - exists 55%nat. split; [vm_compute; lia|].
    intros i Hi. vm_compute in Hi.
    do 60 (destruct i as [|i]; [vm_compute; discriminate|]). lia.
  - vm_compute. reflexivity.
Defined.

End ReversalClaims.

(** * Facts about [screen_stocks] *)
Module ThresholdFacts.
Import Normalizer Threshold.

Lemma Qltb_prop (x y : Q) : Qltb x y = true <-> (x < y)%Q.
Proof.
  unfold Qltb. rewrite negb_true_iff. split; intro H.
  - apply Qnot_le_lt. intro H'. apply Qle_bool_iff in H'. congruence.
  - destruct (Qle_bool y x) eqn:E; [|reflexivity].
    apply Qle_bool_iff in E. exfalso. apply (Qlt_not_le _ _ H E).
Qed.

Lemma Qleb_prop (x y : Q) : Qleb x y = true <-> (x <= y)%Q.
Proof. apply Qle_bool_iff. Qed.

Lemma flag_iff (b c : bool) (P : Prop) :
  (c = true <-> P) -> ((if b then c else true) = true <-> (b = true -> P)).
Proof.
  intro H. destruct b; split.
  - intros Hc _. apply H, Hc.
  - intro H'. apply H, H', eq_refl.
  - intros _ E. discriminate E.
  - intros _. reflexivity.
Qed.

Lemma bar_ok_denom r : bar_ok r = true -> Qeq_bool (shadow_denom r) 0 = false.
Proof.
  unfold bar_ok, shadow_denom, candle_range. rewrite !andb_true_iff, Qltb_prop, !Qleb_prop.
  intros [[[[H1 H2] H3] H4] H5]. apply Bool.not_true_is_false. intro E.
  apply Qeq_bool_iff in E. lra.
Qed.

Lemma bar_ok_close r : bar_ok r = true -> Qeq_bool (n_close r) 0 = false.
Proof.
  unfold bar_ok. rewrite !andb_true_iff, Qltb_prop, !Qleb_prop.
  intros [[[[H1 H2] H3] H4] H5]. apply Bool.not_true_is_false. intro E.
  apply Qeq_bool_iff in E. lra.
Qed.

Lemma iloc_neg_some {A} k (l : list A) :
  (1 <= k <= length l)%nat -> exists x, iloc_neg k l = Some x /\ In x l.
Proof.
  intro Hk. unfold iloc_neg. replace (k <=? length l)%nat with true by (symmetry; apply Nat.leb_le; lia).
  destruct (nth_error l (length l - k)) as [x|] eqn:E.
  - exists x. split; [reflexivity|]. apply nth_error_In in E. exact E.
  - apply nth_error_None in E. lia.
Qed.

Lemma iloc_neg_none {A} k (l : list A) : (length l < k)%nat -> iloc_neg k l = None.
Proof.
  intro Hk. unfold iloc_neg. replace (k <=? length l)%nat with false by (symmetry; apply Nat.leb_gt; lia).
  reflexivity.
Qed.

Lemma forallb_perm {A} (f : A -> bool) l l' :
  Permutation l l' -> forallb f l = true -> forallb f l' = true.
Proof.
  intros Hp H. apply forallb_forall. intros x Hx.
  apply (proj1 (forallb_forall f l)); [exact H|].
  apply Permutation_in with l'; [apply Permutation_sym, Hp|exact Hx].
Qed.

(** [screen_stocks] returns a record exactly when at least [ma_long] and
    at least two rows are present and the six flags-or-conditions hold on
    the latest row. *)
Lemma screen_stocks_unfold sort_rows cfg df :
  forallb bar_ok (sort_rows df) = true ->
  screen_stocks sort_rows cfg df <> None <->
  ((ma_long cfg <= length (sort_rows df))%nat /\ (2 <= length (sort_rows df))%nat /\
   exists latest, iloc_neg 1 (sort_rows df) = Some latest /\
     forallb id [c_price cfg latest; c_ma cfg (sort_rows df) latest;
                 c_vol cfg (sort_rows df) latest; c_min_vol cfg latest;
                 c_inst cfg latest;
                 c_shape cfg (upper_shadow latest / shadow_denom latest)] = true).
Proof.
  intro Hok. rewrite forallb_forall in Hok.
  unfold screen_stocks. cbv zeta. set (s := sort_rows df) in *.
  destruct (length s <? ma_long cfg)%nat eqn:E1.
  { apply Nat.ltb_lt in E1. split; [intro H; exfalso; apply H; reflexivity|lia]. }
  apply Nat.ltb_ge in E1.
  destruct (Nat.le_gt_cases 2 (length s)) as [H2|H2].
  - destruct (iloc_neg_some 1 s ltac:(lia)) as [latest [Hl Hlin]].
    destruct (iloc_neg_some 2 s ltac:(lia)) as [prev [Hp Hpin]].
    rewrite Hl, Hp, (bar_ok_denom _ (Hok _ Hlin)).
    destruct (forallb id _) eqn:E.
    + rewrite (bar_ok_close _ (Hok _ Hpin)). split; [|discriminate].
      intros _. split; [exact E1|split; [exact H2|]]. exists latest. split; [reflexivity|exact E].
    + split; [intro H; exfalso; apply H; reflexivity|].
      intros (_ & _ & l' & Hl' & Hf). injection Hl' as <-. congruence.
  - rewrite (iloc_neg_none 2 s H2). destruct (iloc_neg 1 s).
    + split; [intro H; exfalso; apply H; reflexivity|lia].
    + split; [intro H; exfalso; apply H; reflexivity|lia].
Qed.

Lemma c_ma_iff cfg df latest :
  c_ma cfg df latest = true <->
  (use_ma cfg = true ->
     exists ma_s ma_l, rolling_mean_last (ma_short cfg) (map n_close df) = Some ma_s /\
       rolling_mean_last (ma_long cfg) (map n_close df) = Some ma_l /\
       ma_l < ma_s /\ ma_s < n_close latest).
Proof.
  unfold c_ma. apply flag_iff.
  destruct (rolling_mean_last (ma_short cfg) _) as [ms|];
    destruct (rolling_mean_last (ma_long cfg) _) as [ml|].
  - rewrite andb_true_iff, !Qltb_prop. split.
    + intros [H1 H2]. exists ms, ml. auto.
    + intros (a & b & Ha & Hb & H1 & H2). injection Ha as <-. injection Hb as <-. auto.
  - split; [discriminate|]. intros (a & b & _ & Hb & _). discriminate.
  - split; [discriminate|]. intros (a & b & Ha & _). discriminate.
  - split; [discriminate|]. intros (a & b & Ha & _). discriminate.
Qed.

Lemma c_vol_iff cfg df latest :
  c_vol cfg df latest = true <->
  (use_vol cfg = true ->
     exists v, rolling_mean_last (ma_short cfg) (map n_volume df) = Some v /\
       (v == 0 -> vol_ratio_limit cfg <= 0) /\
       (~ v == 0 -> vol_ratio_limit cfg <= n_volume latest / v)).
Proof.
  unfold c_vol, actual_vol_ratio. apply flag_iff.
  destruct (rolling_mean_last (ma_short cfg) _) as [v|].
  - destruct (Qeq_bool v 0) eqn:E.
    + apply Qeq_bool_iff in E. rewrite Qleb_prop. split.
      * intro H. exists v. split; [reflexivity|split; [intros _; exact H|intro N; contradiction]].
      * intros (v' & Hv & H1 & _). injection Hv as <-. apply H1, E.
    + apply Qeq_bool_neq in E. rewrite Qleb_prop. split.
      * intro H. exists v. split; [reflexivity|split; [intro N; contradiction|intros _; exact H]].
      * intros (v' & Hv & _ & H2). injection Hv as <-. apply H2, E.
  - split; [discriminate|]. intros (v & Hv & _). discriminate.
Qed.

Lemma conditions_iff cfg df latest :
  forallb id [c_price cfg latest; c_ma cfg df latest; c_vol cfg df latest;
              c_min_vol cfg latest; c_inst cfg latest;
              c_shape cfg (upper_shadow latest / shadow_denom latest)] = true <->
  enabled_conditions_hold cfg df latest.
Proof.
  unfold enabled_conditions_hold. cbn [forallb]. unfold id. rewrite andb_true_r, !andb_true_iff.
  rewrite c_ma_iff, c_vol_iff.
  unfold c_price, c_min_vol, c_inst, c_shape, upper_shadow, shadow_denom, candle_range, inst_total.
  rewrite !(flag_iff _ _ _ (Qleb_prop _ _)), !(flag_iff _ _ _ (Qltb_prop _ _)).
  tauto.
Qed.

Lemma all_flags_off_conditions cfg df latest :
  all_flags_off cfg = true ->
  forallb id [c_price cfg latest; c_ma cfg df latest; c_vol cfg df latest;
              c_min_vol cfg latest; c_inst cfg latest;
              c_shape cfg (upper_shadow latest / shadow_denom latest)] = true.
Proof.
  unfold all_flags_off, c_price, c_ma, c_vol, c_min_vol, c_inst, c_shape.
  destruct (use_price cfg), (use_ma cfg), (use_vol cfg), (use_min_vol cfg),
    (use_inst cfg), (use_shape cfg); simpl; congruence.
Qed.

End ThresholdFacts.

(** * Claims on the threshold screen *)
Module ThresholdClaims.
Import Normalizer NormalizerFacts Threshold ThresholdData ThresholdFacts.

(** C9 (counterexample).  With [ma_long = 1] and every flag off, a
    one-bar series has at least [ma_long] bars yet [screen_stocks]
    returns [None]: [df.iloc[-2]] raises [IndexError]. *)
Lemma screen_stocks_single_bar_example :
  length df_single = 1%nat /\ ma_long off_config_ma1 = 1%nat /\
  all_flags_off off_config_ma1 = true /\ forallb bar_ok df_single = true /\
  screen_stocks isort_date off_config_ma1 df_single = None.
Proof. vm_compute. repeat split. Qed.

(** C9.  For a series of data-model bars sorted by an admissible date
    sort: [screen_stocks] returns a record exactly when the series has at
    least [ma_long] and at least two bars and every enabled condition
    holds on the latest bar, disabled ones being vacuous; with every flag
    off, every series of at least [max 2 ma_long] bars passes; with only
    the price ceiling 100 enabled (and [ma_long = 20]), a latest close of
    exactly 100 passes and one of 100.01 fails. *)
Theorem screen_stocks_enabled_conditions (sort_rows : list nrow -> list nrow)
    (df : list nrow) :
  date_sort sort_rows ->
  forallb bar_ok df = true ->
  (forall cfg,
     screen_stocks sort_rows cfg df <> None <->
     ((ma_long cfg <= length df)%nat /\ (2 <= length df)%nat /\
      exists latest, iloc_neg 1 (sort_rows df) = Some latest /\
        enabled_conditions_hold cfg (sort_rows df) latest)) /\
  (forall cfg, all_flags_off cfg = true ->
     (Nat.max 2 (ma_long cfg) <= length df)%nat ->
     screen_stocks sort_rows cfg df <> None) /\
  ((20 <= length df)%nat -> forall latest,
     iloc_neg 1 (sort_rows df) = Some latest ->
     (n_close latest == 100 -> screen_stocks sort_rows price_only_config df <> None) /\
     (n_close latest == 10001#100 -> screen_stocks sort_rows price_only_config df = None)).
Proof.
  intros Hsort Hok. destruct (Hsort df) as [Hperm _].
  assert (Hlen : length (sort_rows df) = length df) by (symmetry; apply Permutation_length, Hperm).
  assert (Hok' : forallb bar_ok (sort_rows df) = true) by (apply (forallb_perm _ df); assumption).
  split; [|split].
  - intro cfg. rewrite (screen_stocks_unfold _ _ _ Hok'), Hlen.
    split; intros (H1 & H2 & l & Hl & Hc); (split; [exact H1|split; [exact H2|]]);
      exists l; (split; [exact Hl|apply conditions_iff, Hc]).
  - intros cfg Hoff Hn. apply (screen_stocks_unfold _ _ _ Hok'). rewrite Hlen.
    split; [lia|split; [lia|]].
    destruct (iloc_neg_some 1 (sort_rows df) ltac:(lia)) as [l [Hl _]].
    exists l. split; [exact Hl|apply all_flags_off_conditions, Hoff].
  - intros H20 latest Hl.
    assert (Hc : forall c, c_price price_only_config latest = c ->
              (screen_stocks sort_rows price_only_config df <> None <-> c = true)).
    { intros c Hpc. rewrite (screen_stocks_unfold _ _ _ Hok'), Hlen. subst c.
      cbn [ma_long price_only_config]. split.
      - intros (_ & _ & l & Hl' & Hf). rewrite Hl in Hl'. injection Hl' as <-.
        cbn [forallb id] in Hf. destruct (c_price _ latest); [reflexivity|discriminate].
      - intro Hp. split; [lia|split; [lia|]]. exists latest. split; [exact Hl|].
        cbn [forallb id]. rewrite Hp. reflexivity. }
    split; intro Hclose.
    + apply (proj2 (Hc _ eq_refl)). unfold c_price. cbn [use_price max_price price_only_config].
      apply Qleb_prop. rewrite Hclose. apply Qle_refl.
    + destruct (screen_stocks sort_rows price_only_config df) eqn:E; [|reflexivity].
      exfalso. assert (Hne : Some p <> None) by discriminate.
      apply (proj1 (Hc _ eq_refl)) in Hne. unfold c_price in Hne.
      cbn [use_price max_price price_only_config] in Hne. apply Qleb_prop in Hne.
      rewrite Hclose in Hne. exact (Hne eq_refl).
Qed.

Lemma screen_stocks_enabled_conditions_witness :
  forallb bar_ok (df_last_close 100) = true /\
  screen_stocks isort_date price_only_config (df_last_close 100) <> None.
Proof.
  assert (Hok : forallb bar_ok (df_last_close 100) = true) by (vm_compute; reflexivity).
  split; [exact Hok|].
  destruct (screen_stocks_enabled_conditions isort_date (df_last_close 100)
              isort_date_admissible Hok) as (_ & _ & H).
  apply (H ltac:(vm_compute; lia) (mkNRow 20240120 None None 1000 100 100 100 100 None 1 0 0));
    [vm_compute; reflexivity|reflexivity].
Defined.

End ThresholdClaims.

(** * Facts about the two-bar volume/price pattern (StockTrend.py) *)
Module TwoBarFacts.
Import TwoBar.
Local Open Scope string_scope.

Lemma Qltb_iff (x y : Q) : Qltb x y = true <-> (x < y)%Q.
Proof.
  unfold Qltb. rewrite negb_true_iff. split; intro H.
  - apply Qnot_le_lt. intro H'. apply Qle_bool_iff in H'. congruence.
  - destruct (Qle_bool y x) eqn:E; [|reflexivity].
    apply Qle_bool_iff in E. exfalso. apply (Qlt_not_le x y); assumption.
Qed.

Lemma Qltb_ext (a b a' b' : Q) : (a < b <-> a' < b')%Q -> Qltb a b = Qltb a' b'.
Proof.
  intro H. destruct (Qltb a' b') eqn:E.
  - apply Qltb_iff. apply H. apply Qltb_iff. exact E.
  - apply not_true_iff_false. rewrite Qltb_iff, H, <- Qltb_iff, E. discriminate.
Qed.

Lemma iloc_neg_last2 {A} (d : A) pre a b :
  py_iloc_neg d 1 (pre ++ [a; b])%list = b /\ py_iloc_neg d 2 (pre ++ [a; b])%list = a.
Proof.
  unfold py_iloc_neg. rewrite length_app. cbn [length].
  rewrite !app_nth2 by lia.
  replace (length pre + 2 - 1 - length pre)%nat with 1%nat by lia.
  replace (length pre + 2 - 2 - length pre)%nat with 0%nat by lia.
  split; reflexivity.
Qed.

Lemma last_two_split {A} (l : list A) :
  (2 <= length l)%nat -> exists pre a b, l = (pre ++ [a; b])%list.
Proof.
  intro H. destruct (rev l) as [|b [|a r]] eqn:E;
    try (apply (f_equal (@length A)) in E; rewrite length_rev in E; simpl in E; lia).
  exists (rev r), a, b. rewrite <- (rev_involutive l), E. simpl.
  rewrite <- app_assoc. reflexivity.
Qed.

Lemma app_two_inj {A} (pre pre' : list A) a b a' b' :
  (pre ++ [a; b])%list = (pre' ++ [a'; b'])%list -> pre = pre' /\ a = a' /\ b = b'.
Proof.
  intro H. change [a; b] with ([a] ++ [b])%list in H. change [a'; b'] with ([a'] ++ [b'])%list in H.
  rewrite !app_assoc in H. apply app_inj_tail in H as [H ->].
  apply app_inj_tail in H as [-> ->]. auto.
Qed.

Lemma py_tail2_app {A} (pre : list A) a b : py_tail 2 (pre ++ [a; b])%list = [a; b].
Proof.
  unfold py_tail. rewrite length_app. cbn [length].
  replace (length pre + 2 - 2)%nat with (length pre + 0)%nat by lia.
  rewrite skipn_app, skipn_all2 by lia.
  replace (length pre + 0 - length pre)%nat with 0%nat by lia. reflexivity.
Qed.

(** Only the last two rows are read. *)
Lemma analyze_app pre a b :
  analyze_volume_price_pattern (pre ++ [a; b])%list = analyze_volume_price_pattern [a; b].
Proof.
  unfold analyze_volume_price_pattern.
  destruct (iloc_neg_last2 dummy_vp pre a b) as [-> ->].
  destruct (iloc_neg_last2 dummy_vp [] a b) as [H1 H2]. cbn [app] in H1, H2.
  rewrite H1, H2, length_app. cbn [length].
  replace (length pre + 2 <? 2)%nat with false by (symmetry; apply Nat.ltb_ge; lia).
  reflexivity.
Qed.

Lemma analyze_two va ca vb cb :
  analyze_volume_price_pattern [mkVP (Some va) (Some ca); mkVP (Some vb) (Some cb)] =
  let pattern := "量" ++ vol_trend vb va ++ "價" ++ price_trend cb ca in
  (pattern, dict_get interpretations pattern "未知形態").
Proof. reflexivity. Qed.

Lemma vol_trend_cases x y : In (vol_trend x y) ["增"; "縮"; "平"].
Proof. unfold vol_trend. destruct (Qltb _ _); [|destruct (Qltb _ _)]; simpl; tauto. Qed.

Lemma price_trend_cases x y : In (price_trend x y) ["漲"; "跌"; "平"].
Proof. unfold price_trend. destruct (Qltb _ _); [|destruct (Qltb _ _)]; simpl; tauto. Qed.

Ltac in_list := repeat (solve [left; reflexivity] || right).

(** Every combination of the two trends is a key of the table. *)
Lemma pattern_in_table v p :
  In v ["增"; "縮"; "平"] -> In p ["漲"; "跌"; "平"] ->
  In ("量" ++ v ++ "價" ++ p, dict_get interpretations ("量" ++ v ++ "價" ++ p) "未知形態")
     interpretations.
Proof.
  intros Hv Hp.
  destruct Hv as [<-|[<-|[<-|[]]]]; destruct Hp as [<-|[<-|[<-|[]]]];
    vm_compute; in_list.
Qed.

Definition scale_vp (cv cp : Q) (r : vp_row) : vp_row :=
  mkVP (option_map (Qmult cv) (vp_volume r)) (option_map (Qmult cp) (vp_close r)).

Lemma vol_trend_scale c x y : 0 < c -> vol_trend (c * x) (c * y) = vol_trend x y.
Proof.
  intro Hc. unfold vol_trend.
  rewrite (Qltb_ext (c * y * (11#10)) (c * x) (y * (11#10)) x) by (split; intro; nra).
  rewrite (Qltb_ext (c * x) (c * y * (9#10)) x (y * (9#10))) by (split; intro; nra).
  reflexivity.
Qed.

Lemma price_trend_scale c x y : 0 < c -> price_trend (c * x) (c * y) = price_trend x y.
Proof.
  intro Hc. unfold price_trend.
  rewrite (Qltb_ext (c * y * (101#100)) (c * x) (y * (101#100)) x) by (split; intro; nra).
  rewrite (Qltb_ext (c * x) (c * y * (99#100)) x (y * (99#100))) by (split; intro; nra).
  reflexivity.
Qed.

(** X1.  Edge results: "資料不足" exactly when the series has fewer than
    two rows, "資料無效" exactly when one of the two volumes or closes of
    the last two rows is missing. *)
Theorem two_bar_edge_results (df : list vp_row) :
  (analyze_volume_price_pattern df = ("資料不足", "無法判斷量價形態") <->
   (length df < 2)%nat) /\
  (analyze_volume_price_pattern df = ("資料無效", "價格或成交量缺失") <->
   exists pre a b, df = (pre ++ [a; b])%list /\
     (vp_volume a = None \/ vp_volume b = None \/ vp_close a = None \/ vp_close b = None)).
Proof.
  destruct (Nat.lt_ge_cases (length df) 2) as [Hs|Hs].
  - unfold analyze_volume_price_pattern.
    replace (length df <? 2)%nat with true by (symmetry; apply Nat.ltb_lt; exact Hs).
    split; [tauto|]. split; [intro H; injection H as H; discriminate H|].
    intros (pre & a & b & -> & _). rewrite length_app in Hs. simpl in Hs. lia.
  - destruct (last_two_split df Hs) as (pre & a & b & ->).
    rewrite analyze_app, length_app. cbn [length].
    destruct a as [[va|] [ca|]], b as [[vb|] [cb|]];
      try (split; [split; [intro H; injection H as H; discriminate H|lia]|];
           split; [intros _; exists pre; eexists; eexists; split; [reflexivity|simpl; tauto]|
                   reflexivity]).
    rewrite analyze_two. cbv zeta. split.
    + split; [|lia]. intro H. injection H as H _. simpl in H. discriminate H.
    + split.
      * intro H. injection H as H _. simpl in H. discriminate H.
      * intros (pre' & a' & b' & E & Hm). apply app_two_inj in E as (_ & <- & <-).
        simpl in Hm. intuition discriminate.
Qed.

(** X2.  With two complete last rows the result is one of the nine
    (pattern, interpretation) entries of the table: "未知形態" never
    occurs. *)
Theorem two_bar_pattern_known (pre : list vp_row) (va ca vb cb : Q) :
  In (analyze_volume_price_pattern (pre ++ [mkVP (Some va) (Some ca); mkVP (Some vb) (Some cb)])%list)
     interpretations.
Proof.
  rewrite analyze_app, analyze_two. cbv zeta.
  apply pattern_in_table; [apply vol_trend_cases|apply price_trend_cases].
Qed.

(** X3.  The result does not change when every volume is multiplied by
    one positive factor and every close by another (the thresholds are
    relative). *)
Theorem two_bar_scale_invariant (cv cp : Q) (df : list vp_row) :
  0 < cv -> 0 < cp ->
  analyze_volume_price_pattern (map (scale_vp cv cp) df) = analyze_volume_price_pattern df.
Proof.
  intros Hv Hp. destruct (Nat.lt_ge_cases (length df) 2) as [Hs|Hs].
  - unfold analyze_volume_price_pattern. rewrite length_map.
    replace (length df <? 2)%nat with true by (symmetry; apply Nat.ltb_lt; exact Hs).
    reflexivity.
  - destruct (last_two_split df Hs) as (pre & a & b & ->).
    rewrite map_app. cbn [map]. rewrite !analyze_app.
    destruct a as [[va|] [ca|]], b as [[vb|] [cb|]]; try reflexivity.
    unfold scale_vp. cbn [vp_volume vp_close option_map]. rewrite !analyze_two.
    rewrite vol_trend_scale, price_trend_scale by assumption. reflexivity.
Qed.

Lemma two_bar_scale_invariant_witness :
  0 < 2 /\ 0 < 3 /\
  analyze_volume_price_pattern
    (map (scale_vp 2 3) [mkVP (Some 100) (Some 10); mkVP (Some 120) (Some 9)]) =
  analyze_volume_price_pattern [mkVP (Some 100) (Some 10); mkVP (Some 120) (Some 9)].
Proof.
  split; [reflexivity|]. split; [reflexivity|].
  apply two_bar_scale_invariant; reflexivity.
Defined.

(** X4.  Only the last two rows are read: rows before them never change
    the result. *)
Theorem two_bar_last_two_rows (pre : list vp_row) (a b : vp_row) :
  analyze_volume_price_pattern (pre ++ [a; b])%list = analyze_volume_price_pattern [a; b].
Proof. apply analyze_app. Qed.

End TwoBarFacts.

(** * Facts about the report of [analyze_stock_file] (StockTrend.py) *)
Module ReportFacts.
Import Normalizer Reversal ReversalData ReversalFacts TwoBar TwoBarFacts Report ExtraData.
Local Open Scope string_scope.

Lemma all_pass_eq w :
  all_pass (reversal_conditions w) =
  cond_B (reversal_conditions w) && cond_C (reversal_conditions w) &&
  cond_D (reversal_conditions w) && cond_E (reversal_conditions w).
Proof. reflexivity. Qed.



(** X6.  When the screen passes and the second-to-last close is not
    negative, the price part of the pattern is 漲 or 平, never 跌: condition
    D makes the last close strictly higher than the one before. *)
Theorem report_price_never_falls (df : list nrow) (rp : report) :
  screen_report df = Some rp ->
  all_pass (si_conditions (rp_info rp)) = true ->
  0 <= n_close (py_iloc_neg zero_row 2 df) ->
  In (rp_pattern rp) ["量增價漲"; "量增價平"; "量平價漲"; "量平價平"; "量縮價漲"; "量縮價平"].
Proof.
  unfold screen_report. destruct (screen df) as [si|] eqn:Hs; [|discriminate].
  destruct (screen_some _ _ Hs) as [Hlen Hc].
  destruct (last_two_split df ltac:(lia)) as (pre & a & b & E).
  destruct (all_pass (si_conditions si)) eqn:Ha.
  2: { intro H. injection H as <-. cbn [rp_info]. rewrite Ha. discriminate. }
  intros H _ H0. rewrite E, map_app in H. cbn [map] in H. unfold vp_of_nrow in H.
  rewrite analyze_app, analyze_two in H. cbv zeta in H. injection H as <-.
  cbn [rp_pattern].
  rewrite Hc, all_pass_eq in Ha.
  apply andb_true_iff in Ha as [Ha _]. apply andb_true_iff in Ha as [_ HD].
  rewrite cond_D_eq in HD. cbv zeta in HD.
  apply andb_true_iff in HD as [_ HD]. apply andb_true_iff in HD as [_ HD].
  rewrite py_tail_map, py_tail_tail in HD by lia.
  rewrite E, py_tail2_app in HD. cbn [map] in HD.
  unfold strictly_increasing in HD. simpl in HD. rewrite andb_true_r in HD.
  apply Qltb_iff in HD.
  rewrite E in H0. destruct (iloc_neg_last2 zero_row pre a b) as [_ H2]. rewrite H2 in H0.
  pose proof (vol_trend_cases (n_volume b) (n_volume a)) as Hv.
  unfold price_trend.
  destruct (Qltb (n_close a * (101#100)) (n_close b)).
  - destruct Hv as [<-|[<-|[<-|[]]]]; vm_compute; in_list.
  - destruct (Qltb (n_close b) (n_close a * (99#100))) eqn:E2.
    + apply Qltb_iff in E2. exfalso. lra.
    + destruct Hv as [<-|[<-|[<-|[]]]]; vm_compute; in_list.
Qed.

Lemma report_price_never_falls_witness :
  exists rp, screen_report df_allpass = Some rp /\
  In (rp_pattern rp) ["量增價漲"; "量增價平"; "量平價漲"; "量平價平"; "量縮價漲"; "量縮價平"].
Proof.
  destruct (screen_report df_allpass) as [rp|] eqn:E.
  - exists rp. split; [reflexivity|].
    apply (report_price_never_falls df_allpass rp E).
    + vm_compute in E. injection E as <-. vm_compute. reflexivity.
    + vm_compute. discriminate.
  - vm_compute in E. discriminate E.
Defined.

End ReportFacts.

(** * More facts about the reversal screen *)
Module ReversalMore.
Import PriceFix Normalizer Reversal ReversalData ReversalFacts TwoBarFacts Report ExtraData.
Local Open Scope string_scope.

(** X7.  A series that passes all four conditions had its cumulative
    institutional net below -500 inside the window: the rebound of
    condition C exceeds 500 and condition E keeps the last cumulative value
    negative. *)
Theorem all_pass_deep_bottom (w : list nrow) :
  all_pass (reversal_conditions w) = true ->
  qmin_list (cumsum (map total_net w)) < -500.
Proof.
  intro H. unfold reversal_conditions in H. cbv zeta in H. cbn [all_pass] in H.
  set (cum := cumsum (map total_net w)) in *.
  set (last_cum := nth (length cum - 1) cum 0) in *.
  apply andb_true_iff in H as [H HE]. apply andb_true_iff in H as [H _].
  apply andb_true_iff in H as [_ HC].
  apply andb_true_iff in HC as [HC _]. apply andb_true_iff in HC as [_ HC].
  apply andb_true_iff in HE as [_ HE]. apply Qltb_iff in HC, HE.
  unfold MIN_REBOUND_AMOUNT in HC. lra.
Qed.

Lemma all_pass_deep_bottom_witness :
  all_pass (reversal_conditions (py_tail 60 df_allpass)) = true /\
  qmin_list (cumsum (map total_net (py_tail 60 df_allpass))) < -500.
Proof.
  split; [vm_compute; reflexivity|].
  apply all_pass_deep_bottom. vm_compute. reflexivity.
Defined.

Lemma py_tail_app {A} n (pre l : list A) :
  (n <= length l)%nat -> py_tail n (pre ++ l)%list = py_tail n l.
Proof.
  intro H. unfold py_tail. rewrite length_app, skipn_app.
  rewrite skipn_all2 by lia. cbn [app]. f_equal. lia.
Qed.

Lemma py_iloc_neg_app {A} (d : A) k (pre l : list A) :
  (1 <= k <= length l)%nat -> py_iloc_neg d k (pre ++ l)%list = py_iloc_neg d k l.
Proof.
  intro H. unfold py_iloc_neg. rewrite length_app, app_nth2 by lia. f_equal. lia.
Qed.

(** X8.  Rows older than a window of at least sixty days never change the
    four conditions, the latest close or the latest date; only the code
    and name, taken from the first row, can change. *)
Theorem screen_ignores_older_rows (pre df : list nrow) :
  (60 <= length df)%nat ->
  option_map (fun si => (si_conditions si, si_latest_close si, si_latest_date si))
             (screen (pre ++ df)%list) =
  option_map (fun si => (si_conditions si, si_latest_close si, si_latest_date si))
             (screen df).
Proof.
  intro H. unfold screen, last_row. rewrite length_app.
  replace (length pre + length df <? MIN_DATA_DAYS)%nat with false
    by (symmetry; apply Nat.ltb_ge; unfold MIN_DATA_DAYS; lia).
  replace (length df <? MIN_DATA_DAYS)%nat with false
    by (symmetry; apply Nat.ltb_ge; unfold MIN_DATA_DAYS; lia).
  cbn [option_map si_conditions si_latest_close si_latest_date].
  rewrite py_tail_app by (unfold MIN_DATA_DAYS; lia).
  rewrite py_iloc_neg_app by lia. reflexivity.
Qed.

Lemma screen_ignores_older_rows_witness :
  (60 <= length df_allpass)%nat /\
  option_map (fun si => (si_conditions si, si_latest_close si, si_latest_date si))
             (screen ([zero_row] ++ df_allpass)%list) =
  option_map (fun si => (si_conditions si, si_latest_close si, si_latest_date si))
             (screen df_allpass).
Proof.
  assert (H : (60 <= length df_allpass)%nat) by (vm_compute; lia).
  split; [exact H|]. exact (screen_ignores_older_rows [zero_row] df_allpass H).
Defined.

Lemma convert_dates_none (l : list crow) r s :
  In r l -> c_date r = Some s -> to_datetime s = None -> convert_dates l = None.
Proof.
  induction l as [|x t IH]; intros Hin Hd Ht; [contradiction|].
  simpl. destruct Hin as [<-|Hin].
  - rewrite Hd, Ht. reflexivity.
  - rewrite (IH Hin Hd Ht). destruct (c_date x) as [s'|]; [|reflexivity].
    destruct (to_datetime s'); reflexivity.
Qed.

(** X9.  One kept row whose date has the form YYYY-MM-DD but names no day
    makes [pd.to_datetime] raise, and the whole file is rejected ([None]),
    whatever the other rows are. *)
Theorem analyze_stock_file_bad_date (sort_rows : list nrow -> list nrow)
    (raw : list raw_row) (r : crow) (s : string) :
  In r (cleaned_rows raw) -> c_date r = Some s -> to_datetime s = None ->
  analyze_stock_file_report sort_rows raw = None /\
  analyze_stock_file sort_rows raw = None.
Proof.
  intros Hin Hd Ht.
  assert (Hn : normalize sort_rows raw = None).
  { unfold normalize. destruct raw as [|x t]; [simpl in Hin; contradiction|].
    rewrite (convert_dates_none _ r s Hin Hd Ht). reflexivity. }
  unfold analyze_stock_file_report, analyze_stock_file. rewrite Hn. split; reflexivity.
Qed.

Lemma analyze_stock_file_bad_date_witness :
  analyze_stock_file_report isort_date raw_bad_date = None /\
  analyze_stock_file isort_date raw_bad_date = None.
Proof.
  apply (analyze_stock_file_bad_date isort_date raw_bad_date
           (hd dummy_crow (cleaned_rows raw_bad_date)) "2024-02-30").
  - vm_compute. left. reflexivity.
  - vm_compute. reflexivity.
  - vm_compute. reflexivity.
Defined.

End ReversalMore.

(** * More facts about [fix_price_columns] *)
Module PriceFixMore.
Import PriceFix Normalizer PriceFixFacts.
Local Open Scope string_scope.

Lemma take_digits_spec n s f r :
  take_digits n s = (f, r) -> s = f ++ r /\ all_chars is_digit f = true.
Proof.
  revert s f r. induction n as [|n IH]; intros s f r H.
  - simpl in H. inversion H; subst. split; reflexivity.
  - destruct s as [|a t]; simpl in H.
    + inversion H; subst. split; reflexivity.
    + destruct (is_digit a) eqn:Ea.
      * destruct (take_digits n t) as [f' r'] eqn:Et. inversion H; subst.
        destruct (IH _ _ _ Et) as [-> Hf]. simpl. rewrite Ea, Hf. split; reflexivity.
      * inversion H; subst. split; reflexivity.
Qed.

Lemma digit_not_ws a : is_digit a = true -> not_ws a = true.
Proof. destruct a as [[] [] [] [] [] [] [] []]; vm_compute; congruence. Qed.

Lemma digit_not_sign a :
  is_digit a = true -> Ascii.eqb a "-" = false /\ Ascii.eqb a "+" = false.
Proof. destruct a as [[] [] [] [] [] [] [] []]; vm_compute; try discriminate; split; reflexivity. Qed.

Lemma digits_not_ws s : all_chars is_digit s = true -> all_chars not_ws s = true.
Proof.
  induction s as [|a s IH]; simpl; [reflexivity|].
  intro H. apply andb_true_iff in H as [Ha Hs]. rewrite digit_not_ws, IH; auto.
Qed.

Lemma span_digits_all s : all_chars is_digit s = true -> span_digits s = (s, "").
Proof.
  induction s as [|a s IH]; simpl; [reflexivity|].
  intro H. apply andb_true_iff in H as [Ha Hs]. rewrite Ha, IH by exact Hs. reflexivity.
Qed.

(** The shape of a match of [\d+\.\d{1,3}]. *)
Definition price_token (tok : string) : Prop :=
  exists d f, tok = d ++ String "." f /\ d <> "" /\ f <> "" /\
              all_chars is_digit d = true /\ all_chars is_digit f = true.

Lemma match_price_token s tok rest :
  match_price s = Some (tok, rest) -> price_token tok.
Proof.
  unfold match_price. destruct (span_digits s) as [d r] eqn:E.
  destruct (span_digits_spec _ _ _ E) as [_ Hd].
  destruct d as [|x d']; [discriminate|].
  destruct r as [|dot r']; [discriminate|].
  destruct (Ascii.eqb dot ".") eqn:Edot; [|discriminate].
  destruct (take_digits 3 r') as [f r''] eqn:Et.
  destruct (take_digits_spec _ _ _ _ Et) as [_ Hf].
  destruct f as [|y f']; [discriminate|].
  intro H. injection H as <- _.
  exists (String x d'), (String y f'). repeat split; try discriminate; assumption.
Qed.

Lemma findall_fuel_tokens n s tok : In tok (findall_fuel n s) -> price_token tok.
Proof.
  revert s. induction n as [|n IH]; intros s H; simpl in H; [contradiction|].
  destruct (match_price s) as [[t rest]|] eqn:E.
  - destruct H as [<-|H]; [exact (match_price_token _ _ _ E)|exact (IH _ H)].
  - destruct s as [|a t]; [contradiction|exact (IH _ H)].
Qed.

Lemma token_not_ws tok : price_token tok -> all_chars not_ws tok = true.
Proof.
  intros (d & f & -> & _ & _ & Hd & Hf).
  rewrite all_chars_app, digits_not_ws by exact Hd. simpl.
  rewrite digits_not_ws by exact Hf. reflexivity.
Qed.

Lemma token_numeric tok : price_token tok -> exists q, to_numeric tok = Some q.
Proof.
  intros Ht. pose proof (token_not_ws _ Ht) as Hw.
  destruct Ht as (d & f & -> & Hd0 & Hf0 & Hd & Hf).
  unfold to_numeric. rewrite strip_id by exact Hw.
  destruct d as [|x d']; [congruence|].
  pose proof Hd as Hx. simpl in Hx. apply andb_true_iff in Hx as [Hx _].
  destruct (digit_not_sign x Hx) as [Hm Hp].
  cbn [append]. rewrite Hm, Hp.
  change (String x (d' ++ String "." f)) with (String x d' ++ String "." f).
  unfold parse_unsigned. rewrite span_digits_dot by exact Hd.
  simpl (Ascii.eqb "." "."). cbv iota. rewrite span_digits_all by exact Hf.
  destruct f as [|y f']; [congruence|]. eexists. reflexivity.
Qed.

Lemma fix_unchanged row :
  (f_open row = None \/
   exists o, f_open row = Some o /\
     ((12 <? String.length (strip o))%nat && has_dot (strip o)) = false) ->
  fix_price_columns row = row.
Proof.
  intros [H|(o & H & Hc)]; unfold fix_price_columns; rewrite H; [reflexivity|].
  cbv zeta. rewrite Hc. reflexivity.
Qed.

(** The cells [fix_price_columns] never writes. *)
Definition other_cells (r : raw_row) :=
  (f_date r, f_code r, f_name r, f_volume r, f_trades r, f_amount r, f_pe r,
   f_foreign_net r, f_fund_net r, f_dealer_net r).

(** X10.  [fix_price_columns] is idempotent on every row whose first
    recovered price has at most 12 characters, and only there: a first
    price of 13 characters is cut again on the second call. *)
Theorem fix_price_columns_idempotent :
  (forall row : raw_row,
     (forall o, f_open row = Some o ->
        (String.length (nth 0 (findall_prices (strip o)) "") <= 12)%nat) ->
     fix_price_columns (fix_price_columns row) = fix_price_columns row) /\
  (exists row, fix_price_columns (fix_price_columns row) <> fix_price_columns row).
Proof.
  split.
  - intros row H. destruct (f_open row) as [o|] eqn:Eo.
    2: { rewrite (fix_unchanged row (or_introl Eo)), (fix_unchanged row (or_introl Eo)).
         reflexivity. }
    specialize (H o eq_refl).
    destruct ((12 <? String.length (strip o))%nat && has_dot (strip o)) eqn:Ec.
    2: { assert (E : fix_price_columns row = row)
           by (apply fix_unchanged; right; exists o; split; assumption).
         rewrite !E. reflexivity. }
    destruct (4 <=? List.length (findall_prices (strip o)))%nat eqn:E4.
    + set (t := nth 0 (findall_prices (strip o)) "") in *.
      assert (HR : f_open (fix_price_columns row) = Some t).
      { unfold fix_price_columns. rewrite Eo. cbv zeta. rewrite Ec, E4. reflexivity. }
      apply fix_unchanged. right. exists t. split; [exact HR|].
      assert (Ht : price_token t).
      { apply (findall_fuel_tokens (S (String.length (strip o))) (strip o)).
        apply nth_In. apply Nat.leb_le in E4. unfold findall_prices in E4. lia. }
      rewrite strip_id by exact (token_not_ws _ Ht).
      replace (12 <? String.length t)%nat with false
        by (symmetry; apply Nat.ltb_ge; exact H).
      reflexivity.
    + apply fix_unchanged. left.
      unfold fix_price_columns. rewrite Eo. cbv zeta. rewrite Ec, E4. reflexivity.
  - exists (row_with_open "1234567890.12 1.1 2.2 3.3"). vm_compute. discriminate.
Qed.

Lemma fix_price_columns_idempotent_witness :
  fix_price_columns (fix_price_columns (row_with_open "12.500 12.600 12.400 12.550")) =
  fix_price_columns (row_with_open "12.500 12.600 12.400 12.550").
Proof.
  apply (proj1 fix_price_columns_idempotent).
  intros o Ho. injection Ho as <-. apply Nat.leb_le. vm_compute. reflexivity.
Defined.

(** X11.  [fix_price_columns] leaves the row as it is, or only sets the
    open to NaN, or writes four prices that [pd.to_numeric] parses into
    open, high, low and close; it never writes another cell. *)
Theorem fix_price_columns_outcomes (row : raw_row) :
  fix_price_columns row = row \/
  (other_cells (fix_price_columns row) = other_cells row /\
   f_open (fix_price_columns row) = None /\
   f_high (fix_price_columns row) = f_high row /\
   f_low (fix_price_columns row) = f_low row /\
   f_close (fix_price_columns row) = f_close row) \/
  (other_cells (fix_price_columns row) = other_cells row /\
   Forall (fun cell => exists q, coerce cell = Some q)
     [f_open (fix_price_columns row); f_high (fix_price_columns row);
      f_low (fix_price_columns row); f_close (fix_price_columns row)]).
Proof.
  destruct (f_open row) as [o|] eqn:Eo.
  2: { left. apply fix_unchanged. left. exact Eo. }
  destruct ((12 <? String.length (strip o))%nat && has_dot (strip o)) eqn:Ec.
  2: { left. apply fix_unchanged. right. exists o. split; assumption. }
  unfold fix_price_columns. rewrite Eo. cbv zeta. rewrite Ec.
  destruct (4 <=? List.length (findall_prices (strip o)))%nat eqn:E4.
  - right. right. split; [reflexivity|]. cbn [f_open f_high f_low f_close].
    apply Nat.leb_le in E4.
    assert (Hn : forall i, (i < 4)%nat ->
              exists q, coerce (Some (nth i (findall_prices (strip o)) "")) = Some q).
    { intros i Hi. apply token_numeric.
      apply (findall_fuel_tokens (S (String.length (strip o))) (strip o)).
      apply nth_In. unfold findall_prices in E4. lia. }
    repeat constructor; apply Hn; lia.
  - right. left. repeat split.
Qed.

End PriceFixMore.

(** * More facts about the classifier *)
Module ClassifierMore.
Import Classifier ClassifierData ClassifierFacts ExtraData.

(** The blocks that run before the high-volume special rule. *)
Definition detectors_before_hv : list detector :=
  [d_high_volume; d_support; d_three; d_fractal_bottom; d_fractal_top;
   d_swing; d_lower_shadow; d_upper_shadow; d_trend; d_ladder;
   d_big_vol_small_body; d_red_run].

Lemma detectors_split : detectors = (detectors_before_hv ++ [d_hv_rule])%list.
Proof. reflexivity. Qed.

Lemma incl_before_hv : incl detectors_before_hv detectors.
Proof. intros d Hd. rewrite detectors_split. apply in_or_app. left. exact Hd. Qed.

Lemma run_app c l1 l2 s :
  run_detectors c (l1 ++ l2)%list s = run_detectors c l2 (run_detectors c l1 s).
Proof. unfold run_detectors. apply fold_left_app. Qed.

Lemma analyze_unfold df :
  (10 <= length df)%nat ->
  analyze_volume_price_pattern df =
  let s := d_hv_rule (mk_ctx df) (run_detectors (mk_ctx df) detectors_before_hv init_state) in
  let '(a, lv) := map_score (action_score s) in
  let '(a, lv) := if existsb (risk_eqb PoZhiCheng) (risk_factors s)
                  then (QingCang, Gao) else (a, lv) in
  mkResult (signals s) a lv (risk_factors s) (Some (action_score s)).
Proof.
  intro H. unfold analyze_volume_price_pattern.
  replace (length df <? 10)%nat with false by (symmetry; apply Nat.ltb_ge; exact H).
  rewrite detectors_split, run_app. reflexivity.
Qed.

Lemma no_broke_support_before_hv df :
  existsb (risk_eqb PoZhiCheng)
    (risk_factors (run_detectors (mk_ctx df) detectors_before_hv init_state)) = false.
Proof.
  pose proof (run_no_broke_support df detectors_before_hv init_state incl_before_hv
                (fun H => H)) as Hn.
  apply not_true_iff_false. intro Hx. apply existsb_exists in Hx as [x [Hx Hr]].
  destruct x; try discriminate. contradiction.
Qed.

(** X12.  On a series of at least ten bars whose latest bar is a
    first-day volume spike, the special rule of block 8 resets the score:
    the result is score 0, 觀望 with risk 中, and the last signal is
    "高量第1天：觀察為主", whatever the other blocks found. *)
Theorem high_volume_day1_holds (df : list bar) :
  (10 <= length df)%nat -> hv_day1 (mk_ctx df) = true ->
  r_score (analyze_volume_price_pattern df) = Some 0%Z /\
  r_action (analyze_volume_price_pattern df) = GuanWang /\
  r_level (analyze_volume_price_pattern df) = Zhong /\
  exists sg, r_signals (analyze_volume_price_pattern df) = (sg ++ [SigHighVolDay1Observe])%list.
Proof.
  intros Hl Hd. rewrite (analyze_unfold df Hl). cbv zeta.
  unfold hv_day1 in Hd. apply andb_true_iff in Hd as [Hhv Hd1].
  unfold d_hv_rule. rewrite Hhv, Hd1. unfold reset_score.
  cbn [signals risk_factors action_score].
  rewrite app_nil_r, no_broke_support_before_hv. cbn.
  repeat split. eexists. reflexivity.
Qed.

Lemma high_volume_day1_holds_witness :
  (10 <= length df_hv_day1)%nat /\ hv_day1 (mk_ctx df_hv_day1) = true /\
  r_action (analyze_volume_price_pattern df_hv_day1) = GuanWang.
Proof.
  assert (H1 : (10 <= length df_hv_day1)%nat) by (vm_compute; lia).
  assert (H2 : hv_day1 (mk_ctx df_hv_day1) = true) by (vm_compute; reflexivity).
  split; [exact H1|]. split; [exact H2|].
  exact (proj1 (proj2 (high_volume_day1_holds df_hv_day1 H1 H2))).
Defined.

Lemma step_no_hv23 c d s :
  In d detectors_before_hv -> ~ In SigHighVolDay23 (signals s) ->
  ~ In SigHighVolDay23 (signals (d c s)).
Proof.
  intros Hd Hs.
  simpl in Hd. repeat destruct Hd as [<-|Hd]; try contradiction;
    unfold_detectors; split_conds; simpl;
    rewrite ?in_app_iff; simpl; try (intuition discriminate).
Qed.

Lemma run_no_hv23 c ds s :
  incl ds detectors_before_hv -> ~ In SigHighVolDay23 (signals s) ->
  ~ In SigHighVolDay23 (signals (run_detectors c ds s)).
Proof.
  revert s. induction ds as [|d ds IH]; intros s Hincl Hs; simpl; [exact Hs|].
  apply IH; [intros x Hx; apply Hincl; right; exact Hx|].
  apply step_no_hv23; [apply Hincl; left; reflexivity|exact Hs].
Qed.

Lemma Qmin_lt_r (x y : Q) : (Qmin x y < y <-> x < y)%Q.
Proof.
  destruct (Qlt_le_dec x y) as [H|H].
  - rewrite Q.min_l by (apply Qlt_le_weak; exact H). tauto.
  - rewrite Q.min_r by exact H. split; intro H'; [exfalso; apply (Qlt_irrefl y H')|].
    exfalso. apply (Qlt_not_le _ _ H' H).
Qed.

(** X13.  On a series of at least ten bars, the signal "高量第2-3天支撐線上方
    （陽上陰觀）" is emitted exactly when the latest bar is a volume spike,
    the spike is counted as day 2 or 3, and the latest bar closes above
    its open. *)
Theorem high_volume_day23_signal (df : list bar) :
  (10 <= length df)%nat ->
  (In SigHighVolDay23 (r_signals (analyze_volume_price_pattern df)) <->
   is_high_volume (mk_ctx df) = true /\
   (high_volume_day (mk_ctx df) = 2%nat \/ high_volume_day (mk_ctx df) = 3%nat) /\
   (b_open (latest (mk_ctx df)) < b_close (latest (mk_ctx df)))%Q).
Proof.
  intros Hl. rewrite (analyze_unfold df Hl). cbv zeta.
  destruct (map_score _) as [a lv]. destruct (if existsb _ _ then _ else _) as [a' lv'].
  cbn [r_signals].
  pose proof (run_no_hv23 (mk_ctx df) detectors_before_hv init_state
                (incl_refl _) (fun H => H)) as Hn.
  assert (Hsup : support_price (mk_ctx df) =
                 if is_high_volume (mk_ctx df)
                 then Some (Qmin (b_open (latest (mk_ctx df))) (b_close (latest (mk_ctx df))))
                 else None) by reflexivity.
  set (c := mk_ctx df) in *. clearbody c.
  set (s := run_detectors c detectors_before_hv init_state) in *. clearbody s.
  unfold d_hv_rule, above_support. rewrite Hsup.
  destruct (is_high_volume c).
  2: { split; [intro H; contradiction|intros [H _]; discriminate]. }
  destruct (Nat.eqb (high_volume_day c) 1) eqn:E1.
  { apply Nat.eqb_eq in E1. rewrite E1. unfold reset_score. cbn [signals].
    rewrite in_app_iff. simpl. split; [intros [H|[H|H]]; [contradiction|discriminate|contradiction]|].
    intros (_ & [H|H] & _); discriminate. }
  destruct (Nat.eqb (high_volume_day c) 2 || Nat.eqb (high_volume_day c) 3) eqn:E23.
  - apply orb_true_iff in E23. rewrite !Nat.eqb_eq in E23.
    destruct (Qltb (Qmin (b_open (latest c)) (b_close (latest c))) (b_close (latest c)) &&
              Qltb (b_open (latest c)) (b_close (latest c))) eqn:Ec.
    + unfold add_score. cbn [signals]. rewrite in_app_iff. simpl.
      apply andb_true_iff in Ec as [_ Ec]. apply Qltb_true in Ec. tauto.
    + split; [intro H; contradiction|]. intros (_ & _ & Hlt). exfalso.
      apply andb_false_iff in Ec as [Ec|Ec]; apply not_true_iff_false in Ec; apply Ec;
        rewrite Qltb_true; [apply Qmin_lt_r|]; exact Hlt.
  - split; [intro H; contradiction|]. intros (_ & H & _).
    apply orb_false_iff in E23 as [E2 E3]. apply Nat.eqb_neq in E2, E3. tauto.
Qed.

Lemma high_volume_day23_signal_witness :
  In SigHighVolDay23 (r_signals (analyze_volume_price_pattern df_hv_day2)).
Proof.
  apply (proj2 (high_volume_day23_signal df_hv_day2 ltac:(vm_compute; lia))).
  split; [vm_compute; reflexivity|]. split; [left; vm_compute; reflexivity|].
  vm_compute. reflexivity.
Defined.

End ClassifierMore.

(** * More facts about [screen_stocks] *)
Module ThresholdMore.
Import Normalizer Threshold ThresholdFacts ExtraData.

(** [cfg'] enables no condition that [cfg] leaves off and has looser
    thresholds; the two averaging windows are the same. *)
Definition relaxes (cfg cfg' : config) : Prop :=
  (use_price cfg' = true -> use_price cfg = true) /\
  (use_ma cfg' = true -> use_ma cfg = true) /\
  (use_vol cfg' = true -> use_vol cfg = true) /\
  (use_min_vol cfg' = true -> use_min_vol cfg = true) /\
  (use_inst cfg' = true -> use_inst cfg = true) /\
  (use_shape cfg' = true -> use_shape cfg = true) /\
  (max_price cfg <= max_price cfg')%Q /\
  (vol_ratio_limit cfg' <= vol_ratio_limit cfg)%Q /\
  (min_volume cfg' <= min_volume cfg)%Q /\
  (shadow_limit cfg <= shadow_limit cfg')%Q /\
  ma_short cfg' = ma_short cfg /\ ma_long cfg' = ma_long cfg.

(** X14.  Turning conditions off or loosening their thresholds never
    turns a selected stock into a rejected one, and the returned record
    stays the same. *)
Theorem screen_stocks_relax (sort_rows : list nrow -> list nrow) (cfg cfg' : config)
    (df : list nrow) :
  relaxes cfg cfg' -> screen_stocks sort_rows cfg df <> None ->
  screen_stocks sort_rows cfg' df = screen_stocks sort_rows cfg df.
Proof.
  intros (Hp & Hm & Hv & Hmv & Hi & Hs & Hmp & Hvr & Hmn & Hsl & Hms & Hml) Hne.
  assert (Hratio : forall d l, actual_vol_ratio cfg' d l = actual_vol_ratio cfg d l)
    by (intros; unfold actual_vol_ratio; rewrite Hms; reflexivity).
  unfold screen_stocks in *. rewrite Hml.
  destruct (length (sort_rows df) <? ma_long cfg)%nat; [contradiction|].
  destruct (iloc_neg 1 (sort_rows df)) as [latest|]; [|contradiction].
  destruct (iloc_neg 2 (sort_rows df)) as [prev|]; [|contradiction].
  destruct (Qeq_bool (shadow_denom latest) 0); [contradiction|].
  set (asr := upper_shadow latest / shadow_denom latest) in *.
  destruct (forallb id [c_price cfg latest; c_ma cfg (sort_rows df) latest;
                        c_vol cfg (sort_rows df) latest; c_min_vol cfg latest;
                        c_inst cfg latest; c_shape cfg asr]) eqn:Ef; [|contradiction].
  rewrite Hratio.
  replace (forallb id [c_price cfg' latest; c_ma cfg' (sort_rows df) latest;
                       c_vol cfg' (sort_rows df) latest; c_min_vol cfg' latest;
                       c_inst cfg' latest; c_shape cfg' asr]) with true; [reflexivity|].
  symmetry. cbn [forallb] in *. unfold id in *.
  repeat rewrite andb_true_iff in Ef. destruct Ef as (E1 & E2 & E3 & E4 & E5 & E6 & _).
  unfold c_price, c_ma, c_vol, c_min_vol, c_inst, c_shape in *.
  rewrite Hratio, Hms, Hml.
  destruct (use_price cfg'), (use_ma cfg'), (use_vol cfg'), (use_min_vol cfg'),
    (use_inst cfg'), (use_shape cfg');
    rewrite ?(Hp eq_refl), ?(Hm eq_refl), ?(Hv eq_refl), ?(Hmv eq_refl),
      ?(Hi eq_refl), ?(Hs eq_refl) in *;
    repeat rewrite andb_true_iff; repeat split; try reflexivity; try assumption;
    try (rewrite Qleb_prop in *; eapply Qle_trans; eassumption);
    try (destruct (actual_vol_ratio cfg (sort_rows df) latest); [|discriminate];
         rewrite Qleb_prop in *; eapply Qle_trans; eassumption).
Qed.

Lemma screen_stocks_relax_witness :
  screen_stocks isort_date price_only_config df_threshold_pass =
  screen_stocks isort_date default_config df_threshold_pass.
Proof.
  apply screen_stocks_relax.
  - repeat split; intros; try reflexivity; vm_compute; discriminate.
  - vm_compute. discriminate.
Defined.

End ThresholdMore.

(** * Facts about the stock selection of StockTrend2.py *)
Module StockSelectFacts.
Import StockSelect.
Local Open Scope Q_scope.

Lemma Qltb_false (x y : Q) : Qltb x y = false <-> y <= x.
Proof. unfold Qltb. rewrite negb_false_iff. apply Qle_bool_iff. Qed.

Lemma Qmax_choice (x y : Q) : Qmax x y = x \/ Qmax x y = y.
Proof. unfold Qmax, GenericMinMax.gmax. destruct (x ?= y); auto. Qed.

Lemma fold_Qmax_spec t x :
  x <= fold_left Qmax t x /\ (forall y, In y t -> y <= fold_left Qmax t x) /\
  (fold_left Qmax t x = x \/ In (fold_left Qmax t x) t).
Proof.
  revert x. induction t as [|y t IH]; intro x; simpl.
  - split; [apply Qle_refl|split; [intros y []|left; reflexivity]].
  - destruct (IH (Qmax x y)) as (H1 & H2 & H3). split; [|split].
    + eapply Qle_trans; [apply Q.le_max_l|exact H1].
    + intros z [<-|Hz]; [eapply Qle_trans; [apply Q.le_max_r|exact H1]|auto].
    + destruct H3 as [H3|H3]; [|auto].
      destruct (Qmax_choice x y) as [E|E];
        [left; rewrite H3; exact E|right; left; rewrite H3, E; reflexivity].
Qed.

Lemma qmax_list_ge l v : In v l -> v <= qmax_list l.
Proof.
  destruct l as [|x t]; [intros []|]. cbn [qmax_list].
  destruct (fold_Qmax_spec t x) as (H1 & H2 & _). intros [<-|H]; auto.
Qed.

Lemma qmax_list_in l : l <> [] -> In (qmax_list l) l.
Proof.
  destruct l as [|x t]; [congruence|]. intros _. cbn [qmax_list].
  destruct (fold_Qmax_spec t x) as (_ & _ & [H|H]);
    [left; symmetry; exact H|right; exact H].
Qed.

(** The spike test on a lookback of at least two rows. *)
Lemma volume_spike_shape (lb : nat) (m : Q) (df : list srow) :
  (2 <= lb <= length df)%nat -> 0 <= m ->
  let vols := map s_volume (py_tail lb df) in
  let last := py_iloc_neg 0 1 vols in
  let prev := firstn (lb - 1) vols in
  exists b mx r,
    volume_spike lb m df = Some (b, Some last, mx, r) /\
    (b = true <->
     0 < last /\ (forall v, In v prev -> 0 < v /\ v < last /\ v * m <= last)) /\
    (b = true -> mx = Some (qmax_list prev) /\ r = Some (last / qmax_list prev)).
Proof.
  intros [H2 Hl] Hm vols last prev. unfold volume_spike.
  assert (Hlen : length vols = lb).
  { unfold vols. rewrite length_map. apply ReversalFacts.length_py_tail. lia. }
  fold vols. cbv zeta. rewrite Hlen. fold last. fold prev.
  assert (Hp : prev <> []).
  { unfold prev. intro E. apply (f_equal (@length Q)) in E.
    rewrite length_firstn in E. simpl in E. lia. }
  clearbody last prev.
  destruct vols as [|v0 t]; [simpl in Hlen; lia|]. cbv iota.
  destruct (Qltb 0 last && forallb (fun v => Qltb 0 v) prev) eqn:C1; cbn [negb].
  2:{ exists false, None, None. split; [reflexivity|]. split; [|discriminate].
      split; [discriminate|]. intros [Hl0 Hall]. exfalso.
      apply andb_false_iff in C1 as [C|C].
      - apply ReversalFacts.Qltb_true_prop in Hl0. congruence.
      - apply not_true_iff_false in C. apply C. apply forallb_forall.
        intros v Hv. apply ReversalFacts.Qltb_true_prop. apply Hall, Hv. }
  destruct (forallb (fun v => Qltb v last) prev) eqn:C2; cbn [negb].
  2:{ exists false, None, None. split; [reflexivity|]. split; [|discriminate].
      split; [discriminate|]. intros [Hl0 Hall]. exfalso.
      apply not_true_iff_false in C2. apply C2. apply forallb_forall.
      intros v Hv. apply ReversalFacts.Qltb_true_prop. apply Hall, Hv. }
  apply andb_true_iff in C1 as [C1a C1b].
  apply ReversalFacts.Qltb_true_prop in C1a.
  rewrite forallb_forall in C1b, C2.
  assert (Hin := qmax_list_in prev Hp).
  assert (Hpos : 0 < qmax_list prev) by (apply ReversalFacts.Qltb_true_prop, C1b, Hin).
  destruct prev as [|p0 pt]; [congruence|]. cbv iota zeta.
  destruct (Qleb (qmax_list (p0 :: pt)) 0 || Qltb last (qmax_list (p0 :: pt) * m)) eqn:C3.
  - exists false, (Some (qmax_list (p0 :: pt))), None.
    split; [reflexivity|]. split; [|discriminate]. split; [discriminate|].
    intros [_ Hall]. exfalso. apply orb_true_iff in C3 as [C|C].
    + apply ThresholdFacts.Qleb_prop in C. lra.
    + apply ReversalFacts.Qltb_true_prop in C.
      destruct (Hall _ Hin) as (_ & _ & H). lra.
  - apply orb_false_iff in C3 as [_ C3]. apply Qltb_false in C3.
    eexists true, _, _. split; [reflexivity|].
    split; [|intros _; split; reflexivity]. split; [intros _|reflexivity].
    split; [exact C1a|]. intros v Hv.
    split; [apply ReversalFacts.Qltb_true_prop, C1b, Hv|].
    split; [apply ReversalFacts.Qltb_true_prop, C2, Hv|].
    assert (Hv' := qmax_list_ge _ _ Hv).
    apply Qle_trans with (qmax_list (p0 :: pt) * m); [|exact C3].
    apply Qmult_le_compat_r; assumption.
Qed.

(** With a lookback of at most one row the spike test never passes. *)
Lemma volume_spike_short (lb : nat) (m : Q) (df : list srow) :
  (lb <= 1)%nat ->
  volume_spike lb m df = None \/ exists l, volume_spike lb m df = Some (false, l, None, None).
Proof.
  intro Hlb. unfold volume_spike.
  assert (Hlen : (length (map s_volume (py_tail lb df)) <= 1)%nat).
  { rewrite length_map. unfold py_tail. rewrite length_skipn. lia. }
  revert Hlen. generalize (map s_volume (py_tail lb df)). intros vols Hlen.
  cbv zeta. destruct vols as [|v0 [|v1 t]]; [left; reflexivity| |simpl in Hlen; lia].
  simpl. destruct (Qltb 0 (py_iloc_neg 0 1 [v0])); simpl; [left; reflexivity|right; eexists; reflexivity].
Qed.

(** What [analyze_stock] returns with all three filters on. *)
Lemma analyze_module_some sort db code lb m thr s :
  0 <= m ->
  analyze_stock module_flags sort db code (Some lb) (Some m) (Some thr) = Some s <->
  exists rows, db = Some rows /\ rows <> [] /\
   let df := sort (flat_map dropna_row rows) in
   let vols := map s_volume (py_tail lb df) in
   let last := py_iloc_neg 0 1 vols in
   let prev := firstn (lb - 1) vols in
   let recent := py_tail 3 df in
   let closes := map s_close recent in
   let latest := py_iloc_neg dummy_srow 1 df in
   (Nat.max lb 3 <= length df)%nat /\ (2 <= lb)%nat /\
   0 < last /\ (forall v, In v prev -> 0 < v /\ v < last /\ v * m <= last) /\
   thr <= last /\
   nth 0 closes 0 < nth 1 closes 0 /\ nth 1 closes 0 < nth 2 closes 0 /\
   (2 <= length (filter positive_day recent))%nat /\
   s = mkSelection code (s_date latest) (s_close latest) (Some last)
         (Some (qmax_list prev)) (Some (last / qmax_list prev))
         (Some (nth 0 closes 0, nth 1 closes 0, nth 2 closes 0))
         (Some (map (fun r => (s_foreign r, s_trust r, s_dealer r, total_opt r)) recent,
                length (filter positive_day recent))).
Proof.
  intro Hm. destruct db as [[|r0 rs]|].
  - split; [discriminate|intros (rows & E & Hne & _); injection E as <-; contradiction].
  - unfold analyze_stock. cbv iota zeta.
    set (df := sort (flat_map dropna_row (r0 :: rs))).
    destruct (length df <? Nat.max lb PRICE_LOOKBACK)%nat eqn:El.
    { split; [discriminate|]. intros (rows & E & _ & H). injection E as <-.
      fold df in H. destruct H as [Hmax _]. apply Nat.ltb_lt in El.
      unfold PRICE_LOOKBACK in El. lia. }
    apply Nat.ltb_ge in El. unfold PRICE_LOOKBACK in El.
    cbn [FLAG_VOLUME_SPIKE FLAG_RED_THREE FLAG_NET_BUY module_flags orb].
    unfold PRICE_LOOKBACK. rewrite (ReversalFacts.length_py_tail 3 df) by lia.
    cbn [Nat.eqb negb].
    destruct (Nat.le_gt_cases 2 lb) as [H2|H2].
    2:{ split.
        - edestruct (volume_spike_short lb m df) as [E|[l E]]; [lia| |];
            rewrite E; [discriminate|]. cbv iota. discriminate.
        - intros (rows & E & _ & H). injection E as <-. fold df in H.
          destruct H as (_ & H & _). lia. }
    destruct (volume_spike_shape lb m df) as (b & mx & r & Ev & Hb & Hmr); [lia|exact Hm|].
    rewrite Ev. cbv iota zeta.
    set (vols := map s_volume (py_tail lb df)) in *.
    set (last := py_iloc_neg 0 1 vols) in *.
    set (prev := firstn (lb - 1) vols) in *.
    set (recent := py_tail 3 df).
    set (c1 := nth 0 (map s_close recent) 0).
    set (c2 := nth 1 (map s_close recent) 0).
    set (c3 := nth 2 (map s_close recent) 0).
    set (pd := length (filter positive_day recent)).
    destruct (b && negb (Qltb last thr) && (Qltb c1 c2 && Qltb c2 c3) && negb (pd <? 2)%nat)
      eqn:B.
    + repeat rewrite andb_true_iff in B.
      destruct B as (((Bb & Bt) & (Bc1 & Bc2)) & Bp).
      apply negb_true_iff, Qltb_false in Bt.
      apply ReversalFacts.Qltb_true_prop in Bc1, Bc2.
      apply negb_true_iff, Nat.ltb_ge in Bp.
      destruct (Hmr Bb) as [-> ->]. apply Hb in Bb as [Bl Ball].
      split.
      * intro H. injection H as <-. exists (r0 :: rs).
        split; [reflexivity|]. split; [discriminate|]. cbv zeta. fold df.
        repeat split; try assumption; try lia; apply Ball; assumption.
      * intros (rows & E & _ & H). injection E as <-. cbv zeta in H. fold df in H.
        destruct H as (_ & _ & _ & _ & _ & _ & _ & _ & ->). reflexivity.
    + split; [discriminate|]. intros (rows & E & _ & H). injection E as <-.
      cbv zeta in H. fold df in H. fold vols last prev recent in H.
      destruct H as (_ & _ & Hl0 & Hall & Ht & Hc1 & Hc2 & Hp & _).
      exfalso. revert B. fold c1 c2 c3 pd in Hc1, Hc2, Hp.
      rewrite (proj2 Hb (conj Hl0 Hall)).
      rewrite (proj2 (Qltb_false last thr) Ht).
      rewrite (proj2 (ReversalFacts.Qltb_true_prop c1 c2) Hc1).
      rewrite (proj2 (ReversalFacts.Qltb_true_prop c2 c3) Hc2).
      rewrite (proj2 (Nat.ltb_ge pd 2) Hp). discriminate.
  - split; [discriminate|intros (rows & E & _); discriminate].
Qed.

Lemma dropna_incomplete bad :
  (forall r, In r bad -> d_date r = None \/ d_volume r = None \/ d_close r = None) ->
  flat_map dropna_row bad = [].
Proof.
  induction bad as [|r bad IH]; intro Hbad; [reflexivity|]. simpl.
  rewrite IH by (intros; apply Hbad; right; assumption).
  destruct (Hbad r (or_introl eq_refl)) as [E|[E|E]]; unfold dropna_row; rewrite E;
    [reflexivity|destruct (d_date r); reflexivity|destruct (d_date r), (d_volume r); reflexivity].
Qed.

(** X15.  With the spike filter on, a lookback of at most one row selects
    nothing: one volume has no earlier volumes to exceed. *)
Theorem analyze_stock_short_lookback fl sort db code lb m thr :
  FLAG_VOLUME_SPIKE fl = true -> (lb <= 1)%nat ->
  analyze_stock fl sort db code (Some lb) m thr = None.
Proof.
  intros Hf Hlb. unfold analyze_stock. cbv iota zeta.
  destruct db as [[|r0 rs]|]; [reflexivity| |reflexivity]. cbv iota.
  destruct (_ <? _)%nat; [reflexivity|]. rewrite Hf.
  edestruct (volume_spike_short lb) as [E|[l E]]; [exact Hlb| |]; rewrite E;
    [reflexivity|cbv iota].
  destruct (if FLAG_RED_THREE fl || FLAG_NET_BUY fl then _ else _) as [[[a b] c] d].
  reflexivity.
Qed.

Lemma analyze_stock_short_lookback_witness :
  analyze_stock module_flags (fun l => l) (Some ExtraData.db_spike) "2330"
    (Some 1%nat) None None = None.
Proof. apply analyze_stock_short_lookback; [reflexivity|lia]. Defined.

(** X16.  With all three filters on, [analyze_stock] returns a selection
    exactly when the spike, volume threshold, red-three and net-buy tests
    all pass, and the selection carries the latest date and close, the last
    volume, the largest earlier volume, their ratio, the last three closes
    and the institutional nets of the last three days. *)
Theorem analyze_stock_selection sort db code lb m thr s :
  0 <= m ->
  analyze_stock module_flags sort db code (Some lb) (Some m) (Some thr) = Some s <->
  exists rows, db = Some rows /\ rows <> [] /\
   let df := sort (flat_map dropna_row rows) in
   let vols := map s_volume (py_tail lb df) in
   let last := py_iloc_neg 0 1 vols in
   let prev := firstn (lb - 1) vols in
   let recent := py_tail 3 df in
   let closes := map s_close recent in
   let latest := py_iloc_neg dummy_srow 1 df in
   (Nat.max lb 3 <= length df)%nat /\ (2 <= lb)%nat /\
   0 < last /\ (forall v, In v prev -> 0 < v /\ v < last /\ v * m <= last) /\
   thr <= last /\
   nth 0 closes 0 < nth 1 closes 0 /\ nth 1 closes 0 < nth 2 closes 0 /\
   (2 <= length (filter positive_day recent))%nat /\
   s = mkSelection code (s_date latest) (s_close latest) (Some last)
         (Some (qmax_list prev)) (Some (last / qmax_list prev))
         (Some (nth 0 closes 0, nth 1 closes 0, nth 2 closes 0))
         (Some (map (fun r => (s_foreign r, s_trust r, s_dealer r, total_opt r)) recent,
                length (filter positive_day recent))).
Proof. apply analyze_module_some. Qed.

Lemma analyze_stock_selection_witness :
  exists s,
    analyze_stock module_flags (fun l => l) (Some ExtraData.db_spike) "2330"
      (Some 4%nat) (Some (6#5)) (Some 5000) = Some s /\
    sel_multiple s = Some (7000 / 100).
Proof.
  eexists. split.
  - apply (proj2 (analyze_stock_selection (fun l => l) (Some ExtraData.db_spike) "2330"
                    4%nat (6#5) 5000 _ ltac:(lra))).
    exists ExtraData.db_spike. split; [reflexivity|]. split; [discriminate|].
    cbv zeta.
    split; [apply Nat.leb_le; vm_compute; reflexivity|].
    split; [lia|].
    split; [vm_compute; reflexivity|].
    split; [intros v Hv; vm_compute in Hv;
            destruct Hv as [<-|[<-|[<-|[]]]]; vm_compute;
            repeat split; (reflexivity || discriminate)|].
    split; [vm_compute; discriminate|].
    split; [vm_compute; reflexivity|].
    split; [vm_compute; reflexivity|].
    split; [apply Nat.leb_le; vm_compute; reflexivity|].
    reflexivity.
  - vm_compute. reflexivity.
Defined.

(** X17.  With all three filters off, [analyze_stock] returns a selection
    exactly when there are enough complete rows and the latest volume
    reaches the threshold; the selection then has only the code, the
    latest date and the latest close. *)
Theorem analyze_stock_no_filters sort db code lb m thr s :
  analyze_stock (mkFlags false false false) sort db code (Some lb) m (Some thr) = Some s <->
  exists rows, db = Some rows /\ rows <> [] /\
   let df := sort (flat_map dropna_row rows) in
   let latest := py_iloc_neg dummy_srow 1 df in
   (Nat.max lb 3 <= length df)%nat /\ thr <= s_volume latest /\
   s = mkSelection code (s_date latest) (s_close latest) None None None None None.
Proof.
  destruct db as [[|r0 rs]|].
  - split; [discriminate|intros (rows & E & Hne & _); injection E as <-; contradiction].
  - unfold analyze_stock. cbv iota zeta.
    set (df := sort (flat_map dropna_row (r0 :: rs))).
    destruct (length df <? Nat.max lb PRICE_LOOKBACK)%nat eqn:El.
    { split; [discriminate|]. intros (rows & E & _ & H). injection E as <-.
      fold df in H. destruct H as [Hmax _]. apply Nat.ltb_lt in El.
      unfold PRICE_LOOKBACK in El. lia. }
    apply Nat.ltb_ge in El. unfold PRICE_LOOKBACK in El.
    cbn [FLAG_VOLUME_SPIKE FLAG_RED_THREE FLAG_NET_BUY orb].
    set (latest := py_iloc_neg dummy_srow 1 df).
    destruct (Qltb (s_volume latest) thr) eqn:B; cbn [negb andb].
    + split; [discriminate|]. intros (rows & E & _ & H). injection E as <-.
      cbv zeta in H. fold df latest in H. destruct H as (_ & Ht & _).
      apply ReversalFacts.Qltb_true_prop in B. lra.
    + apply Qltb_false in B. split.
      * intro H. injection H as <-. exists (r0 :: rs).
        split; [reflexivity|]. split; [discriminate|]. cbv zeta. fold df latest.
        split; [lia|]. split; [exact B|reflexivity].
      * intros (rows & E & _ & H). injection E as <-. cbv zeta in H. fold df latest in H.
        destruct H as (_ & _ & ->). reflexivity.
  - split; [discriminate|intros (rows & E & _); discriminate].
Qed.

(** X18.  With all filters on, a selection made with some multiple and
    threshold is also made, unchanged, with a smaller non-negative multiple
    and a smaller threshold. *)
Theorem analyze_stock_relax sort db code lb m m' thr thr' s :
  0 <= m' -> m' <= m -> thr' <= thr ->
  analyze_stock module_flags sort db code (Some lb) (Some m) (Some thr) = Some s ->
  analyze_stock module_flags sort db code (Some lb) (Some m') (Some thr') = Some s.
Proof.
  intros Hm' Hmm Ht H.
  apply analyze_module_some in H; [|lra]. apply analyze_module_some; [exact Hm'|].
  destruct H as (rows & E & Hne & H). exists rows. split; [exact E|]. split; [exact Hne|].
  cbv zeta in *. destruct H as (H1 & H2 & H3 & H4 & H5 & H6 & H7 & H8 & H9).
  split; [exact H1|]. split; [exact H2|]. split; [exact H3|].
  split; [|split; [eapply Qle_trans; eassumption|auto]].
  intros v Hv. destruct (H4 v Hv) as (Ha & Hb & Hc). split; [exact Ha|]. split; [exact Hb|].
  apply Qle_trans with (v * m); [|exact Hc].
  rewrite !(Qmult_comm v). apply Qmult_le_compat_r; [exact Hmm|apply Qlt_le_weak, Ha].
Qed.

Lemma analyze_stock_relax_witness :
  analyze_stock module_flags (fun l => l) (Some ExtraData.db_spike) "2330"
    (Some 4%nat) (Some 1) (Some 0) =
  analyze_stock module_flags (fun l => l) (Some ExtraData.db_spike) "2330"
    (Some 4%nat) (Some (6#5)) (Some 5000).
Proof.
  remember (analyze_stock module_flags (fun l => l) (Some ExtraData.db_spike) "2330"
    (Some 4%nat) (Some (6#5)) (Some 5000)) as o eqn:E.
  destruct o as [s|]; [|vm_compute in E; discriminate].
  apply (analyze_stock_relax (fun l => l) (Some ExtraData.db_spike) "2330" 4%nat
           (6#5) 1 5000 0 s); [lra|lra|lra|symmetry; exact E].
Defined.

(** X19.  Database rows without a date, a volume or a close are dropped
    before anything else; inserting them anywhere changes nothing. *)
Theorem analyze_stock_skips_incomplete_rows fl sort l1 bad l2 code lb m thr :
  sort [] = [] ->
  (forall r, In r bad -> d_date r = None \/ d_volume r = None \/ d_close r = None) ->
  analyze_stock fl sort (Some (l1 ++ bad ++ l2)) code lb m thr =
  analyze_stock fl sort (Some (l1 ++ l2)) code lb m thr.
Proof.
  intros Hs Hbad.
  assert (Hf : flat_map dropna_row (l1 ++ bad ++ l2) = flat_map dropna_row (l1 ++ l2)).
  { rewrite !flat_map_app, (dropna_incomplete bad Hbad). reflexivity. }
  destruct (l1 ++ l2) as [|x12 t12] eqn:E12;
    destruct (l1 ++ bad ++ l2) as [|x t] eqn:E; try reflexivity.
  - unfold analyze_stock. cbv iota zeta. rewrite Hf. cbn [flat_map]. rewrite Hs.
    cbn [length]. destruct (0 <? _)%nat eqn:L; [reflexivity|].
    apply Nat.ltb_ge in L. unfold PRICE_LOOKBACK in L.
    pose proof (Nat.le_max_r (match lb with Some n => n | None => VOL_LOOKBACK end) 3). lia.
  - apply (f_equal (@length _)) in E, E12. rewrite !length_app in E. rewrite !length_app in E12.
    simpl in E, E12. lia.
  - unfold analyze_stock. cbv iota zeta. rewrite Hf. reflexivity.
Qed.

Lemma analyze_stock_skips_incomplete_rows_witness :
  analyze_stock module_flags (fun l => l)
    (Some ([] ++ [ExtraData.row_no_date] ++ ExtraData.db_spike)) "2330" None None None =
  analyze_stock module_flags (fun l => l) (Some ([] ++ ExtraData.db_spike)) "2330"
    None None None.
Proof.
  apply analyze_stock_skips_incomplete_rows; [reflexivity|].
  intros r [<-|[]]. left. reflexivity.
Defined.

End StockSelectFacts.

(** * Facts about the code lists and the company lists *)
Module StockCodesFacts.
Import PyStr StockCodes.

Lemma pystr_eqb_eq (a b : pystr) : pystr_eqb a b = true <-> a = b.
Proof.
  revert b. induction a as [|x a IH]; intros [|y b]; simpl;
    try (split; [discriminate|congruence]); [split; reflexivity|].
  rewrite andb_true_iff, Z.eqb_eq, IH. split; [intros [-> ->]; reflexivity|].
  intro E; injection E as -> ->. split; reflexivity.
Qed.

Lemma pystr_ltb_irrefl (a : pystr) : pystr_ltb a a = false.
Proof.
  induction a as [|x a IH]; [reflexivity|]. simpl.
  rewrite Z.ltb_irrefl, Z.eqb_refl, IH. reflexivity.
Qed.

Lemma pystr_ltb_trans (a b c : pystr) :
  pystr_ltb a b = true -> pystr_ltb b c = true -> pystr_ltb a c = true.
Proof.
  revert b c. induction a as [|x a IH]; intros [|y b] [|z c]; simpl; try discriminate;
    [reflexivity|].
  rewrite !orb_true_iff, !andb_true_iff, !Z.ltb_lt, !Z.eqb_eq.
  intros [H1|[-> H1]] [H2|[-> H2]]; [left; lia|left; lia|left; lia|].
  right. split; [reflexivity|]. eapply IH; eassumption.
Qed.

Lemma pystr_ltb_total (a b : pystr) :
  pystr_ltb a b = false -> pystr_ltb b a = false -> a = b.
Proof.
  revert b. induction a as [|x a IH]; intros [|y b]; simpl; try discriminate;
    [reflexivity|].
  rewrite !orb_false_iff, !andb_false_iff, !Z.ltb_ge, !Z.eqb_neq.
  intros [H1 H2] [H3 H4].
  assert (x = y) by lia. subst y. f_equal.
  destruct H2 as [H2|H2]; [congruence|]. destruct H4 as [H4|H4]; [congruence|].
  apply IH; assumption.
Qed.

Lemma pystr_ltb_asym (a b : pystr) : pystr_ltb a b = true -> pystr_ltb b a = false.
Proof.
  intro H. destruct (pystr_ltb b a) eqn:E; [|reflexivity].
  rewrite <- (pystr_ltb_irrefl a). symmetry. eapply pystr_ltb_trans; eassumption.
Qed.

(** [a <= b] as [not (b < a)]. *)
Definition pystr_le (a b : pystr) : Prop := pystr_ltb b a = false.

Lemma pystr_le_trans a b c : pystr_le a b -> pystr_le b c -> pystr_le a c.
Proof.
  unfold pystr_le. intros H1 H2.
  destruct (pystr_ltb a b) eqn:E1.
  - destruct (pystr_ltb b c) eqn:E2.
    + apply pystr_ltb_asym. eapply pystr_ltb_trans; eassumption.
    + rewrite (pystr_ltb_total b c E2 H2) in E1. apply pystr_ltb_asym, E1.
  - rewrite (pystr_ltb_total a b E1 H1). exact H2.
Qed.

Lemma set_add_In s y x : In x (set_add s y) <-> In x s \/ x = y.
Proof.
  unfold set_add. destruct (existsb (pystr_eqb y) s) eqn:E.
  - apply existsb_exists in E as [z [Hz Ez]]. apply pystr_eqb_eq in Ez. subst z.
    split; [auto|intros [H| ->]; assumption].
  - rewrite in_app_iff. simpl. split; [intros [H|[<-|[]]]; auto|intros [H| ->]; auto].
Qed.

Lemma set_add_NoDup s y : NoDup s -> NoDup (set_add s y).
Proof.
  unfold set_add. intro Hs. destruct (existsb (pystr_eqb y) s) eqn:E; [exact Hs|].
  apply (Permutation_NoDup (Permutation_cons_append s y)). constructor; [|exact Hs].
  intro Hy. apply not_true_iff_false in E. apply E, existsb_exists.
  exists y. split; [exact Hy|apply pystr_eqb_eq; reflexivity].
Qed.

Lemma set_update_spec xs s :
  (forall x, In x (set_update s xs) <-> In x s \/ In x xs) /\
  (NoDup s -> NoDup (set_update s xs)).
Proof.
  unfold set_update. revert s. induction xs as [|y xs IH]; intro s; simpl.
  - split; [intro x; tauto|auto].
  - destruct (IH (set_add s y)) as [H1 H2]. split.
    + intro x. rewrite H1, set_add_In. intuition.
    + intro Hs. apply H2, set_add_NoDup, Hs.
Qed.

Lemma insert_sorted_perm y l : Permutation (insert_sorted y l) (y :: l).
Proof.
  induction l as [|a l IH]; simpl; [reflexivity|].
  destruct (pystr_ltb a y); [|reflexivity].
  rewrite IH. apply perm_swap.
Qed.

Lemma insert_sorted_sorted y l :
  StronglySorted pystr_le l -> StronglySorted pystr_le (insert_sorted y l).
Proof.
  induction l as [|a l IH]; simpl; intro Hs.
  - constructor; constructor.
  - apply StronglySorted_inv in Hs as [Hs Ha].
    destruct (pystr_ltb a y) eqn:E.
    + constructor; [apply IH, Hs|].
      apply (Permutation_Forall (Permutation_sym (insert_sorted_perm y l))).
      constructor; [apply pystr_ltb_asym, E|exact Ha].
    + constructor; [constructor; [exact Hs|exact Ha]|].
      constructor; [exact E|].
      eapply Forall_impl; [|exact Ha]. intros z Hz. eapply pystr_le_trans; eassumption.
Qed.

Lemma py_sorted_spec l :
  Permutation (py_sorted l) l /\ StronglySorted pystr_le (py_sorted l).
Proof.
  unfold py_sorted. induction l as [|y l [IH1 IH2]]; simpl.
  - split; constructor.
  - split; [rewrite insert_sorted_perm, IH1; reflexivity|apply insert_sorted_sorted, IH2].
Qed.

Lemma sorted_strict l :
  StronglySorted pystr_le l -> NoDup l ->
  StronglySorted (fun a b => pystr_ltb a b = true) l.
Proof.
  induction l as [|a l IH]; intros Hs Hn; [constructor|].
  apply StronglySorted_inv in Hs as [Hs Ha]. inversion Hn as [|? ? Hna Hnl]; subst.
  constructor; [apply IH; assumption|].
  apply Forall_forall. intros z Hz. rewrite Forall_forall in Ha.
  destruct (pystr_ltb a z) eqn:E; [reflexivity|].
  exfalso. apply Hna. rewrite (pystr_ltb_total a z E (Ha z Hz)). exact Hz.
Qed.

Lemma sorted_codes l :
  NoDup l ->
  NoDup (py_sorted l) /\
  StronglySorted (fun a b => pystr_ltb a b = true) (py_sorted l) /\
  (forall c, In c (py_sorted l) <-> In c l).
Proof.
  intro Hn. destruct (py_sorted_spec l) as [Hp Hs].
  assert (Hn' : NoDup (py_sorted l)) by (apply (Permutation_NoDup (Permutation_sym Hp)), Hn).
  split; [exact Hn'|]. split; [apply sorted_strict; assumption|].
  intro c. split; apply Permutation_in; [exact Hp|apply Permutation_sym, Hp].
Qed.

Lemma merged_codes tse otc :
  NoDup (set_update (set_update [] (db_codes tse)) (db_codes otc)) /\
  forall c, In c (set_update (set_update [] (db_codes tse)) (db_codes otc)) <->
            In c (db_codes tse) \/ In c (db_codes otc).
Proof.
  destruct (set_update_spec (db_codes tse) []) as [A1 A2].
  destruct (set_update_spec (db_codes otc) (set_update [] (db_codes tse))) as [B1 B2].
  split; [apply B2, A2; constructor|].
  intro c. rewrite B1, A1. simpl. tauto.
Qed.

(** X20.  [get_all_stock_codes] (StockTrend2.py) returns each code found in
    either database exactly once, nothing else, in strictly increasing
    string order; a database that is missing or fails adds nothing. *)
Theorem get_all_stock_codes_spec tse otc :
  NoDup (get_all_stock_codes tse otc) /\
  StronglySorted (fun a b => pystr_ltb a b = true) (get_all_stock_codes tse otc) /\
  (forall c, In c (get_all_stock_codes tse otc) <->
             In c (db_codes tse) \/ In c (db_codes otc)).
Proof.
  unfold get_all_stock_codes. destruct (merged_codes tse otc) as [Hn Hin].
  destruct (sorted_codes _ Hn) as (H1 & H2 & H3).
  split; [exact H1|]. split; [exact H2|]. intro c. rewrite H3. apply Hin.
Qed.

(** X21.  The StockTrend_Gemini.py version returns the same sorted,
    duplicate-free list without the codes that start with "00". *)
Theorem get_all_stock_codes_no_etf_spec tse otc :
  NoDup (get_all_stock_codes_no_etf tse otc) /\
  StronglySorted (fun a b => pystr_ltb a b = true) (get_all_stock_codes_no_etf tse otc) /\
  (forall c, In c (get_all_stock_codes_no_etf tse otc) <->
             (In c (db_codes tse) \/ In c (db_codes otc)) /\
             startswith c [48; 48]%Z = false).
Proof.
  unfold get_all_stock_codes_no_etf. cbv zeta. destruct (merged_codes tse otc) as [Hn Hin].
  destruct (sorted_codes _ (NoDup_filter (fun code => negb (startswith code [48; 48]%Z)) Hn)) as (H1 & H2 & H3).
  split; [exact H1|]. split; [exact H2|]. intro c.
  rewrite H3, filter_In, Hin, negb_true_iff. reflexivity.
Qed.

End StockCodesFacts.

Module CompanyListFacts.
Import PyStr CompanyList.

Lemma dict_lookup_set k c v d :
  dict_lookup k (dict_set c v d) =
  if pystr_eqb k c then Some v else dict_lookup k d.
Proof.
  induction d as [|[k' v'] d IH]; simpl; [reflexivity|].
  destruct (pystr_eqb c k') eqn:E1.
  - apply StockCodesFacts.pystr_eqb_eq in E1. subst k'. simpl.
    destruct (pystr_eqb k c); reflexivity.
  - simpl. rewrite IH. destruct (pystr_eqb k k') eqn:E2; [|reflexivity].
    apply StockCodesFacts.pystr_eqb_eq in E2. subst k'.
    destruct (pystr_eqb k c) eqn:E3; [|reflexivity].
    apply StockCodesFacts.pystr_eqb_eq in E3. subst c.
    rewrite (proj2 (StockCodesFacts.pystr_eqb_eq k k) eq_refl) in E1. discriminate.
Qed.

(** A data line whose parsed code is [k]. *)
Definition line_has_code (k line : pystr) : bool :=
  match parse_line line with Some (c, _, _) => pystr_eqb k c | None => false end.

(** The entry a data line gives for market [m]. *)
Definition line_entry (m : market) (line : pystr) : option company :=
  match parse_line line with Some (_, n, s) => Some (mkCompany n m s) | None => None end.

Definition lines_of (f : option (list pystr)) : list pystr :=
  match f with Some ls => ls | None => [] end.

Lemma load_file_lookup m f d k :
  dict_lookup k (load_file m f d) =
  match find (line_has_code k) (rev (tl (lines_of f))) with
  | Some line => line_entry m line
  | None => dict_lookup k d
  end.
Proof.
  destruct f as [ls|]; [|reflexivity]. unfold load_file, lines_of.
  generalize (tl ls). clear ls. intro ls.
  induction ls as [|x ls IH] using rev_ind; [reflexivity|].
  rewrite fold_left_app, rev_app_distr. simpl.
  unfold line_has_code at 1.
  destruct (parse_line x) as [[[c n] s]|] eqn:Ep.
  - rewrite dict_lookup_set. destruct (pystr_eqb k c); [|exact IH].
    unfold line_entry. rewrite Ep. reflexivity.
  - exact IH.
Qed.

(** X22.  In the dictionary [load_company_lists] builds, a code maps to the
    entry of the last data line of the OTC file with that code, else to the
    entry of the last such line of the listed file, else to nothing; the
    first line of each file is never read as data. *)
Theorem load_company_lists_lookup tse otc k :
  dict_lookup k (load_company_lists tse otc) =
  match find (line_has_code k) (rev (tl (lines_of otc))) with
  | Some line => line_entry OTC line
  | None =>
      match find (line_has_code k) (rev (tl (lines_of tse))) with
      | Some line => line_entry Listed line
      | None => None
      end
  end.
Proof.
  unfold load_company_lists. rewrite load_file_lookup, load_file_lookup. reflexivity.
Qed.

Lemma length_py_split_aux sep s cur :
  length (py_split_aux sep s cur) = S (count_occ Z.eq_dec s sep).
Proof.
  revert cur. induction s as [|c s IH]; intro cur; simpl; [reflexivity|].
  destruct (c =? sep)%Z eqn:E.
  - apply Z.eqb_eq in E. subst c. destruct (Z.eq_dec sep sep) as [_|n]; [|congruence].
    simpl. rewrite IH. reflexivity.
  - apply Z.eqb_neq in E. destruct (Z.eq_dec c sep) as [e|_]; [congruence|]. apply IH.
Qed.

(** X23.  A line is skipped exactly when, once stripped of surrounding
    whitespace (tabs included), it has fewer than two tabs; so a line whose
    last field is empty loses its trailing tab and is skipped. *)
Theorem parse_line_skips line :
  parse_line line = None <-> (count_occ Z.eq_dec (py_strip line) 9%Z < 2)%nat.
Proof.
  unfold parse_line, py_split. rewrite length_py_split_aux.
  destruct (3 <=? S (count_occ Z.eq_dec (py_strip line) 9%Z))%nat eqn:E.
  - apply Nat.leb_le in E. split; [discriminate|lia].
  - apply Nat.leb_gt in E. split; [lia|reflexivity].
Qed.

End CompanyListFacts.
